(** * Enhanced RIR parser: a shallow embedding of [enhanced_rir_parser.py]

    The Python class [RIRDataParser] turns the delegation files of the
    regional internet registries into two SQLite tables and answers
    address lookups from them.  This file embeds the parts of the class
    that decide what is stored and what a lookup returns:

    - Python text is [string]; the delegation files are ASCII, and the
      character classes below ([is_space], [is_digit], [upper]) are the
      ASCII restrictions of the Python ones;
    - Python integers are [Z];
    - a fallible library call ([int], [ipaddress], [strptime]) returns
      [option], [None] standing for the [ValueError] the caller catches;
    - a SQLite table is the list of its rows in rowid order, and the
      database file is a record of the tables that is threaded through
      the operations, one value per commit.

    Beside these it embeds [cidr_to_range], the retry loop of
    [download_rir_data] over a network that answers each request,
    [_get_file_size] with doubles as exact quotients, and the rows that
    the two exports list.

    The library functions follow CPython's [ipaddress], [_strptime] and
    [int] (3.11 and later, where [int] refuses more than 4300 digits and
    IPv4 octets refuse leading zeros). *)

From Stdlib Require Import ZArith NArith List String Ascii Bool Lia.
From Stdlib Require Import DecimalString HexadecimalString DecimalPos HexadecimalPos.
From Stdlib Require Import Permutation Sorted.
Import ListNotations.

Open Scope string_scope.
Open Scope Z_scope.

(** ** Python text *)

Module Py.

Definition code (c : ascii) : N := N_of_ascii c.

(** [str.isspace] on ASCII: tab to carriage return, the four separators
    0x1c-0x1f, and the blank. *)
Definition is_space (c : ascii) : bool :=
  let n := code c in
  ((9 <=? n) && (n <=? 13) || (28 <=? n) && (n <=? 32))%N.

Definition is_digit (c : ascii) : bool :=
  let n := code c in ((48 <=? n) && (n <=? 57))%N.

Definition digit_val (c : ascii) : Z := Z.of_N (code c) - 48.

Definition is_hex_digit (c : ascii) : bool :=
  let n := code c in
  ((48 <=? n) && (n <=? 57) || (65 <=? n) && (n <=? 70)
   || (97 <=? n) && (n <=? 102))%N.

Definition hex_val (c : ascii) : Z :=
  let n := Z.of_N (code c) in
  if n <=? 57 then n - 48 else if n <=? 70 then n - 55 else n - 87.

Definition is_empty (s : string) : bool :=
  match s with EmptyString => true | String _ _ => false end.

Fixpoint all_chars (p : ascii -> bool) (s : string) : bool :=
  match s with
  | EmptyString => true
  | String c r => p c && all_chars p r
  end.

(** [ch in s] *)
Fixpoint contains (ch : ascii) (s : string) : bool :=
  match s with
  | EmptyString => false
  | String c r => Ascii.eqb c ch || contains ch r
  end.

Definition startswith (s p : string) : bool := String.prefix p s.

Fixpoint lstrip (s : string) : string :=
  match s with
  | EmptyString => EmptyString
  | String c r => if is_space c then lstrip r else s
  end.

Fixpoint rstrip (s : string) : string :=
  match s with
  | EmptyString => EmptyString
  | String c r =>
      match rstrip r with
      | EmptyString => if is_space c then EmptyString else String c EmptyString
      | r' => String c r'
      end
  end.

(** [s.strip()] *)
Definition strip (s : string) : string := rstrip (lstrip s).

(** [s.split(sep)] for a one-character separator: never empty, the
    empty text splits into one empty field. *)
Fixpoint split (sep : ascii) (s : string) : list string :=
  match s with
  | EmptyString => [EmptyString]
  | String c r =>
      if Ascii.eqb c sep then EmptyString :: split sep r
      else match split sep r with
           | f :: fs => String c f :: fs
           | [] => [String c EmptyString]
           end
  end.

(** [sep.join(parts)] *)
Fixpoint join (sep : string) (parts : list string) : string :=
  match parts with
  | [] => EmptyString
  | [p] => p
  | p :: ps => p ++ sep ++ join sep ps
  end.

Definition upper_char (c : ascii) : ascii :=
  let n := code c in
  if ((97 <=? n) && (n <=? 122))%N then ascii_of_N (n - 32) else c.

(** [s.upper()] *)
Fixpoint upper (s : string) : string :=
  match s with
  | EmptyString => EmptyString
  | String c r => String (upper_char c) (upper r)
  end.

(** [len(s)] *)
Definition len (s : string) : Z := Z.of_nat (String.length s).

(** The digits of a decimal literal after the sign: a digit, then digits
    with single underscores between them.  Returns the value and the
    number of digits. *)
Fixpoint int_body (s : string) (acc : Z) (ndigits : N) (after_underscore : bool)
  : option (Z * N) :=
  match s with
  | EmptyString => if after_underscore then None else Some (acc, ndigits)
  | String c r =>
      if is_digit c then int_body r (10 * acc + digit_val c) (N.succ ndigits) false
      else if Ascii.eqb c "_" && negb after_underscore then int_body r acc ndigits true
      else None
  end.

(** [sys.get_int_max_str_digits()], the default. *)
Definition int_max_str_digits : N := 4300.

(** An optional sign in front of a literal. *)
Definition split_sign (t : string) : bool * string :=
  match t with
  | String "-" r => (true, r)
  | String "+" r => (false, r)
  | _ => (false, t)
  end.

(** C's [isspace] on ASCII, the whitespace that [int] skips around a
    literal: tab to carriage return, and the blank.  The separators
    0x1c-0x1f, which [str.strip] removes, are not among it. *)
Definition is_c_space (c : ascii) : bool :=
  let n := code c in ((9 <=? n) && (n <=? 13) || (n =? 32))%N.

Fixpoint lstrip_by (p : ascii -> bool) (s : string) : string :=
  match s with
  | EmptyString => EmptyString
  | String c r => if p c then lstrip_by p r else s
  end.

Fixpoint rstrip_by (p : ascii -> bool) (s : string) : string :=
  match s with
  | EmptyString => EmptyString
  | String c r =>
      match rstrip_by p r with
      | EmptyString => if p c then EmptyString else String c EmptyString
      | r' => String c r'
      end
  end.

(** [int(s)] for an ASCII text: whitespace in the sense of C around the
    literal, an optional sign, a decimal literal of at most
    [int_max_str_digits] digits. *)
Definition int (s : string) : option Z :=
  let '(neg, body) := split_sign (rstrip_by is_c_space (lstrip_by is_c_space s)) in
  match body with
  | EmptyString => None
  | String c _ =>
      if is_digit c then
        match int_body body 0 0%N false with
        | Some (v, n) =>
            if (int_max_str_digits <? n)%N then None
            else Some (if neg then - v else v)
        | None => None
        end
      else None
  end.

(** [int(s, 10)] and [int(s, 16)] on a text already known to hold only
    digits of the base. *)
Fixpoint of_digits (base : Z) (val : ascii -> Z) (s : string) (acc : Z) : Z :=
  match s with
  | EmptyString => acc
  | String c r => of_digits base val r (base * acc + val c)
  end.

(** ["%d" % n] *)
Definition str_int (n : Z) : string :=
  DecimalString.NilEmpty.string_of_int (Z.to_int n).

(** ["%x" % n] for [0 <= n] *)
Definition str_hex (n : Z) : string :=
  HexadecimalString.NilEmpty.string_of_uint (N.to_hex_uint (Z.to_N n)).

End Py.

(** ** [datetime.strptime(date, '%Y%m%d')] *)

Module Strptime.
Import Py.

(** One regular-expression alternative: a pattern of character classes
    that consumes a prefix of the text. *)
Fixpoint eat (classes : list (ascii -> bool)) (s : string) (taken : string)
  : option (string * string) :=
  match classes with
  | [] => Some (taken, s)
  | p :: ps =>
      match s with
      | String c r => if p c then eat ps r (taken ++ String c EmptyString) else None
      | EmptyString => None
      end
  end.

Definition between (lo hi : ascii) (c : ascii) : bool :=
  ((code lo <=? code c) && (code c <=? code hi))%N.

Definition is_char (x : ascii) (c : ascii) : bool := Ascii.eqb c x.

(** The alternatives of a directive, in the order the engine tries them;
    each one that matches yields what it consumed and what is left. *)
Definition alternatives (alts : list (list (ascii -> bool))) (s : string)
  : list (string * string) :=
  flat_map (fun a => match eat a s EmptyString with
                     | Some m => [m]
                     | None => []
                     end) alts.

(** [%Y] is [\d\d\d\d]. *)
Definition re_Y : list (list (ascii -> bool)) :=
  [[is_digit; is_digit; is_digit; is_digit]].

(** [%m] is [1[0-2]|0[1-9]|[1-9]]. *)
Definition re_m : list (list (ascii -> bool)) :=
  [[is_char "1"; between "0" "2"]; [is_char "0"; between "1" "9"]; [between "1" "9"]].

(** [%d] is [3[0-1]|[1-2]\d|0[1-9]|[1-9]| [1-9]]. *)
Definition re_d : list (list (ascii -> bool)) :=
  [[is_char "3"; between "0" "1"]; [between "1" "2"; is_digit];
   [is_char "0"; between "1" "9"]; [between "1" "9"]; [is_char " "; between "1" "9"]].

(** [re.match] of the compiled format: the first way, in backtracking
    order, to match year, month and day from the start of the text. *)
Definition format_match (s : string) : option (string * string * string * string) :=
  hd_error
    (flat_map (fun '(y, r1) =>
       flat_map (fun '(m, r2) =>
         map (fun '(d, r3) => (y, m, d, r3)) (alternatives re_d r2))
         (alternatives re_m r1))
       (alternatives re_Y s)).

Definition is_leap (y : Z) : bool :=
  (y mod 4 =? 0) && (negb (y mod 100 =? 0) || (y mod 400 =? 0)).

Definition days_in_month (y m : Z) : Z :=
  if m =? 2 then (if is_leap y then 29 else 28)
  else if (m =? 4) || (m =? 6) || (m =? 9) || (m =? 11) then 30
  else 31.

(** [datetime.date(y, m, d)] succeeds *)
Definition valid_date (y m d : Z) : bool :=
  (1 <=? y) && (y <=? 9999) && (1 <=? m) && (m <=? 12)
  && (1 <=? d) && (d <=? days_in_month y m).

(** [datetime.strptime(s, '%Y%m%d')]: the match must consume the whole
    text ("unconverted data remains" otherwise) and the three numbers
    must form a date.  [None] is the [ValueError]. *)
Definition strptime_Ymd (s : string) : option (Z * Z * Z) :=
  match format_match s with
  | Some (y, m, d, rest) =>
      if negb (is_empty rest) then None
      else
        match int y, int m, int d with
        | Some yv, Some mv, Some dv =>
            if valid_date yv mv dv then Some (yv, mv, dv) else None
        | _, _, _ => None
        end
  | None => None
  end.

End Strptime.

(** ** The record normalizer: [parse_rir_line] *)

(** The dict [parse_rir_line] returns. *)
Record Entry : Type := mkEntry {
  registry : string;
  country_code : string;
  type : string;
  start : string;
  value : string;
  date : string;
  status : string
}.

(** The date validation of lines 134-139. *)
Definition validate_date (date : string) : string :=
  if negb (Py.is_empty date) && (Py.len date =? 8) then
    match Strptime.strptime_Ymd date with
    | Some _ => date
    | None => EmptyString
    end
  else date.

(** Lines 121-149 of [parse_rir_line]: what becomes of the fields of a
    line once it is split. *)
Definition entry_of_fields (fields : list string) : option Entry :=
  if Z.of_nat (List.length fields) <? 7 then None
  else
    match firstn 7 fields with
    | [registry; cc; type_field; start; value; date; status] =>
        if String.eqb cc "*" || negb (Py.len cc =? 2) then None
        else if negb (existsb (String.eqb type_field) ["ipv4"; "ipv6"]) then None
        else
          Some (mkEntry registry (Py.upper cc) type_field start value
                        (validate_date date) status)
    | _ => None
    end.

Definition parse_rir_line (line : string) : option Entry :=
  if Py.startswith line "#" || Py.is_empty (Py.strip line) then None
  else entry_of_fields (Py.split "|" (Py.strip line)).

(** ** The [ipaddress] module *)

Module ipaddress.
Import Py.

(** All results or the first failure, as a comprehension that raises. *)
Fixpoint all_some {A : Type} (l : list (option A)) : option (list A) :=
  match l with
  | [] => Some []
  | Some a :: r =>
      match all_some r with
      | Some r' => Some (a :: r')
      | None => None
      end
  | None :: _ => None
  end.

(** [IPv4Address._parse_octet] *)
Definition parse_octet (octet_str : string) : option Z :=
  if is_empty octet_str then None
  else if negb (all_chars is_digit octet_str) then None
  else if 3 <? len octet_str then None
  else if negb (String.eqb octet_str "0") && startswith octet_str "0" then None
  else
    let octet_int := of_digits 10 digit_val octet_str 0 in
    if 255 <? octet_int then None else Some octet_int.

(** [int.from_bytes(octets, 'big')] *)
Definition from_bytes_big (octets : list Z) : Z :=
  fold_left (fun acc b => acc * 256 + b) octets 0.

(** [ip_int.to_bytes(4, 'big')] *)
Definition to_bytes4_big (ip_int : Z) : list Z :=
  map (fun k => Z.land (Z.shiftr ip_int k) 255) [24; 16; 8; 0].

(** [IPv4Address._ip_int_from_string] *)
Definition ipv4_int_from_string (ip_str : string) : option Z :=
  if is_empty ip_str then None
  else
    let octets := split "." ip_str in
    if negb (Z.of_nat (List.length octets) =? 4) then None
    else option_map from_bytes_big (all_some (map parse_octet octets)).

(** [IPv4Address(address)] for a text argument; the value is [_ip]. *)
Definition IPv4Address (address : string) : option Z :=
  if contains "/" address then None else ipv4_int_from_string address.

(** [str(IPv4Address(ip_int))] *)
Definition str_ipv4 (ip_int : Z) : string :=
  join "." (map str_int (to_bytes4_big ip_int)).

(** An [IPv6Address] object: [_ip] and [_scope_id]. *)
Record IPv6Addr : Type := mkIPv6Addr {
  ip : Z;
  scope_id : option string
}.

(** [s.partition(sep)]: the text before the first separator and, when
    there is one, the text after it. *)
Fixpoint partition (sep : ascii) (s : string) : string * option string :=
  match s with
  | EmptyString => (EmptyString, None)
  | String c r =>
      if Ascii.eqb c sep then (EmptyString, Some r)
      else let '(a, b) := partition sep r in (String c a, b)
  end.

(** [_split_scope_id] *)
Definition split_scope_id (ip_str : string) : option (string * option string) :=
  match partition "%" ip_str with
  | (addr, None) => Some (addr, None)
  | (addr, Some scope) =>
      if is_empty scope || contains "%" scope then None
      else Some (addr, Some scope)
  end.

(** [IPv6Address._parse_hextet]; [int('', 16)] raises. *)
Definition parse_hextet (hextet_str : string) : option Z :=
  if negb (all_chars is_hex_digit hextet_str) then None
  else if 4 <? len hextet_str then None
  else if is_empty hextet_str then None
  else Some (of_digits 16 hex_val hextet_str 0).

(** The two loops that shift hextets into [ip_int]. *)
Fixpoint shift_hextets (hextets : list string) (ip_int : Z) : option Z :=
  match hextets with
  | [] => Some ip_int
  | h :: r =>
      match parse_hextet h with
      | Some v => shift_hextets r (Z.lor (Z.shiftl ip_int 16) v)
      | None => None
      end
  end.

Definition HEXTET_COUNT : Z := 8.

Definition part (parts : list string) (i : Z) : string :=
  nth (Z.to_nat i) parts EmptyString.

(** The interior indices [1 .. len(parts) - 2] whose part is empty. *)
Definition interior_empty (parts : list string) : list Z :=
  filter (fun i => is_empty (part parts i))
         (map Z.of_nat (seq 1 (List.length parts - 2))).

(** [parts_hi], [parts_lo] and [parts_skipped] of
    [IPv6Address._ip_int_from_string]. *)
Definition hextet_layout (parts : list string) : option (Z * Z * Z) :=
  let n := Z.of_nat (List.length parts) in
  match interior_empty parts with
  | _ :: _ :: _ => None
  | [skip_index] =>
      let parts_hi := skip_index in
      let parts_lo := n - skip_index - 1 in
      let first_empty := is_empty (part parts 0) in
      let last_empty := is_empty (part parts (n - 1)) in
      let parts_hi := if first_empty then parts_hi - 1 else parts_hi in
      if first_empty && negb (parts_hi =? 0) then None
      else
        let parts_lo := if last_empty then parts_lo - 1 else parts_lo in
        if last_empty && negb (parts_lo =? 0) then None
        else
          let parts_skipped := HEXTET_COUNT - (parts_hi + parts_lo) in
          if parts_skipped <? 1 then None
          else Some (parts_hi, parts_lo, parts_skipped)
  | [] =>
      if negb (n =? HEXTET_COUNT) then None
      else if is_empty (part parts 0) then None
      else if is_empty (part parts (n - 1)) then None
      else Some (n, 0, 0)
  end.

(** [IPv6Address._ip_int_from_string] *)
Definition ipv6_int_from_string (ip_str : string) : option Z :=
  if is_empty ip_str then None
  else
    let parts := split ":" ip_str in
    if Z.of_nat (List.length parts) <? 3 then None
    else
      let tail := last parts EmptyString in
      let with_suffix :=
        if contains "." tail then
          match IPv4Address tail with
          | Some ipv4_int =>
              Some (removelast parts
                    ++ [str_hex (Z.land (Z.shiftr ipv4_int 16) 65535);
                        str_hex (Z.land ipv4_int 65535)])%list
          | None => None
          end
        else Some parts in
      match with_suffix with
      | None => None
      | Some parts =>
          let n := List.length parts in
          if HEXTET_COUNT + 1 <? Z.of_nat n then None
          else
            match hextet_layout parts with
            | None => None
            | Some (parts_hi, parts_lo, parts_skipped) =>
                match shift_hextets (firstn (Z.to_nat parts_hi) parts) 0 with
                | None => None
                | Some hi =>
                    shift_hextets (skipn (n - Z.to_nat parts_lo) parts)
                                  (Z.shiftl hi (16 * parts_skipped))
                end
            end
      end.

(** [IPv6Address(address)] for a text argument. *)
Definition IPv6Address (address : string) : option IPv6Addr :=
  if contains "/" address then None
  else
    match split_scope_id address with
    | None => None
    | Some (addr_str, scope) =>
        option_map (fun ip_int => mkIPv6Addr ip_int scope)
                   (ipv6_int_from_string addr_str)
    end.

(** The loop of [_compress_hextets]: the first longest run of ["0"]
    hextets, as (best start, best length, current start, current length). *)
Definition zero_run_step (st : Z * Z * Z * Z) (ih : Z * string) : Z * Z * Z * Z :=
  let '(best_start, best_len, cur_start, cur_len) := st in
  let '(index, hextet) := ih in
  if String.eqb hextet "0" then
    let cur_len := cur_len + 1 in
    let cur_start := if cur_start =? -1 then index else cur_start in
    if best_len <? cur_len then (cur_start, cur_len, cur_start, cur_len)
    else (best_start, best_len, cur_start, cur_len)
  else (best_start, best_len, -1, 0).

Definition enumerate {A : Type} (l : list A) : list (Z * A) :=
  combine (map Z.of_nat (seq 0 (List.length l))) l.

(** [IPv6Address._compress_hextets] *)
Definition compress_hextets (hextets : list string) : list string :=
  let '(best_start, best_len, _, _) :=
    fold_left zero_run_step (enumerate hextets) (-1, 0, -1, 0) in
  if 1 <? best_len then
    let best_end := best_start + best_len in
    let hextets :=
      if best_end =? Z.of_nat (List.length hextets)
      then (hextets ++ [EmptyString])%list else hextets in
    let hextets :=
      (firstn (Z.to_nat best_start) hextets ++ [EmptyString]
       ++ skipn (Z.to_nat best_end) hextets)%list in
    if best_start =? 0 then EmptyString :: hextets else hextets
  else hextets.

(** [IPv6Address._string_from_ip_int] *)
Definition string_from_ip_int (ip_int : Z) : string :=
  let hextets :=
    map (fun k => str_hex (Z.land (Z.shiftr ip_int k) 65535))
        [112; 96; 80; 64; 48; 32; 16; 0] in
  join ":" (compress_hextets hextets).

(** [str(a)] of an [IPv6Address] *)
Definition str_ipv6 (a : IPv6Addr) : string :=
  match scope_id a with
  | Some scope =>
      if is_empty scope then string_from_ip_int (ip a)
      else string_from_ip_int (ip a) ++ "%" ++ scope
  | None => string_from_ip_int (ip a)
  end.

Definition ALL_ONES : Z := 2 ^ 128 - 1.
Definition max_prefixlen : Z := 128.

(** [_ip_int_from_prefix] *)
Definition ip_int_from_prefix (prefixlen : Z) : Z :=
  Z.lxor ALL_ONES (Z.shiftr ALL_ONES prefixlen).

(** [_prefix_from_prefix_string] *)
Definition prefix_from_prefix_string (prefixlen_str : string) : option Z :=
  if negb (negb (is_empty prefixlen_str) && all_chars is_digit prefixlen_str)
  then None
  else
    match int prefixlen_str with
    | None => None
    | Some prefixlen =>
        if negb ((0 <=? prefixlen) && (prefixlen <=? max_prefixlen)) then None
        else Some prefixlen
    end.

(** An [IPv6Network] object. *)
Record IPv6Net : Type := mkIPv6Net {
  network_address : IPv6Addr;
  netmask : Z;
  prefixlen : Z
}.

(** [IPv6Network(address, strict=False)] for a text argument. *)
Definition IPv6Network (address : string) : option IPv6Net :=
  let addr := split "/" address in
  if 2 <? Z.of_nat (List.length addr) then None
  else
    match addr with
    | [a; mask] =>
        match IPv6Address a with
        | None => None
        | Some network_address =>
            match prefix_from_prefix_string mask with
            | None => None
            | Some prefixlen =>
                let netmask := ip_int_from_prefix prefixlen in
                let packed := ip network_address in
                let network_address :=
                  if negb (Z.land packed netmask =? packed)
                  then mkIPv6Addr (Z.land packed netmask) None
                  else network_address in
                Some (mkIPv6Net network_address netmask prefixlen)
            end
        end
    | [a] =>
        option_map (fun na => mkIPv6Net na (ip_int_from_prefix max_prefixlen)
                                        max_prefixlen)
                   (IPv6Address a)
    | _ => None
    end.

(** [other in network] for an IPv6 address *)
Definition net_contains (network : IPv6Net) (other : IPv6Addr) : bool :=
  Z.land (ip other) (netmask network) =? ip (network_address network).

(** [str(network)] *)
Definition str_network (network : IPv6Net) : string :=
  str_ipv6 (network_address network) ++ "/" ++ str_int (prefixlen network).

(** What [ipaddress.ip_address] returns. *)
Inductive ip_object : Type :=
  | V4 (ip_int : Z)
  | V6 (a : IPv6Addr).

(** [ipaddress.ip_address(address)]: IPv4 first, then IPv6;
    [None] is the [ValueError]. *)
Definition ip_address (address : string) : option ip_object :=
  match IPv4Address address with
  | Some ip_int => Some (V4 ip_int)
  | None => option_map V6 (IPv6Address address)
  end.

Definition version (o : ip_object) : Z :=
  match o with V4 _ => 4 | V6 _ => 6 end.

Definition str_ip (o : ip_object) : string :=
  match o with
  | V4 ip_int => str_ipv4 ip_int
  | V6 a => str_ipv6 a
  end.

End ipaddress.

(** ** Exceptions that leave a method *)

Inductive exn : Type :=
  | ValueError
  | OverflowError.

(** The outcome of a call: a value, or an exception nobody caught. *)
Inductive py (A : Type) : Type :=
  | Ret (a : A)
  | Raise (e : exn).

Arguments Ret {A} a.
Arguments Raise {A} e.

Definition bind {A B : Type} (m : py A) (k : A -> py B) : py B :=
  match m with
  | Ret a => k a
  | Raise e => Raise e
  end.

Notation "x <- m ;; k" := (bind m (fun x => k))
  (at level 61, m at next level, right associativity).

(** ** The database *)

(** A row of [ipv4_ranges]. *)
Module V4.
Record row : Type := mkRow {
  id : Z;
  start_ip : Z;
  end_ip : Z;
  country_code : string;
  rir : string;
  date_allocated : string;
  status : string
}.
(** The tuple [insert_entries_to_db] binds to the INSERT. *)
Definition tuple : Type := (Z * Z * string * string * string * string)%type.
Definition with_id (i : Z) (t : tuple) : row :=
  let '(s, e, cc, r, d, st) := t in mkRow i s e cc r d st.
Definition columns (r : row) : tuple :=
  (start_ip r, end_ip r, country_code r, rir r, date_allocated r, status r).
End V4.

(** A row of [ipv6_ranges]. *)
Module V6.
Record row : Type := mkRow {
  id : Z;
  network : string;
  prefix_length : Z;
  country_code : string;
  rir : string;
  date_allocated : string;
  status : string
}.
Definition tuple : Type := (string * Z * string * string * string * string)%type.
Definition with_id (i : Z) (t : tuple) : row :=
  let '(n, p, cc, r, d, st) := t in mkRow i n p cc r d st.
Definition columns (r : row) : tuple :=
  (network r, prefix_length r, country_code r, rir r, date_allocated r, status r).
End V6.

(** The database file as the committed content of its tables, each in
    rowid order.  The [seq] fields are the AUTOINCREMENT counters, which
    a DELETE does not reset.  [metadata] holds key and value; the
    [updated_at] column is never read. *)
Record Database : Type := mkDatabase {
  ipv4_ranges : list V4.row;
  ipv6_ranges : list V6.row;
  ipv4_seq : Z;
  ipv6_seq : Z;
  metadata : list (string * string)
}.

(** SQLite stores an INTEGER in 64 bits; the driver raises
    [OverflowError] when asked to bind a larger Python integer. *)
Definition fits_int64 (z : Z) : bool :=
  (- 2 ^ 63 <=? z) && (z <? 2 ^ 63).

(** The rows an [executemany] INSERT adds, with their new ids. *)
Fixpoint number_rows {T R : Type} (with_id : Z -> T -> R) (seq : Z) (ts : list T)
  : list R :=
  match ts with
  | [] => []
  | t :: r => with_id (seq + 1) t :: number_rows with_id (seq + 1) r
  end.

(** ** The pipeline *)

(** An entry after [process_rir_data] has added the ['rir'] key. *)
Record RirEntry : Type := mkRirEntry {
  entry : Entry;
  rir : string
}.

(** [ip_to_int] *)
Definition ip_to_int (ip_str : string) : option Z := ipaddress.IPv4Address ip_str.

(** [process_rir_data] *)
Definition process_rir_data (data : string) (rir_name : string) : list RirEntry :=
  flat_map (fun line =>
              match parse_rir_line line with
              | Some e => [mkRirEntry e rir_name]
              | None => []
              end)
           (Py.split "010" data).

(** The body of the [try] for an IPv4 entry; [None] is the [except]
    branch, which logs and continues. *)
Definition ipv4_tuple (e : RirEntry) : option V4.tuple :=
  match Py.int (value (entry e)) with
  | None => None
  | Some num_ips =>
      match ip_to_int (start (entry e)) with
      | None => None
      | Some start_ip =>
          let end_ip := start_ip + num_ips - 1 in
          Some (start_ip, end_ip, country_code (entry e), rir e,
                date (entry e), status (entry e))
      end
  end.

(** The body of the [try] for an IPv6 entry. *)
Definition ipv6_tuple (e : RirEntry) : option V6.tuple :=
  match Py.int (value (entry e)) with
  | None => None
  | Some prefix_length =>
      Some (start (entry e), prefix_length, country_code (entry e), rir e,
            date (entry e), status (entry e))
  end.

(** The loop of [insert_entries_to_db]: the two batches. *)
Fixpoint prepare_entries (entries : list RirEntry) : list V4.tuple * list V6.tuple :=
  match entries with
  | [] => ([], [])
  | e :: rest =>
      let '(ipv4_entries, ipv6_entries) := prepare_entries rest in
      if String.eqb (type (entry e)) "ipv4" then
        match ipv4_tuple e with
        | Some t => (t :: ipv4_entries, ipv6_entries)
        | None => (ipv4_entries, ipv6_entries)
        end
      else if String.eqb (type (entry e)) "ipv6" then
        match ipv6_tuple e with
        | Some t => (ipv4_entries, t :: ipv6_entries)
        | None => (ipv4_entries, ipv6_entries)
        end
      else (ipv4_entries, ipv6_entries)
  end.

Definition bindable4 (t : V4.tuple) : bool :=
  let '(s, e, _, _, _, _) := t in fits_int64 s && fits_int64 e.

Definition bindable6 (t : V6.tuple) : bool :=
  let '(_, p, _, _, _, _) := t in fits_int64 p.

(** [insert_entries_to_db]: both INSERTs run in one transaction that the
    final [commit] publishes; an [OverflowError] from the driver leaves
    the method before the commit, so nothing of the batch is stored. *)
Definition insert_entries_to_db (db : Database) (entries : list RirEntry)
  : py Database :=
  let '(ipv4_entries, ipv6_entries) := prepare_entries entries in
  if negb (forallb bindable4 ipv4_entries) then Raise OverflowError
  else if negb (forallb bindable6 ipv6_entries) then Raise OverflowError
  else
    Ret (mkDatabase
           (ipv4_ranges db ++ number_rows V4.with_id (ipv4_seq db) ipv4_entries)
           (ipv6_ranges db ++ number_rows V6.with_id (ipv6_seq db) ipv6_entries)
           (ipv4_seq db + Z.of_nat (List.length ipv4_entries))
           (ipv6_seq db + Z.of_nat (List.length ipv6_entries))
           (metadata db)).

(** [INSERT OR REPLACE INTO metadata] *)
Definition update_metadata (db : Database) (key value : string) : Database :=
  mkDatabase (ipv4_ranges db) (ipv6_ranges db) (ipv4_seq db) (ipv6_seq db)
    (filter (fun kv => negb (String.eqb (fst kv) key)) (metadata db)
     ++ [(key, value)]).

(** The keys of [rir_urls], in insertion order. *)
Definition rir_names : list string :=
  ["ARIN"; "RIPE"; "APNIC"; "LACNIC"; "AFRINIC"].

(** Step 2 of [build_table]: both DELETEs, one commit. *)
Definition clear_tables (db : Database) : Database :=
  mkDatabase [] [] (ipv4_seq db) (ipv6_seq db) (metadata db).

(** The state of a running [build_table]: the database as last
    committed, every committed state so far (oldest first), and the two
    accumulators. *)
Record Build : Type := mkBuild {
  db : Database;
  commits : list Database;
  total_entries : Z;
  successful_rirs : list string
}.

Definition commit (b : Build) (d : Database) : Build :=
  mkBuild d (commits b ++ [d]) (total_entries b) (successful_rirs b).

(** How a build ends: normally, or with an exception after the commits
    made so far. *)
Inductive run : Type :=
  | Done (b : Build)
  | Crashed (e : exn) (b : Build).

Definition final (r : run) : Build :=
  match r with Done b => b | Crashed _ b => b end.

Section Build.

(** [download_rir_data], the external provider: the text of a
    registry's file, or [None] after the last failed attempt. *)
Variable download_rir_data : string -> option string.

(** [datetime.now().isoformat()] at the end of the build. *)
Variable now : string.

(** The loop over the registries. *)
Fixpoint build_loop (names : list string) (b : Build) : run :=
  match names with
  | [] => Done b
  | rir_name :: rest =>
      match download_rir_data rir_name with
      | None => build_loop rest b
      | Some data =>
          if Py.is_empty data then build_loop rest b
          else
            let entries := process_rir_data data rir_name in
            match entries with
            | [] => build_loop rest b
            | _ :: _ =>
                match insert_entries_to_db (db b) entries with
                | Raise e => Crashed e b
                | Ret d =>
                    let b := commit b d in
                    build_loop rest
                      (mkBuild (db b) (commits b)
                         (total_entries b + Z.of_nat (List.length entries))
                         (successful_rirs b ++ [rir_name]))
                end
            end
      end
  end.

(** [build_table] *)
Definition build_table (old : Database) : run :=
  let b := commit (mkBuild old [] 0 []) (clear_tables old) in
  match build_loop rir_names b with
  | Crashed e b => Crashed e b
  | Done b =>
      let b := commit b (update_metadata (db b) "last_updated" now) in
      let b := commit b (update_metadata (db b) "total_entries"
                                         (Py.str_int (total_entries b))) in
      let b := commit b (update_metadata (db b) "successful_rirs"
                                         (Py.join "," (successful_rirs b))) in
      Done b
  end.

End Build.

(** ** Lookups *)

(** The dict a lookup returns; [None] in [network] is an absent key. *)
Module Result.
Record t : Type := mk {
  ip_address : string;
  country_code : option string;
  rir : option string;
  date_allocated : option string;
  status : option string;
  ip_version : option Z;
  network : option string
}.
End Result.

Definition width (r : V4.row) : Z := V4.end_ip r - V4.start_ip r.

(** [WHERE start_ip <= ? AND end_ip >= ?] *)
Definition covers (ip_int : Z) (r : V4.row) : bool :=
  (V4.start_ip r <=? ip_int) && (V4.end_ip r >=? ip_int).

(** [ORDER BY key LIMIT 1]: a row of least key.  Which row of least key
    is returned when several have it is not fixed by SQL and depends on
    the query plan; the model takes the earliest stored one.  Where a
    statement below names the row that is answered, it only says that
    it is a row of least key. *)
Fixpoint order_by_limit_1 {R : Type} (key : R -> Z) (rows : list R) : option R :=
  match rows with
  | [] => None
  | r :: rest =>
      match order_by_limit_1 key rest with
      | None => Some r
      | Some m => if key r <=? key m then Some r else Some m
      end
  end.

(** [lookup_ipv4] *)
Definition lookup_ipv4 (d : Database) (ip_address : string) : py (option Result.t) :=
  match ip_to_int ip_address with
  | None => Raise ValueError
  | Some ip_int =>
      let result :=
        order_by_limit_1 width (filter (covers ip_int) (ipv4_ranges d)) in
      Ret (option_map
             (fun r => Result.mk ip_address (Some (V4.country_code r))
                         (Some (V4.rir r)) (Some (V4.date_allocated r))
                         (Some (V4.status r)) (Some 4) None)
             result)
  end.

(** The [for row in cursor.fetchall()] loop of [lookup_ipv6]. *)
Fixpoint scan_ipv6 (rows : list V6.row) (ip_obj : ipaddress.IPv6Addr)
  (ip_address : string) : option Result.t :=
  match rows with
  | [] => None
  | row :: rest =>
      match ipaddress.IPv6Network
              (V6.network row ++ "/" ++ Py.str_int (V6.prefix_length row)) with
      | Some network =>
          if ipaddress.net_contains network ip_obj then
            Some (Result.mk ip_address (Some (V6.country_code row))
                    (Some (V6.rir row)) (Some (V6.date_allocated row))
                    (Some (V6.status row)) (Some 6)
                    (Some (ipaddress.str_network network)))
          else scan_ipv6 rest ip_obj ip_address
      | None => scan_ipv6 rest ip_obj ip_address
      end
  end.

(** [lookup_ipv6] *)
Definition lookup_ipv6 (d : Database) (ip_address : string) : py (option Result.t) :=
  match ipaddress.IPv6Address ip_address with
  | None => Raise ValueError
  | Some ip_obj => Ret (scan_ipv6 (ipv6_ranges d) ip_obj ip_address)
  end.

(** [except ValueError: return None] *)
Definition except_ValueError {A : Type} (m : py (option A)) : py (option A) :=
  match m with
  | Raise ValueError => Ret None
  | other => other
  end.

(** [lookup_ip] *)
Definition lookup_ip (d : Database) (ip_address : string) : py (option Result.t) :=
  except_ValueError
    match ipaddress.ip_address ip_address with
    | None => Raise ValueError
    | Some ip_obj =>
        if ipaddress.version ip_obj =? 4
        then lookup_ipv4 d (ipaddress.str_ip ip_obj)
        else lookup_ipv6 d (ipaddress.str_ip ip_obj)
    end.

(** The dict [bulk_lookup] appends for an address without result. *)
Definition placeholder (ip : string) : Result.t :=
  Result.mk ip None None None None None None.

(** [bulk_lookup] *)
Fixpoint bulk_lookup (d : Database) (ip_list : list string) : py (list Result.t) :=
  match ip_list with
  | [] => Ret []
  | ip :: rest =>
      result <- lookup_ip d ip ;;
      results <- bulk_lookup d rest ;;
      Ret (match result with
           | Some r => r
           | None => placeholder ip
           end :: results)
  end.

(** ** [ipaddress.IPv4Network] and [cidr_to_range] *)

Module IPv4Net.
Import Py ipaddress.

Definition ALL_ONES : Z := 2 ^ 32 - 1.
Definition max_prefixlen : Z := 32.

(** [int.bit_length] of a non-negative integer *)
Definition bit_length (n : Z) : Z := if n =? 0 then 0 else Z.log2 n + 1.

(** [_count_righthand_zero_bits] *)
Definition count_righthand_zero_bits (number bits : Z) : Z :=
  if number =? 0 then bits
  else Z.min bits (bit_length (Z.land (Z.lnot number) (number - 1))).

(** [_ip_int_from_prefix] *)
Definition ip_int_from_prefix (prefixlen : Z) : Z :=
  Z.lxor ALL_ONES (Z.shiftr ALL_ONES prefixlen).

(** [_prefix_from_ip_int]; [None] is the [ValueError]. *)
Definition prefix_from_ip_int (ip_int : Z) : option Z :=
  let trailing_zeroes := count_righthand_zero_bits ip_int max_prefixlen in
  let prefixlen := max_prefixlen - trailing_zeroes in
  let leading_ones := Z.shiftr ip_int trailing_zeroes in
  let all_ones := Z.shiftl 1 prefixlen - 1 in
  if negb (leading_ones =? all_ones) then None else Some prefixlen.

(** [_prefix_from_prefix_string] *)
Definition prefix_from_prefix_string (prefixlen_str : string) : option Z :=
  if negb (negb (is_empty prefixlen_str) && all_chars is_digit prefixlen_str)
  then None
  else
    match int prefixlen_str with
    | None => None
    | Some prefixlen =>
        if negb ((0 <=? prefixlen) && (prefixlen <=? max_prefixlen)) then None
        else Some prefixlen
    end.

(** [_prefix_from_ip_string]: a netmask, or else a hostmask, in
    dotted-quad form. *)
Definition prefix_from_ip_string (ip_str : string) : option Z :=
  match ipv4_int_from_string ip_str with
  | None => None
  | Some ip_int =>
      match prefix_from_ip_int ip_int with
      | Some prefixlen => Some prefixlen
      | None => prefix_from_ip_int (Z.lxor ip_int ALL_ONES)
      end
  end.

(** [IPv4Network._make_netmask] for a text argument: the netmask and the
    prefix length. *)
Definition make_netmask (arg : string) : option (Z * Z) :=
  let prefixlen :=
    match prefix_from_prefix_string arg with
    | Some prefixlen => Some prefixlen
    | None => prefix_from_ip_string arg
    end in
  option_map (fun prefixlen => (ip_int_from_prefix prefixlen, prefixlen)) prefixlen.

(** An [IPv4Network] object. *)
Record t : Type := mk {
  network_address : Z;
  netmask : Z;
  prefixlen : Z
}.

(** [IPv4Network(address, strict=False)] for a text argument. *)
Definition IPv4Network (address : string) : option t :=
  let addr := split "/" address in
  if 2 <? Z.of_nat (List.length addr) then None
  else
    match addr with
    | [a; mask] =>
        match IPv4Address a with
        | None => None
        | Some network_address =>
            match make_netmask mask with
            | None => None
            | Some (netmask, prefixlen) =>
                let packed := network_address in
                let network_address :=
                  if negb (Z.land packed netmask =? packed)
                  then Z.land packed netmask
                  else network_address in
                Some (mk network_address netmask prefixlen)
            end
        end
    | [a] =>
        option_map (fun na => mk na (ip_int_from_prefix max_prefixlen) max_prefixlen)
                   (IPv4Address a)
    | _ => None
    end.

Definition hostmask (n : t) : Z := Z.lxor (netmask n) ALL_ONES.

Definition broadcast_address (n : t) : Z := Z.lor (network_address n) (hostmask n).

End IPv4Net.

(** [cidr_to_range]; [None] is the [ValueError] of [IPv4Network]. *)
Definition cidr_to_range (network_str : string) (prefix_length : Z) : option (Z * Z) :=
  match IPv4Net.IPv4Network (network_str ++ "/" ++ Py.str_int prefix_length) with
  | None => None
  | Some network =>
      Some (IPv4Net.network_address network, IPv4Net.broadcast_address network)
  end.

(** ** [_get_file_size] *)

(** A quotient rounded to the nearest integer, ties to even, for a
    positive denominator. *)
Definition round_half_even (num den : Z) : Z :=
  let q := num / den in
  let r := num mod den in
  if 2 * r <? den then q
  else if den <? 2 * r then q + 1
  else if Z.even q then q else q + 1.

(** [float(n)] for [0 <= n]: the nearest double, ties to even; the
    value of the double is an integer again.  [OverflowError] when the
    nearest double would be infinite. *)
Definition float_of_int (n : Z) : py Z :=
  if n <? 2 ^ 53 then Ret n
  else
    let e := Z.log2 n - 52 in
    let f := round_half_even n (2 ^ e) * 2 ^ e in
    if f <? 2 ^ 1024 then Ret f else Raise OverflowError.

(** [f"{x:.1f}"] for the double [x = num / den], [0 <= x], [den] a power
    of two: the decimal with one digit after the point nearest to the
    exact value of [x], ties to even. *)
Definition format_1f (num den : Z) : string :=
  let tenths := round_half_even (10 * num) den in
  Py.str_int (tenths / 10) ++ "." ++ Py.str_int (tenths mod 10).

(** The loop over the units after the first division: [size] is the
    double [num / den]. *)
Fixpoint size_loop (units : list string) (num den : Z) : string :=
  match units with
  | [] => format_1f num den ++ " TB"
  | unit :: rest =>
      if num <? 1024 * den then format_1f num den ++ " " ++ unit
      else size_loop rest num (den * 1024)
  end.

(** [_get_file_size], from the result of [os.path.getsize]. *)
Definition _get_file_size (size : N) : py string :=
  let size := Z.of_N size in
  if size <? 1024 then Ret (format_1f size 1 ++ " B")
  else
    size <- float_of_int size ;;
    Ret (size_loop ["KB"; "MB"; "GB"] size 1024).

(** ** [download_rir_data]: the retry loop *)

Module Download.

(** What the body of the [try] does in one attempt. *)
Inductive attempt : Type :=
  | request_exception
  | returned (text : string)
  | other_exception.

(** How the method ends: with a return value, or with an exception that
    is not a [RequestException] and leaves the method. *)
Inductive outcome : Type :=
  | result (data : option string)
  | escaped.

(** The outcome with the number of requests made and the seconds slept. *)
Record run : Type := mkRun {
  ended : outcome;
  requests : Z;
  slept : Z
}.

Definition max_retries : Z := 3.

(** [for attempt in range(max_retries)], over a network that answers
    the [n]-th request with [get n]. *)
Fixpoint attempts (get : Z -> attempt) (range : list Z) (requests slept : Z) : run :=
  match range with
  | [] => mkRun (result None) requests slept
  | attempt :: rest =>
      match get attempt with
      | returned text => mkRun (result (Some text)) (requests + 1) slept
      | other_exception => mkRun escaped (requests + 1) slept
      | request_exception =>
          if attempt <? max_retries - 1
          then attempts get rest (requests + 1) (slept + 5)
          else mkRun (result None) (requests + 1) slept
      end
  end.

Definition download_rir_data (get : Z -> attempt) : run :=
  attempts get [0; 1; 2] 0 0.

End Download.

(** ** The exports *)

(** [ORDER BY key]: rows of equal key stay in rowid order. *)
Fixpoint insert_by {R : Type} (key : R -> Z) (r : R) (sorted : list R) : list R :=
  match sorted with
  | [] => [r]
  | x :: rest =>
      if key r <=? key x then r :: x :: rest else x :: insert_by key r rest
  end.

Fixpoint order_by {R : Type} (key : R -> Z) (rows : list R) : list R :=
  match rows with
  | [] => []
  | r :: rest => insert_by key r (order_by key rest)
  end.

(** The rows [export_to_csv] writes after the header. *)
Definition csv_rows (d : Database) : list V4.tuple :=
  map V4.columns (order_by V4.start_ip (ipv4_ranges d)).

(** An entry of the list [export_to_json] serializes. *)
Record json_entry : Type := mkJson {
  json_start : Z;
  json_end : Z;
  json_country : string
}.

(** [json_data] of [export_to_json] *)
Definition json_data (d : Database) : list json_entry :=
  map (fun r => mkJson (V4.start_ip r) (V4.end_ip r) (V4.country_code r))
      (order_by V4.start_ip (ipv4_ranges d)).

(** ** The conditions of the specification, in its own words *)

Module Spec.
Import Py.

(** Number of occurrences of a character. *)
Fixpoint count (ch : ascii) (s : string) : nat :=
  match s with
  | EmptyString => 0%nat
  | String c r => ((if Ascii.eqb c ch then 1 else 0) + count ch r)%nat
  end.

(** The number of pipe-delimited fields of a line. *)
Definition field_count (line : string) : Z := Z.of_nat (count "|" line) + 1.

(** The [i]-th pipe-delimited field of a line, from 0. *)
Definition field (i : nat) (line : string) : string :=
  nth i (split "|" line) EmptyString.

(** A blank line holds nothing but whitespace. *)
Definition blank (line : string) : bool := all_chars is_space line.

(** A line whose first non-whitespace character is the comment marker. *)
Definition comment_line (line : string) : bool := startswith (lstrip line) "#".

(** A line whose very first character is the comment marker. *)
Definition comment_at_line_start (line : string) : bool := startswith line "#".

(** The wildcard marker or not exactly 2 characters. *)
Definition bad_country (cc : string) : bool :=
  String.eqb cc "*" || negb (len cc =? 2).

(** Neither the IPv4 nor the IPv6 marker. *)
Definition bad_family (tag : string) : bool :=
  negb (String.eqb tag "ipv4" || String.eqb tag "ipv6").

(** The rejection conditions of section 4.1, for a given reading of
    "comment line". *)
Definition rejected (comment : string -> bool) (line : string) : bool :=
  blank line || comment line || (field_count line <? 7)
  || bad_country (field 1 line) || bad_family (field 2 line).

(** An 8-digit calendar date: 4-digit year, 2-digit month, 2-digit day. *)
Definition calendar_date8 (s : string) : bool :=
  (len s =? 8) && all_chars is_digit s
  && Strptime.valid_date (of_digits 10 digit_val (substring 0 4 s) 0)
                         (of_digits 10 digit_val (substring 4 2 s) 0)
                         (of_digits 10 digit_val (substring 6 2 s) 0).

End Spec.

(** ** Auxiliary notions for the statements *)

(** Apply [f] to the first, respectively the last, element of a list. *)
Definition on_first {A : Type} (f : A -> A) (l : list A) : list A :=
  match l with
  | [] => []
  | x :: r => f x :: r
  end.

Fixpoint on_last {A : Type} (f : A -> A) (l : list A) : list A :=
  match l with
  | [] => []
  | [x] => [f x]
  | x :: r => x :: on_last f r
  end.

(** The tuples one entry adds to each batch of [insert_entries_to_db]. *)
Definition ipv4_contribution (e : RirEntry) : list V4.tuple :=
  if String.eqb (type (entry e)) "ipv4" then
    match ipv4_tuple e with Some t => [t] | None => [] end
  else [].

Definition ipv6_contribution (e : RirEntry) : list V6.tuple :=
  if String.eqb (type (entry e)) "ipv6" then
    match ipv6_tuple e with Some t => [t] | None => [] end
  else [].

(** The network a stored IPv6 row stands for at lookup time, if any. *)
Definition row_network (row : V6.row) : option ipaddress.IPv6Net :=
  ipaddress.IPv6Network (V6.network row ++ "/" ++ Py.str_int (V6.prefix_length row)).

(** The dict [lookup_ipv6] builds from a row. *)
Definition result_of_row6 (ip_address : string) (row : V6.row)
  (network : ipaddress.IPv6Net) : Result.t :=
  Result.mk ip_address (Some (V6.country_code row)) (Some (V6.rir row))
    (Some (V6.date_allocated row)) (Some (V6.status row)) (Some 6)
    (Some (ipaddress.str_network network)).

(** The dict [lookup_ipv4] builds from a row. *)
Definition result_of_row4 (ip_address : string) (row : V4.row) : Result.t :=
  Result.mk ip_address (Some (V4.country_code row)) (Some (V4.rir row))
    (Some (V4.date_allocated row)) (Some (V4.status row)) (Some 4) None.

(** A database with empty tables, as [setup_database] creates it. *)
Definition empty_database : Database := mkDatabase [] [] 0 0 [].

(** The entries a registry contributes to a build. *)
Definition registry_entries (download_rir_data : string -> option string)
  (rir_name : string) : list RirEntry :=
  match download_rir_data rir_name with
  | None => []
  | Some data =>
      if Py.is_empty data then [] else process_rir_data data rir_name
  end.

(** The content of the two tables, without the row ids. *)
Definition index_of (d : Database) : list V4.tuple * list V6.tuple :=
  (map V4.columns (ipv4_ranges d), map V6.columns (ipv6_ranges d)).

(** The content the tables have once the given registries are inserted
    into empty tables. *)
Definition index_after (download_rir_data : string -> option string)
  (names : list string) : list V4.tuple * list V6.tuple :=
  (flat_map ipv4_contribution (flat_map (registry_entries download_rir_data) names),
   flat_map ipv6_contribution (flat_map (registry_entries download_rir_data) names)).

(** ["\n"] *)
Definition newline : string := String "010" EmptyString.

(** Two nested IPv6 delegations, the wider one first in the file. *)
Definition nested_prefixes_file : string :=
  "apnic|AU|ipv6|2001:db8::|32|20100101|allocated" ++ newline
  ++ "apnic|JP|ipv6|2001:db8::|48|20110101|assigned".

Definition nested_prefixes : Database :=
  mkDatabase []
    [V6.mkRow 1 "2001:db8::" 32 "AU" "APNIC" "20100101" "allocated";
     V6.mkRow 2 "2001:db8::" 48 "JP" "APNIC" "20110101" "assigned"]
    0 2 [].

(** A provider with data for two registries. *)
Definition two_registries (rir_name : string) : option string :=
  if String.eqb rir_name "ARIN"
  then Some "arin|US|ipv4|8.8.8.0|256|20140328|allocated"
  else if String.eqb rir_name "RIPE"
  then Some "ripencc|FR|ipv4|2.0.0.0|1048576|20100712|allocated"
  else None.

(** The database a first build leaves when both registries answer. *)
Definition first_build : Database :=
  db (final (build_table two_registries "2024-01-01T00:00:00" empty_database)).

(** Two builds are in the same state when their tables hold the same
    content and their accumulators agree. *)
Definition same_state (b1 b2 : Build) : Prop :=
  index_of (db b1) = index_of (db b2)
  /\ total_entries b1 = total_entries b2
  /\ successful_rirs b1 = successful_rirs b2.

Definition same_outcome (r1 r2 : run) : Prop :=
  match r1, r2 with
  | Done b1, Done b2 => same_state b1 b2
  | Crashed e1 b1, Crashed e2 b2 => e1 = e2 /\ same_state b1 b2
  | _, _ => False
  end.

(** A committed state that holds exactly the records of the first [k]
    registries, for some [k]. *)
Definition commit_point (download_rir_data : string -> option string)
  (c : Database) : Prop :=
  exists k, (k <= List.length rir_names)%nat
            /\ index_of c = index_after download_rir_data (firstn k rir_names).

(** The integers [start], [start + 1], ..., [n] of them. *)
Fixpoint range_from (n : nat) (start : Z) : list Z :=
  match n with
  | O => []
  | S k => start :: range_from k (start + 1)
  end.

(** What the text of one octet must satisfy to be read back. *)
Definition octet_ok (b : Z) : bool :=
  match ipaddress.parse_octet (Py.str_int b) with
  | Some b' => (b' =? b) && negb (Py.contains "." (Py.str_int b))
               && negb (Py.contains "/" (Py.str_int b))
               && negb (Py.is_empty (Py.str_int b))
  | None => false
  end.

(** What the text of one hextet must satisfy to be read back. *)
Definition hextet_ok (v : Z) : bool :=
  let s := Py.str_hex v in
  match ipaddress.parse_hextet s with
  | Some v' => (v' =? v)
               && Bool.eqb (String.eqb s "0") (v =? 0)
               && negb (Py.is_empty s)
               && negb (Py.contains ":" s) && negb (Py.contains "." s)
               && negb (Py.contains "/" s) && negb (Py.contains "%" s)
  | None => false
  end.

(** The loop of [_compress_hextets] on the flags "this hextet is 0". *)
Definition run_step (st : Z * Z * Z * Z) (iz : Z * bool) : Z * Z * Z * Z :=
  let '(best_start, best_len, cur_start, cur_len) := st in
  let '(index, zero) := iz in
  if zero then
    let cur_len := cur_len + 1 in
    let cur_start := if cur_start =? -1 then index else cur_start in
    if best_len <? cur_len then (cur_start, cur_len, cur_start, cur_len)
    else (best_start, best_len, cur_start, cur_len)
  else (best_start, best_len, -1, 0).

(** Start and length of the first longest run of zero hextets. *)
Definition best_zero_run (flags : list bool) : Z * Z :=
  let '(best_start, best_len, _, _) :=
    fold_left run_step (ipaddress.enumerate flags) (-1, 0, -1, 0) in
  (best_start, best_len).

(** The runs that lead to a compression, among eight hextets. *)
Definition compressible_runs : list (Z * Z) :=
  flat_map (fun s => map (fun l => (s, l))
                         (filter (fun l => s + l <=? 8) [2; 3; 4; 5; 6; 7; 8]))
           [0; 1; 2; 3; 4; 5; 6].

Definition run_eqb (a b : Z * Z) : bool :=
  (fst a =? fst b) && (snd a =? snd b).

(** The best run of eight flags is too short to compress, or is one of
    [compressible_runs] and covers zero hextets only. *)
Definition best_run_ok (flags : list bool) : bool :=
  let '(s, l) := best_zero_run flags in
  (l <=? 1)
  || (existsb (run_eqb (s, l)) compressible_runs
      && forallb (fun b => b) (firstn (Z.to_nat l) (skipn (Z.to_nat s) flags))).

(** The eight hextets of a 128-bit number, most significant first. *)
Definition hextets_of (ip_int : Z) : list Z :=
  map (fun k => Z.land (Z.shiftr ip_int k) 65535) [112; 96; 80; 64; 48; 32; 16; 0].

(** The number a list of hextets stands for. *)
Definition of_hextets (vs : list Z) : Z :=
  fold_left (fun acc v => acc * 65536 + v) vs 0.

(** The text [h] is a hextet that reads as [v]. *)
Definition hextet_text_of (v : Z) (h : string) : Prop :=
  0 <= v < 65536
  /\ ipaddress.parse_hextet h = Some v
  /\ String.eqb h "0" = (v =? 0)
  /\ Py.is_empty h = false
  /\ Py.contains ":" h = false
  /\ Py.contains "." h = false.

(** The batch of a registry can be bound to the INSERT statements. *)
Definition batch_fits (entries : list RirEntry) : bool :=
  forallb bindable4 (flat_map ipv4_contribution entries)
  && forallb bindable6 (flat_map ipv6_contribution entries).

(** The registry delivered at least one entry. *)
Definition delivered (download_rir_data : string -> option string)
  (rir_name : string) : bool :=
  match registry_entries download_rir_data rir_name with
  | [] => false
  | _ :: _ => true
  end.

(** The three keys [build_table] writes. *)
Definition build_keys : list string :=
  ["last_updated"; "total_entries"; "successful_rirs"].

(** The state in which a first build ends when both registries answer. *)
Definition first_build_run : Build :=
  final (build_table two_registries "2024-01-01T00:00:00" empty_database).

(** A provider whose downloads all fail. *)
Definition no_registry (rir_name : string) : option string := None.

(** The ten digits, and every text of [n] digits. *)
Definition digit_chars : list ascii :=
  ["0"; "1"; "2"; "3"; "4"; "5"; "6"; "7"; "8"; "9"]%char.

Fixpoint digit_strings (n : nat) : list string :=
  match n with
  | O => [EmptyString]
  | S k => flat_map (fun c => map (String c) (digit_strings k)) digit_chars
  end.

(** The text of an octet that parses is the decimal text of its value. *)
Definition octet_canonical (o : string) : bool :=
  match ipaddress.parse_octet o with
  | Some b => String.eqb (Py.str_int b) o
  | None => true
  end.

Definition digit_or_dot (c : ascii) : bool := Py.is_digit c || Ascii.eqb c ".".

(** [%m%d] of the compiled format, matched on the text after the year. *)
Definition month_day_match (r : string) : option (string * string * string) :=
  hd_error
    (flat_map (fun '(m, r2) =>
       map (fun '(d, r3) => (m, d, r3)) (Strptime.alternatives Strptime.re_d r2))
       (Strptime.alternatives Strptime.re_m r)).

(** On four digits [MMDD], the match takes two digits for the month and
    two for the day exactly when they are in 1-12 and 1-31. *)
Definition month_day_ok (r : string) : bool :=
  let M := Py.of_digits 10 Py.digit_val (substring 0 2 r) 0 in
  let D := Py.of_digits 10 Py.digit_val (substring 2 2 r) 0 in
  let plausible := (1 <=? M) && (M <=? 12) && (1 <=? D) && (D <=? 31) in
  match month_day_match r with
  | Some (m, d, rest) =>
      if Py.is_empty rest then
        match Py.int m, Py.int d with
        | Some mv, Some dv => (mv =? M) && (dv =? D)
        | _, _ => false
        end
      else negb plausible
  | None => negb plausible
  end.

(** The prefix lengths for which the netmask and the host mask are the
    expected runs of ones. *)
Definition masks_ok (p : Z) : bool :=
  (IPv4Net.ip_int_from_prefix p =? Z.shiftl (Z.ones p) (32 - p))
  && (Z.lxor (IPv4Net.ip_int_from_prefix p) IPv4Net.ALL_ONES =? Z.ones (32 - p)).

(** The index of the unit of a size: 0 for bytes, 4 for terabytes. *)
Definition unit_index (n : Z) : nat :=
  if n <? 1024 then 0
  else if n <? 1024 ^ 2 then 1
  else if n <? 1024 ^ 3 then 2
  else if n <? 1024 ^ 4 then 3
  else 4.

Definition unit_names : list string := ["B"; "KB"; "MB"; "GB"; "TB"].

(** The first column of an exported row. *)
Definition start_of (t : V4.tuple) : Z :=
  let '(start_ip, _, _, _, _, _) := t in start_ip.

(** The attributes of a result that come from the stored row. *)
Definition row_attributes (r : Result.t)
  : option string * option string * option string * option string * option Z
    * option string :=
  (Result.country_code r, Result.rir r, Result.date_allocated r, Result.status r,
   Result.ip_version r, Result.network r).

(** A delegation line with a lower-case country code, and its record. *)
Definition sample_line : string := "arin|us|ipv4|8.8.8.0|256|20140328|allocated".

Definition sample_entry : Entry :=
  mkEntry "arin" "US" "ipv4" "8.8.8.0" "256" "20140328" "allocated".

(** The database after the insertion of that record for ARIN. *)
Definition sample_database : Database :=
  mkDatabase [V4.mkRow 1 134744064 134744319 "US" "ARIN" "20140328" "allocated"]
             [] 1 0 [].

(** The answer for 2001:db8::1 among the nested prefixes. *)
Definition sample_result6 : Result.t :=
  Result.mk "2001:db8::1" (Some "AU") (Some "APNIC") (Some "20100101")
            (Some "allocated") (Some 6) (Some "2001:db8::/32").

(** The registries that delivered at least one entry, in the order of
    [rir_urls]. *)
Definition delivering (download_rir_data : string -> option string) : list string :=
  filter (delivered download_rir_data) rir_names.

(** The content of the tables once the first [k] delivering registries
    are inserted into empty tables. *)
Definition stage (download_rir_data : string -> option string) (k : nat)
  : list V4.tuple * list V6.tuple :=
  index_after download_rir_data (firstn k (delivering download_rir_data)).

(** The states a lookup can read while [build_table] runs: the database
    as it was before the build, then the state left by each commit. *)
Definition readable (old : Database) (r : run) : list Database :=
  old :: commits (final r).

(** An IPv4 record whose count does not fit in 64 bits. *)
Definition huge_count_entry : RirEntry :=
  mkRirEntry (mkEntry "arin" "US" "ipv4" "10.0.0.0" "9223372036854775808"
                      "20140328" "allocated") "ARIN".

(** An IPv6 record whose prefix length does not fit in 64 bits. *)
Definition huge_prefix_entry : RirEntry :=
  mkRirEntry (mkEntry "ripencc" "FR" "ipv6" "2a01:e00::" "9223372036854775808"
                      "" "allocated") "RIPE".

(** * Properties *)

(** ** Text *)

Section TextFacts.
Import Py.

Lemma split_not_nil (sep : ascii) (s : string) : split sep s <> [].
Proof.
  destruct s as [|c r]; simpl; [discriminate|].
  destruct (Ascii.eqb c sep); [discriminate|].
  destruct (split sep r); discriminate.
Qed.

Lemma split_cons (sep : ascii) (s : string) :
  exists f fs, split sep s = f :: fs.
Proof.
  destruct (split sep s) as [|f fs] eqn:E.
  - exfalso. eapply split_not_nil; eauto.
  - eauto.
Qed.

Lemma split_app (sep : ascii) (x y : string) :
  split sep (x ++ String sep y) = (split sep x ++ split sep y)%list.
Proof.
  induction x as [|c x IH]; simpl.
  - rewrite Ascii.eqb_refl. reflexivity.
  - destruct (Ascii.eqb c sep).
    + rewrite IH. reflexivity.
    + rewrite IH. destruct (split_cons sep x) as (f & fs & E).
      rewrite E. reflexivity.
Qed.

Lemma split_length (sep : ascii) (s : string) :
  List.length (split sep s) = S (Spec.count sep s).
Proof.
  induction s as [|c r IH]; simpl; [reflexivity|].
  destruct (Ascii.eqb c sep); simpl.
  - rewrite IH. reflexivity.
  - destruct (split sep r) as [|f fs]; simpl in *; [discriminate|]. exact IH.
Qed.

Lemma split_no_sep (sep : ascii) (s : string) :
  contains sep s = false -> split sep s = [s].
Proof.
  induction s as [|c r IH]; simpl; [reflexivity|].
  intros H. apply orb_false_iff in H as [H1 H2].
  rewrite H1, (IH H2). reflexivity.
Qed.

Lemma lstrip_split (sep : ascii) (s : string) :
  is_space sep = false ->
  split sep (lstrip s) = on_first lstrip (split sep s).
Proof.
  intros Hsep. induction s as [|c r IH]; [reflexivity|].
  cbn [lstrip]. destruct (is_space c) eqn:Hc.
  - rewrite IH. cbn [split].
    destruct (Ascii.eqb c sep) eqn:E.
    + apply Ascii.eqb_eq in E. congruence.
    + destruct (split_cons sep r) as (f & fs & Er). rewrite Er.
      cbn. rewrite Hc. reflexivity.
  - cbn [split]. destruct (Ascii.eqb c sep); [reflexivity|].
    destruct (split_cons sep r) as (f & fs & Er). rewrite Er.
    cbn. rewrite Hc. reflexivity.
Qed.

Lemma rstrip_cons_nonspace (c : ascii) (s : string) :
  is_space c = false -> rstrip (String c s) = String c (rstrip s).
Proof.
  intros H. cbn [rstrip]. destruct (rstrip s); [rewrite H|]; reflexivity.
Qed.

Lemma split_String (sep c : ascii) (r : string) :
  split sep (String c r) =
  if Ascii.eqb c sep then EmptyString :: split sep r
  else match split sep r with
       | f :: fs => String c f :: fs
       | [] => [String c EmptyString]
       end.
Proof. reflexivity. Qed.

Lemma rstrip_split (sep : ascii) (s : string) :
  is_space sep = false ->
  split sep (rstrip s) = on_last rstrip (split sep s).
Proof.
  intros Hsep. induction s as [|c r IH]; [reflexivity|].
  rewrite (split_String sep c r).
  destruct (split_cons sep r) as (f & fs & Er). rewrite Er in *.
  cbn [rstrip].
  destruct (rstrip r) as [|a r'] eqn:Rr.
  - (* everything after [c] is stripped away *)
    cbn [split] in IH.
    destruct fs as [|g gs]; cbn [on_last] in IH.
    2:{ destruct gs; discriminate. }
    injection IH as IHf.
    destruct (Ascii.eqb c sep) eqn:E.
    + apply Ascii.eqb_eq in E. subst c. rewrite Hsep.
      cbn [split on_last]. rewrite Ascii.eqb_refl, <- IHf. reflexivity.
    + cbn [on_last rstrip]. rewrite <- IHf.
      destruct (is_space c); cbn [split]; [reflexivity|].
      rewrite E. reflexivity.
  - rewrite (split_String sep c (String a r')), IH.
    destruct (Ascii.eqb c sep) eqn:E.
    + reflexivity.
    + destruct fs as [|g gs]; cbn [on_last].
      * cbn [rstrip]. destruct (rstrip f) eqn:Rf; [|reflexivity].
        exfalso. cbn [on_last] in IH. rewrite Rf, split_String in IH.
        destruct (split_cons sep r') as (h & hs & Eh). rewrite Eh in IH.
        destruct (Ascii.eqb a sep); discriminate.
      * reflexivity.
Qed.

Lemma strip_split (sep : ascii) (s : string) :
  is_space sep = false ->
  split sep (strip s) = on_last rstrip (on_first lstrip (split sep s)).
Proof.
  intros H. unfold strip. rewrite rstrip_split, lstrip_split by assumption.
  reflexivity.
Qed.

Lemma on_last_length {A : Type} (f : A -> A) (l : list A) :
  List.length (on_last f l) = List.length l.
Proof.
  induction l as [|x [|y r] IH]; simpl in *; auto.
Qed.

Lemma on_first_length {A : Type} (f : A -> A) (l : list A) :
  List.length (on_first f l) = List.length l.
Proof. destruct l; reflexivity. Qed.

Lemma on_last_firstn {A : Type} (f : A -> A) (n : nat) (l : list A) :
  (n < List.length l)%nat -> firstn n (on_last f l) = firstn n l.
Proof.
  revert n. induction l as [|x r IH]; intros n H; simpl in H; [lia|].
  destruct n as [|n]; [reflexivity|].
  destruct r as [|y r]; simpl in H; [lia|].
  cbn [on_last firstn]. f_equal. apply IH. simpl. lia.
Qed.

Lemma on_last_nth {A : Type} (f : A -> A) (n : nat) (l : list A) (d : A) :
  (S n < List.length l)%nat -> nth n (on_last f l) d = nth n l d.
Proof.
  revert n. induction l as [|x r IH]; intros n H; simpl in H; [lia|].
  destruct r as [|y r]; simpl in H; [lia|].
  destruct n as [|n]; [reflexivity|].
  cbn [on_last nth]. apply IH. simpl. lia.
Qed.

Lemma on_first_nth {A : Type} (f : A -> A) (n : nat) (l : list A) (d : A) :
  nth (S n) (on_first f l) d = nth (S n) l d.
Proof. destruct l; reflexivity. Qed.

Lemma strip_empty_iff (s : string) :
  is_empty (strip s) = all_chars is_space s.
Proof.
  unfold strip. induction s as [|c r IH]; [reflexivity|].
  cbn [lstrip all_chars]. destruct (is_space c) eqn:Hc; cbn [andb]; [exact IH|].
  rewrite rstrip_cons_nonspace by assumption. reflexivity.
Qed.

End TextFacts.

(** ** The record normalizer *)

Section Normalizer.
Import Py.

Lemma firstn_7 {A : Type} (l : list A) (d : A) :
  (7 <= List.length l)%nat ->
  firstn 7 l = [nth 0 l d; nth 1 l d; nth 2 l d; nth 3 l d; nth 4 l d;
                nth 5 l d; nth 6 l d].
Proof.
  intros H.
  do 7 (destruct l as [|? l]; [simpl in H; lia|]). reflexivity.
Qed.

(** What lines 121-149 make of a list of at least seven fields. *)
Lemma entry_of_fields_ge7 (fields : list string) :
  (7 <= List.length fields)%nat ->
  entry_of_fields fields =
  if Spec.bad_country (nth 1 fields "") || Spec.bad_family (nth 2 fields "")
  then None
  else Some (mkEntry (nth 0 fields "") (upper (nth 1 fields ""))
               (nth 2 fields "") (nth 3 fields "") (nth 4 fields "")
               (validate_date (nth 5 fields "")) (nth 6 fields "")).
Proof.
  intros H. unfold entry_of_fields.
  replace (Z.of_nat (List.length fields) <? 7) with false
    by (symmetry; apply Z.ltb_ge; lia).
  rewrite (firstn_7 fields "" H).
  unfold Spec.bad_country, Spec.bad_family. cbn [existsb].
  rewrite orb_false_r.
  destruct (String.eqb (nth 1 fields "") "*" || negb (len (nth 1 fields "") =? 2));
    [reflexivity|].
  cbn [orb].
  destruct (String.eqb (nth 2 fields "") "ipv4" || String.eqb (nth 2 fields "") "ipv6");
    reflexivity.
Qed.

Lemma entry_of_fields_lt7 (fields : list string) :
  (List.length fields < 7)%nat -> entry_of_fields fields = None.
Proof.
  intros H. unfold entry_of_fields.
  replace (Z.of_nat (List.length fields) <? 7) with true
    by (symmetry; apply Z.ltb_lt; lia).
  reflexivity.
Qed.

Lemma is_space_pipe : is_space "|" = false.
Proof. reflexivity. Qed.

(** The fields the normalizer sees are those of the raw line, the first
    stripped on the left and the last on the right. *)
Lemma stripped_fields (line : string) :
  split "|" (strip line) = on_last rstrip (on_first lstrip (split "|" line)).
Proof. apply strip_split, is_space_pipe. Qed.

Lemma stripped_fields_length (line : string) :
  List.length (split "|" (strip line)) = S (Spec.count "|" line).
Proof.
  rewrite stripped_fields, on_last_length, on_first_length. apply split_length.
Qed.

Lemma stripped_field_inner (line : string) (i : nat) :
  (S (S i) < List.length (split "|" line))%nat ->
  nth (S i) (split "|" (strip line)) "" = Spec.field (S i) line.
Proof.
  intros H. rewrite stripped_fields, on_last_nth, on_first_nth.
  - reflexivity.
  - rewrite on_first_length. exact H.
Qed.

(** [parse_rir_line] as one cascade over the fields of the raw line. *)
Lemma parse_rir_line_cascade (line : string) :
  parse_rir_line line =
  if Spec.comment_at_line_start line || Spec.blank line then None
  else if Spec.field_count line <? 7 then None
  else if Spec.bad_country (Spec.field 1 line) || Spec.bad_family (Spec.field 2 line)
  then None
  else Some (mkEntry (nth 0 (split "|" (strip line)) "")
               (upper (Spec.field 1 line)) (Spec.field 2 line)
               (Spec.field 3 line) (Spec.field 4 line)
               (validate_date (Spec.field 5 line))
               (nth 6 (split "|" (strip line)) "")).
Proof.
  unfold parse_rir_line. rewrite strip_empty_iff.
  fold (Spec.comment_at_line_start line). fold (Spec.blank line).
  destruct (Spec.comment_at_line_start line || Spec.blank line); [reflexivity|].
  unfold Spec.field_count.
  destruct (Z.of_nat (Spec.count "|" line) + 1 <? 7) eqn:Hn.
  - apply entry_of_fields_lt7. rewrite stripped_fields_length.
    apply Z.ltb_lt in Hn. lia.
  - apply Z.ltb_ge in Hn.
    assert (Hlen : (7 <= List.length (split "|" line))%nat)
      by (rewrite split_length; lia).
    rewrite entry_of_fields_ge7 by (rewrite stripped_fields_length; lia).
    rewrite !stripped_field_inner by lia. reflexivity.
Qed.

End Normalizer.

Section NormalizerClaims.
Import Py.

Lemma all_chars_app (p : ascii -> bool) (a b : string) :
  all_chars p (a ++ b) = all_chars p a && all_chars p b.
Proof.
  induction a as [|c a IH]; simpl; [reflexivity|].
  rewrite IH. apply andb_assoc.
Qed.

Lemma count_app (ch : ascii) (a b : string) :
  Spec.count ch (a ++ b) = (Spec.count ch a + Spec.count ch b)%nat.
Proof.
  induction a as [|c a IH]; simpl; [reflexivity|]. rewrite IH. lia.
Qed.

Lemma count_no_occurrence (ch : ascii) (s : string) :
  contains ch s = false -> Spec.count ch s = 0%nat.
Proof.
  induction s as [|c s IH]; simpl; [reflexivity|].
  intros H. apply orb_false_iff in H as [H1 H2]. rewrite H1, (IH H2). reflexivity.
Qed.

Lemma blank_with_pipe (a b : string) :
  Spec.blank (a ++ String "|" b) = false.
Proof.
  unfold Spec.blank. rewrite all_chars_app. cbn [all_chars].
  rewrite is_space_pipe. apply andb_false_r.
Qed.

Lemma blank_counted (s : string) :
  (0 < Spec.count "|" s)%nat -> Spec.blank s = false.
Proof.
  unfold Spec.blank. induction s as [|c s IH]; simpl; [lia|].
  destruct (Ascii.eqb c "|") eqn:E.
  - apply Ascii.eqb_eq in E. subst c. reflexivity.
  - intros H. rewrite IH by lia. apply andb_false_r.
Qed.

(** Whether a line starts with the comment marker is decided by its
    first character. *)
Lemma startswith_marker (c : ascii) (r r' : string) :
  startswith (String c r) "#" = startswith (String c r') "#".
Proof.
  unfold startswith. cbn [String.prefix].
  destruct (ascii_dec "#" c); [|reflexivity].
  destruct r, r'; reflexivity.
Qed.

Lemma comment_start_app (a b b' : string) :
  Spec.comment_at_line_start (a ++ String "|" b)
  = Spec.comment_at_line_start (a ++ String "|" b').
Proof.
  unfold Spec.comment_at_line_start.
  destruct a as [|c a]; cbn [append]; apply startswith_marker.
Qed.

Lemma comment_start_prefix (a b : string) :
  (0 < Spec.count "|" a)%nat ->
  Spec.comment_at_line_start (a ++ b) = Spec.comment_at_line_start a.
Proof.
  unfold Spec.comment_at_line_start.
  destruct a as [|c a]; [simpl; lia|].
  intros _. cbn [append]. apply startswith_marker.
Qed.

Lemma field_of_prefix (a b : string) (i : nat) :
  (i <= Spec.count "|" a)%nat ->
  Spec.field i (a ++ String "|" b) = Spec.field i a.
Proof.
  intros H. unfold Spec.field. rewrite split_app.
  apply app_nth1. rewrite split_length. lia.
Qed.

(** C5, as stated, fails: a line whose first non-whitespace character is
    the comment marker, but which does not start with it, is accepted
    when its seven fields pass the other checks. *)
Lemma C5_indented_comment_is_accepted :
  Spec.rejected Spec.comment_line "  #arin|US|ipv4|1.0.0.0|256||allocated" = true
  /\ parse_rir_line "  #arin|US|ipv4|1.0.0.0|256||allocated"
     = Some (mkEntry "#arin" "US" "ipv4" "1.0.0.0" "256" "" "allocated").
Proof. split; reflexivity. Qed.

(** C5, amended: [parse_rir_line] returns [None] exactly when the line is
    blank, or starts with the comment marker in its first column, or
    has fewer than 7 pipe-delimited fields, or has a wildcard or
    non-2-character country code, or has an address-family tag that is
    neither [ipv4] nor [ipv6]; every other line yields a record. *)
Theorem C5_rejection_conditions (line : string) :
  parse_rir_line line = None
  <-> Spec.rejected Spec.comment_at_line_start line = true.
Proof.
  rewrite parse_rir_line_cascade. unfold Spec.rejected.
  destruct (Spec.comment_at_line_start line), (Spec.blank line); cbn [orb];
    try (split; reflexivity).
  destruct (Spec.field_count line <? 7); cbn [orb]; [split; reflexivity|].
  destruct (Spec.bad_country (Spec.field 1 line)); cbn [orb];
    [split; reflexivity|].
  destruct (Spec.bad_family (Spec.field 2 line)); split;
    first [reflexivity | discriminate].
Qed.

Lemma strptime_valid (s : string) (y m d : Z) :
  Strptime.strptime_Ymd s = Some (y, m, d) -> Strptime.valid_date y m d = true.
Proof.
  unfold Strptime.strptime_Ymd.
  destruct (Strptime.format_match s) as [[[[ys ms] ds] rest]|]; [|discriminate].
  destruct (negb (is_empty rest)); [discriminate|].
  destruct (int ys), (int ms), (int ds); try discriminate.
  destruct (Strptime.valid_date z z0 z1) eqn:V; [|discriminate].
  intros H. injection H as <- <- <-. exact V.
Qed.

(** The three outcomes of the date validation. *)
Lemma validate_date_cases (f : string) :
  (len f <> 8 -> validate_date f = f)
  /\ (len f = 8 ->
      (exists y m d, Strptime.strptime_Ymd f = Some (y, m, d)
                     /\ Strptime.valid_date y m d = true
                     /\ validate_date f = f)
      \/ (Strptime.strptime_Ymd f = None /\ validate_date f = "")).
Proof.
  unfold validate_date. split.
  - intros H. apply Z.eqb_neq in H. rewrite H, andb_false_r. reflexivity.
  - intros H. assert (is_empty f = false) as ->
      by (destruct f; [discriminate H | reflexivity]).
    apply Z.eqb_eq in H. rewrite H. cbn [negb andb].
    destruct (Strptime.strptime_Ymd f) as [[[y m] d]|] eqn:E.
    + left. exists y, m, d. repeat split. eapply strptime_valid; eauto.
    + right. split; reflexivity.
Qed.

(** C6, as stated, fails: a date field that is present but not 8
    characters long is kept as it is, so an accepted record can carry a
    date that is neither absent nor an 8-digit calendar date. *)
Lemma C6_short_date_is_kept :
  parse_rir_line "arin|US|ipv4|8.8.8.0|256|2014|allocated"
  = Some (mkEntry "arin" "US" "ipv4" "8.8.8.0" "256" "2014" "allocated")
  /\ is_empty "2014" = false
  /\ Spec.calendar_date8 "2014" = false.
Proof. repeat split. Qed.

(** C6, amended.  For every accepted line the record's date is the date
    field itself when that field is not 8 characters long (empty or
    not); when it is 8 characters long the date is the field if
    [strptime] accepts it, and then its year, month and day form a
    calendar date, and is cleared to the empty text if not.  Whether a
    line is accepted does not depend on its date field. *)
Theorem C6_date_kept_or_cleared :
  (forall line e,
      parse_rir_line line = Some e ->
      (len (Spec.field 5 line) <> 8 -> date e = Spec.field 5 line)
      /\ (len (Spec.field 5 line) = 8 ->
          (exists y m d,
              Strptime.strptime_Ymd (Spec.field 5 line) = Some (y, m, d)
              /\ Strptime.valid_date y m d = true
              /\ date e = Spec.field 5 line)
          \/ (Strptime.strptime_Ymd (Spec.field 5 line) = None /\ date e = "")))
  /\ (forall pre d d' post,
         Spec.count "|" pre = 4%nat ->
         contains "|" d = false -> contains "|" d' = false ->
         (parse_rir_line (pre ++ "|" ++ d ++ "|" ++ post) = None
          <-> parse_rir_line (pre ++ "|" ++ d' ++ "|" ++ post) = None)).
Proof.
  split.
  - intros line e H. rewrite parse_rir_line_cascade in H.
    destruct (Spec.comment_at_line_start line || Spec.blank line); [discriminate|].
    destruct (Spec.field_count line <? 7); [discriminate|].
    destruct (Spec.bad_country (Spec.field 1 line)
              || Spec.bad_family (Spec.field 2 line)); [discriminate|].
    injection H as <-. cbn [date]. apply validate_date_cases.
  - intros pre d d' post Hpre Hd Hd'.
    change (pre ++ "|" ++ d ++ "|" ++ post)
      with (pre ++ String "|" (d ++ String "|" post)).
    change (pre ++ "|" ++ d' ++ "|" ++ post)
      with (pre ++ String "|" (d' ++ String "|" post)).
    rewrite !C5_rejection_conditions. unfold Spec.rejected.
    rewrite !blank_with_pipe.
    rewrite (comment_start_app pre _ (d' ++ String "|" post)).
    rewrite !field_of_prefix by lia.
    unfold Spec.field_count. rewrite !count_app. cbn [Spec.count].
    rewrite !count_app. cbn [Spec.count].
    rewrite (count_no_occurrence _ _ Hd), (count_no_occurrence _ _ Hd').
    reflexivity.
Qed.

(** C6 at a line with an impossible date and at one with another date. *)
Lemma C6_date_kept_or_cleared_witness :
  ((len (Spec.field 5 "arin|US|ipv4|8.8.8.0|256|20140231|allocated") = 8 ->
    (exists y m d,
        Strptime.strptime_Ymd (Spec.field 5 "arin|US|ipv4|8.8.8.0|256|20140231|allocated")
        = Some (y, m, d)
        /\ Strptime.valid_date y m d = true
        /\ date (mkEntry "arin" "US" "ipv4" "8.8.8.0" "256" "" "allocated")
           = Spec.field 5 "arin|US|ipv4|8.8.8.0|256|20140231|allocated")
    \/ (Strptime.strptime_Ymd (Spec.field 5 "arin|US|ipv4|8.8.8.0|256|20140231|allocated")
        = None
        /\ date (mkEntry "arin" "US" "ipv4" "8.8.8.0" "256" "" "allocated") = "")))
  /\ (parse_rir_line ("arin|US|ipv4|8.8.8.0|256" ++ "|" ++ "20140231" ++ "|" ++ "allocated")
      = None
      <-> parse_rir_line ("arin|US|ipv4|8.8.8.0|256" ++ "|" ++ "junk" ++ "|" ++ "allocated")
          = None).
Proof.
  split.
  - apply (proj1 C6_date_kept_or_cleared
             "arin|US|ipv4|8.8.8.0|256|20140231|allocated"
             (mkEntry "arin" "US" "ipv4" "8.8.8.0" "256" "" "allocated")).
    reflexivity.
  - apply (proj2 C6_date_kept_or_cleared); reflexivity.
Defined.

End NormalizerClaims.

Section ExtendedFormat.
Import Py.

Lemma on_last_on_first_nth {A : Type} (f g : A -> A) (i : nat) (l : list A) (d : A) :
  nth (S i) (on_last f (on_first g l)) d = nth (S i) (on_last f l) d.
Proof.
  destruct l as [|x [|y r]]; reflexivity.
Qed.

Lemma stripped_first_field (line : string) :
  (0 < Spec.count "|" line)%nat ->
  nth 0 (split "|" (strip line)) "" = lstrip (Spec.field 0 line).
Proof.
  intros H. rewrite stripped_fields. unfold Spec.field.
  pose proof (split_length "|" line) as L.
  destruct (split "|" line) as [|f [|g fs]]; simpl in L; try lia.
  reflexivity.
Qed.

Lemma field_count_extended (pre extra : string) :
  Spec.field_count (pre ++ String "|" extra)
  = Spec.field_count pre + Spec.field_count extra.
Proof.
  unfold Spec.field_count. rewrite count_app. cbn [Spec.count].
  rewrite Ascii.eqb_refl. lia.
Qed.

(** A line with an eighth field yields the record of its first seven
    fields, the seventh taken as it stands. *)
Lemma parse_extended (pre extra : string) :
  Spec.count "|" pre = 6%nat ->
  parse_rir_line (pre ++ String "|" extra) =
  match parse_rir_line pre with
  | None => None
  | Some r => Some (mkEntry (registry r) (country_code r) (type r) (start r)
                      (value r) (date r) (Spec.field 6 pre))
  end.
Proof.
  intros H.
  assert (Hc : (0 < Spec.count "|" (pre ++ String "|" extra))%nat)
    by (rewrite count_app; lia).
  assert (Hlen : (7 < List.length (split "|" (pre ++ String "|" extra)))%nat).
  { rewrite split_length, count_app. cbn [Spec.count].
    rewrite Ascii.eqb_refl. lia. }
  rewrite !parse_rir_line_cascade.
  rewrite comment_start_prefix, blank_with_pipe, (blank_counted pre) by lia.
  destruct (Spec.comment_at_line_start pre); cbn [orb]; [reflexivity|].
  rewrite field_count_extended.
  assert (Hpre : Spec.field_count pre = 7) by (unfold Spec.field_count; lia).
  assert (0 < Spec.field_count extra) by (unfold Spec.field_count; lia).
  rewrite Hpre.
  replace (7 + Spec.field_count extra <? 7) with false
    by (symmetry; apply Z.ltb_ge; lia).
  replace (7 <? 7) with false by reflexivity.
  rewrite !field_of_prefix by lia.
  destruct (Spec.bad_country (Spec.field 1 pre) || Spec.bad_family (Spec.field 2 pre));
    [reflexivity|].
  cbn [registry country_code type start value date].
  rewrite !stripped_first_field by lia.
  rewrite field_of_prefix by lia.
  do 2 f_equal.
  rewrite stripped_fields, on_last_nth, on_first_nth.
  - apply field_of_prefix. lia.
  - rewrite on_first_length. exact Hlen.
Qed.

Lemma status_without_trailing_space (pre : string) (r : Entry) :
  rstrip pre = pre -> parse_rir_line pre = Some r -> status r = Spec.field 6 pre.
Proof.
  intros Hr H. rewrite parse_rir_line_cascade in H.
  destruct (Spec.comment_at_line_start pre || Spec.blank pre); [discriminate|].
  destruct (Spec.field_count pre <? 7); [discriminate|].
  destruct (Spec.bad_country (Spec.field 1 pre) || Spec.bad_family (Spec.field 2 pre));
    [discriminate|].
  injection H as <-. cbn [status].
  rewrite stripped_fields, on_last_on_first_nth.
  rewrite <- (rstrip_split "|" pre is_space_pipe), Hr. reflexivity.
Qed.

(** What [parse_rir_line] returns for a line with more than seven
    fields, from its first seven fields alone. *)
Lemma parse_extended_record (pre extra : string) :
  Spec.count "|" pre = 6%nat ->
  parse_rir_line (pre ++ String "|" extra) =
  if Spec.comment_at_line_start pre
     || Spec.bad_country (Spec.field 1 pre) || Spec.bad_family (Spec.field 2 pre)
  then None
  else Some (mkEntry (lstrip (Spec.field 0 pre)) (upper (Spec.field 1 pre))
               (Spec.field 2 pre) (Spec.field 3 pre) (Spec.field 4 pre)
               (validate_date (Spec.field 5 pre)) (Spec.field 6 pre)).
Proof.
  intros H.
  assert (Hc : (0 < Spec.count "|" (pre ++ String "|" extra))%nat)
    by (rewrite count_app; lia).
  assert (Hlen : (7 < List.length (split "|" (pre ++ String "|" extra)))%nat).
  { rewrite split_length, count_app. cbn [Spec.count].
    rewrite Ascii.eqb_refl. lia. }
  rewrite parse_rir_line_cascade.
  rewrite comment_start_prefix, blank_with_pipe by lia.
  destruct (Spec.comment_at_line_start pre); cbn [orb]; [reflexivity|].
  rewrite field_count_extended.
  assert (Hpre : Spec.field_count pre = 7) by (unfold Spec.field_count; lia).
  assert (0 < Spec.field_count extra) by (unfold Spec.field_count; lia).
  rewrite Hpre.
  replace (7 + Spec.field_count extra <? 7) with false
    by (symmetry; apply Z.ltb_ge; lia).
  rewrite !field_of_prefix by lia.
  destruct (Spec.bad_country (Spec.field 1 pre) || Spec.bad_family (Spec.field 2 pre));
    [reflexivity|].
  rewrite stripped_first_field by lia.
  rewrite field_of_prefix by lia.
  do 2 f_equal.
  rewrite stripped_fields, on_last_nth, on_first_nth.
  - apply field_of_prefix. lia.
  - rewrite on_first_length. exact Hlen.
Qed.

(** C10: only the first seven pipe-delimited fields count.  For a line
    [pre] of seven fields and any further text [extra] after one more
    pipe, the extended line is accepted whenever [pre] does not start
    with the comment marker and its country code and family are
    valid, and is rejected otherwise; the record is made of the first
    seven fields, the seventh taken as it stands between its pipes.
    So the result does not depend on [extra]; the extended line is
    accepted exactly when [pre] is; its record is that of [pre] but for
    the seventh field; and when [pre] does not end in whitespace the
    two records are the same. *)
Theorem C10_only_first_seven_fields (pre extra : string) :
  Spec.count "|" pre = 6%nat ->
  (parse_rir_line (pre ++ "|" ++ extra) =
   if Spec.comment_at_line_start pre
      || Spec.bad_country (Spec.field 1 pre) || Spec.bad_family (Spec.field 2 pre)
   then None
   else Some (mkEntry (lstrip (Spec.field 0 pre)) (upper (Spec.field 1 pre))
                (Spec.field 2 pre) (Spec.field 3 pre) (Spec.field 4 pre)
                (validate_date (Spec.field 5 pre)) (Spec.field 6 pre)))
  /\ (forall extra',
         parse_rir_line (pre ++ "|" ++ extra) = parse_rir_line (pre ++ "|" ++ extra'))
  /\ (parse_rir_line (pre ++ "|" ++ extra) = None <-> parse_rir_line pre = None)
  /\ (forall r, parse_rir_line pre = Some r ->
                parse_rir_line (pre ++ "|" ++ extra)
                = Some (mkEntry (registry r) (country_code r) (type r) (start r)
                          (value r) (date r) (Spec.field 6 pre)))
  /\ (rstrip pre = pre ->
      parse_rir_line (pre ++ "|" ++ extra) = parse_rir_line pre).
Proof.
  intros H. split.
  { change (pre ++ "|" ++ extra) with (pre ++ String "|" extra).
    apply parse_extended_record, H. }
  change (pre ++ "|" ++ extra) with (pre ++ String "|" extra).
  rewrite (parse_extended pre extra H).
  repeat split.
  - intros extra'. change (pre ++ "|" ++ extra') with (pre ++ String "|" extra').
    rewrite (parse_extended pre extra' H). reflexivity.
  - destruct (parse_rir_line pre); [discriminate | reflexivity].
  - intros ->. reflexivity.
  - intros r ->. reflexivity.
  - intros Hr. destruct (parse_rir_line pre) as [r|] eqn:E; [|reflexivity].
    rewrite <- (status_without_trailing_space pre r Hr E). destruct r; reflexivity.
Qed.

(** C10 at a line of the registries' extended format, which is accepted
    with the record of its first seven fields. *)
Lemma C10_only_first_seven_fields_witness :
  parse_rir_line (sample_line ++ "|" ++ "e5e3b9c13678dfc483fb1f819d70883c")
  = Some sample_entry
  /\ (forall extra',
         parse_rir_line (sample_line ++ "|" ++ "e5e3b9c13678dfc483fb1f819d70883c")
         = parse_rir_line (sample_line ++ "|" ++ extra'))
  /\ parse_rir_line sample_line = Some sample_entry
  /\ parse_rir_line (sample_line ++ "|" ++ "e5e3b9c13678dfc483fb1f819d70883c")
     = Some (mkEntry (registry sample_entry) (country_code sample_entry)
               (type sample_entry) (start sample_entry) (value sample_entry)
               (date sample_entry) (Spec.field 6 sample_line))
  /\ parse_rir_line (sample_line ++ "|" ++ "e5e3b9c13678dfc483fb1f819d70883c")
     = parse_rir_line sample_line.
Proof.
  pose proof (C10_only_first_seven_fields sample_line "e5e3b9c13678dfc483fb1f819d70883c" eq_refl)
    as (Ha & Hb & _ & Hd & He).
  split; [exact Ha|]. split; [exact Hb|]. split; [reflexivity|].
  split; [exact (Hd sample_entry eq_refl) | exact (He eq_refl)].
Defined.

End ExtendedFormat.

(** ** Numbers as text *)

Section DecimalFacts.
Import Py.

Lemma digit_not_space (c : ascii) : is_digit c = true -> is_space c = false.
Proof.
  intros H.
  destruct c as [[] [] [] [] [] [] [] []]; vm_compute in H; try discriminate H;
    reflexivity.
Qed.

Lemma split_sign_digit (c : ascii) (r : string) :
  is_digit c = true -> split_sign (String c r) = (false, String c r).
Proof.
  intros H.
  destruct c as [[] [] [] [] [] [] [] []]; vm_compute in H; try discriminate H;
    reflexivity.
Qed.

Lemma rstrip_digits (s : string) : all_chars is_digit s = true -> rstrip s = s.
Proof.
  induction s as [|c r IH]; [reflexivity|]. cbn [all_chars].
  intros H. apply andb_true_iff in H as [Hc Hr].
  rewrite rstrip_cons_nonspace by (apply digit_not_space, Hc).
  rewrite IH by assumption. reflexivity.
Qed.

Lemma strip_digits (s : string) : all_chars is_digit s = true -> strip s = s.
Proof.
  intros H. unfold strip.
  replace (lstrip s) with s; [apply rstrip_digits, H|].
  destruct s as [|c r]; [reflexivity|]. cbn [all_chars] in H.
  apply andb_true_iff in H as [Hc _]. cbn [lstrip].
  rewrite (digit_not_space c Hc). reflexivity.
Qed.

Lemma digit_not_c_space (c : ascii) : is_digit c = true -> is_c_space c = false.
Proof.
  intros H.
  destruct c as [[] [] [] [] [] [] [] []]; vm_compute in H; try discriminate H;
    reflexivity.
Qed.

Lemma rstrip_by_digits (s : string) :
  all_chars is_digit s = true -> rstrip_by is_c_space s = s.
Proof.
  induction s as [|c r IH]; [reflexivity|]. cbn [all_chars rstrip_by].
  intros H. apply andb_true_iff in H as [Hc Hr].
  rewrite IH by assumption. rewrite (digit_not_c_space c Hc).
  destruct r; reflexivity.
Qed.

Lemma lstrip_by_digits (s : string) :
  all_chars is_digit s = true -> lstrip_by is_c_space s = s.
Proof.
  destruct s as [|c r]; [reflexivity|]. cbn [all_chars lstrip_by].
  intros H. apply andb_true_iff in H as [Hc _].
  rewrite (digit_not_c_space c Hc). reflexivity.
Qed.

Lemma int_body_digits (s : string) (acc : Z) (n : N) :
  all_chars is_digit s = true ->
  int_body s acc n false
  = Some (of_digits 10 digit_val s acc, (n + N.of_nat (String.length s))%N).
Proof.
  revert acc n. induction s as [|c r IH]; intros acc n H.
  - cbn. rewrite N.add_0_r. reflexivity.
  - cbn [all_chars] in H. apply andb_true_iff in H as [Hc Hr].
    cbn [int_body of_digits String.length]. rewrite Hc, IH by assumption.
    do 2 f_equal. lia.
Qed.

(** [int] on a text of decimal digits. *)
Lemma int_digits (s : string) :
  s <> "" -> all_chars is_digit s = true ->
  int s = if (int_max_str_digits <? N.of_nat (String.length s))%N then None
          else Some (of_digits 10 digit_val s 0).
Proof.
  intros Hne H. unfold int. rewrite lstrip_by_digits, rstrip_by_digits by assumption.
  destruct s as [|c r]; [congruence|].
  pose proof H as H'. cbn [all_chars] in H'. apply andb_true_iff in H' as [Hc _].
  rewrite split_sign_digit by assumption. rewrite Hc.
  rewrite int_body_digits by assumption. rewrite N.add_0_l. reflexivity.
Qed.

Lemma string_of_uint_digits (d : Decimal.uint) :
  all_chars is_digit (DecimalString.NilEmpty.string_of_uint d) = true.
Proof. induction d; cbn [DecimalString.NilEmpty.string_of_uint all_chars]; auto. Qed.

Lemma string_of_uint_empty (d : Decimal.uint) :
  DecimalString.NilEmpty.string_of_uint d = "" -> d = Decimal.Nil.
Proof. destruct d; cbn; intros H; first [reflexivity | discriminate H]. Qed.

Lemma of_digits_uint_acc (d : Decimal.uint) (acc : positive) :
  of_digits 10 digit_val (DecimalString.NilEmpty.string_of_uint d) (Zpos acc)
  = Zpos (Pos.of_uint_acc d acc).
Proof.
  revert acc. induction d; intros acc;
    cbn [DecimalString.NilEmpty.string_of_uint of_digits Pos.of_uint_acc];
    [reflexivity | ..];
    match goal with
    | |- of_digits _ _ _ ?a = Zpos (Pos.of_uint_acc _ ?b) =>
        replace a with (Zpos b)
          by (match goal with
              | |- context [digit_val ?c] =>
                  let v := eval vm_compute in (digit_val c) in
                  change (digit_val c) with v
              end; lia)
    end; apply IHd.
Qed.

Lemma of_digits_uint (d : Decimal.uint) :
  of_digits 10 digit_val (DecimalString.NilEmpty.string_of_uint d) 0
  = Z.of_N (Pos.of_uint d).
Proof.
  induction d;
    cbn [DecimalString.NilEmpty.string_of_uint of_digits Pos.of_uint Z.of_N];
    [reflexivity | exact IHd | ..];
    match goal with
    | |- of_digits _ _ _ ?a = Zpos (Pos.of_uint_acc _ ?b) =>
        replace a with (Zpos b)
          by (match goal with
              | |- context [digit_val ?c] =>
                  let v := eval vm_compute in (digit_val c) in
                  change (digit_val c) with v
              end; lia)
    end; apply of_digits_uint_acc.
Qed.

(** The decimal text of a natural number: digits, not empty, and read
    back by [int(s, 10)]. *)
Lemma str_int_nonneg (p : Z) :
  0 <= p ->
  all_chars is_digit (str_int p) = true
  /\ str_int p <> ""
  /\ of_digits 10 digit_val (str_int p) 0 = p.
Proof.
  intros H. destruct p as [|q|q]; [repeat split; discriminate | | lia].
  unfold str_int. cbn [Z.to_int DecimalString.NilEmpty.string_of_int].
  repeat split.
  - apply string_of_uint_digits.
  - intros E. apply string_of_uint_empty in E.
    exact (DecimalPos.Unsigned.to_uint_nonnil q E).
  - rewrite of_digits_uint, DecimalPos.Unsigned.of_to. reflexivity.
Qed.

Lemma str_int_negative (p : Z) :
  p < 0 -> exists r, str_int p = String "-" r.
Proof.
  intros H. destruct p as [|q|q]; try lia.
  unfold str_int. cbn [Z.to_int DecimalString.NilEmpty.string_of_int]. eauto.
Qed.

Lemma contains_digits (ch : ascii) (s : string) :
  is_digit ch = false -> all_chars is_digit s = true -> contains ch s = false.
Proof.
  intros Hch. induction s as [|c r IH]; [reflexivity|]. cbn [all_chars contains].
  intros H. apply andb_true_iff in H as [Hc Hr]. rewrite (IH Hr), orb_false_r.
  destruct (Ascii.eqb c ch) eqn:E; [|reflexivity].
  apply Ascii.eqb_eq in E. congruence.
Qed.

(** The decimal text of any integer holds no character but digits and
    a leading minus sign. *)
Lemma str_int_contains (ch : ascii) (p : Z) :
  is_digit ch = false -> Ascii.eqb "-" ch = false -> contains ch (str_int p) = false.
Proof.
  intros Hd Hm. destruct (Z.neg_nonneg_cases p) as [Hp|Hp].
  - destruct p as [|q|q]; try lia.
    unfold str_int. cbn [Z.to_int DecimalString.NilEmpty.string_of_int contains].
    rewrite Hm. apply contains_digits; [assumption | apply string_of_uint_digits].
  - apply contains_digits; [assumption | apply (str_int_nonneg p Hp)].
Qed.

End DecimalFacts.

(** ** What [insert_entries_to_db] stores *)

Section Storage.
Import Py.

Lemma ipv4_is_not_ipv6 (t : string) :
  String.eqb t "ipv4" = true -> String.eqb t "ipv6" = false.
Proof. intros H. apply String.eqb_eq in H. subst t. reflexivity. Qed.

(** The two batches are the contributions of the entries, in order. *)
Lemma prepare_entries_contributions (entries : list RirEntry) :
  prepare_entries entries
  = (flat_map ipv4_contribution entries, flat_map ipv6_contribution entries).
Proof.
  induction entries as [|e rest IH]; [reflexivity|].
  cbn [prepare_entries flat_map]. rewrite IH.
  unfold ipv4_contribution, ipv6_contribution.
  destruct (String.eqb (type (entry e)) "ipv4") eqn:E4.
  - rewrite (ipv4_is_not_ipv6 _ E4). destruct (ipv4_tuple e); reflexivity.
  - destruct (String.eqb (type (entry e)) "ipv6");
      [destruct (ipv6_tuple e)|]; reflexivity.
Qed.

Lemma number_rows_columns4 (seq : Z) (ts : list V4.tuple) :
  map V4.columns (number_rows V4.with_id seq ts) = ts.
Proof.
  revert seq. induction ts as [|t r IH]; intros seq; [reflexivity|].
  cbn [number_rows map]. rewrite IH.
  destruct t as [[[[[s e] cc] ri] d] st]. reflexivity.
Qed.

Lemma number_rows_columns6 (seq : Z) (ts : list V6.tuple) :
  map V6.columns (number_rows V6.with_id seq ts) = ts.
Proof.
  revert seq. induction ts as [|t r IH]; intros seq; [reflexivity|].
  cbn [number_rows map]. rewrite IH.
  destruct t as [[[[[s e] cc] ri] d] st]. reflexivity.
Qed.

(** A successful insertion appends both batches and changes nothing else. *)
Lemma insert_entries_stored (d d' : Database) (entries : list RirEntry) :
  insert_entries_to_db d entries = Ret d' ->
  map V4.columns (ipv4_ranges d')
  = (map V4.columns (ipv4_ranges d) ++ flat_map ipv4_contribution entries)%list
  /\ map V6.columns (ipv6_ranges d')
     = (map V6.columns (ipv6_ranges d) ++ flat_map ipv6_contribution entries)%list
  /\ metadata d' = metadata d.
Proof.
  unfold insert_entries_to_db. rewrite prepare_entries_contributions.
  destruct (negb (forallb bindable4 (flat_map ipv4_contribution entries)));
    [discriminate|].
  destruct (negb (forallb bindable6 (flat_map ipv6_contribution entries)));
    [discriminate|].
  intros H. injection H as <-. cbn [ipv4_ranges ipv6_ranges metadata].
  rewrite !map_app, number_rows_columns4, number_rows_columns6. auto.
Qed.

(** An entry that contributes to neither batch might as well be absent. *)
Lemma insert_entries_skip (d : Database) (es1 es2 : list RirEntry) (e : RirEntry) :
  ipv4_contribution e = [] -> ipv6_contribution e = [] ->
  insert_entries_to_db d (es1 ++ e :: es2) = insert_entries_to_db d (es1 ++ es2).
Proof.
  intros H4 H6. unfold insert_entries_to_db.
  rewrite !prepare_entries_contributions, !flat_map_app. cbn [flat_map].
  rewrite H4, H6. reflexivity.
Qed.

Lemma ipv4_tuple_none (e : RirEntry) :
  ipv4_tuple e = None
  <-> ip_to_int (start (entry e)) = None \/ int (value (entry e)) = None.
Proof.
  unfold ipv4_tuple.
  destruct (int (value (entry e))); [|tauto].
  destruct (ip_to_int (start (entry e))); [|tauto].
  split; [discriminate | intros [H|H]; discriminate H].
Qed.

(** C2, as stated, fails: the record with start 255.255.255.0 and count
    512 is stored, with an end beyond the 32-bit address space, and so
    is a record whose count is not positive. *)
Lemma C2_overflowing_range_is_stored :
  process_rir_data "arin|US|ipv4|255.255.255.0|512|20140328|allocated" "ARIN"
  = [mkRirEntry (mkEntry "arin" "US" "ipv4" "255.255.255.0" "512" "20140328"
                         "allocated") "ARIN"]
  /\ insert_entries_to_db empty_database
       (process_rir_data "arin|US|ipv4|255.255.255.0|512|20140328|allocated" "ARIN")
     = Ret (mkDatabase
              [V4.mkRow 1 4294967040 4294967551 "US" "ARIN" "20140328" "allocated"]
              [] 1 0 [])
  /\ 2 ^ 32 - 1 < 4294967551
  /\ insert_entries_to_db empty_database
       (process_rir_data "arin|US|ipv4|10.0.0.0|-4|20140328|allocated" "ARIN")
     = Ret (mkDatabase
              [V4.mkRow 1 167772160 167772155 "US" "ARIN" "20140328" "allocated"]
              [] 1 0 [])
  /\ int "-4" = Some (-4).
Proof. repeat split. Qed.

End Storage.

(** ** Stored IPv6 rows and the network they stand for *)

Section Ipv6Rows.
Import Py ipaddress.

Lemma count_contains (ch : ascii) (s : string) :
  contains ch s = true -> (0 < Spec.count ch s)%nat.
Proof.
  induction s as [|c r IH]; cbn [contains Spec.count]; [discriminate|].
  destruct (Ascii.eqb c ch); [lia|]. cbn [orb]. intros H. specialize (IH H). lia.
Qed.

(** The prefix length goes through its decimal text unchanged, and is
    then accepted exactly when it lies between 0 and 128. *)
Lemma prefix_of_str_int (p : Z) :
  prefix_from_prefix_string (str_int p)
  = if (0 <=? p) && (p <=? 128) then Some p else None.
Proof.
  unfold prefix_from_prefix_string.
  destruct (Z.neg_nonneg_cases p) as [Hp|Hp].
  - destruct (str_int_negative p Hp) as (r & E). rewrite E. cbn [is_empty all_chars].
    replace (is_digit "-") with false by reflexivity. cbn [negb andb].
    replace (0 <=? p) with false by (symmetry; apply Z.leb_gt; exact Hp).
    reflexivity.
  - destruct (str_int_nonneg p Hp) as (Hd & Hne & Hv).
    rewrite Hd. destruct (str_int p) as [|c r] eqn:E; [congruence|].
    cbn [is_empty negb andb]. rewrite <- E in *.
    replace (0 <=? p) with true by (symmetry; apply Z.leb_le; exact Hp).
    cbn [andb]. unfold max_prefixlen.
    destruct (p <=? 128) eqn:Hle.
    + (* at most three digits, so [int] accepts the text *)
      apply Z.leb_le in Hle. clear Hd Hne Hv E c r.
      destruct p as [|q|q]; [reflexivity | | lia].
      do 8 (destruct q as [q|q|]; try lia; try reflexivity).
    + rewrite int_digits, Hv by assumption.
      destruct (int_max_str_digits <? N.of_nat (String.length (str_int p)))%N;
        [reflexivity|].
      replace (0 <=? p) with true by (symmetry; apply Z.leb_le; exact Hp).
      rewrite Hle. reflexivity.
Qed.

(** [IPv6Network] on the text [lookup_ipv6] formats for a row. *)
Lemma network_of_row_text (n : string) (p : Z) :
  IPv6Network (n ++ "/" ++ str_int p) =
  match IPv6Address n with
  | None => None
  | Some na =>
      if (0 <=? p) && (p <=? 128) then
        Some (mkIPv6Net
                (if negb (Z.land (ip na) (ip_int_from_prefix p) =? ip na)
                 then mkIPv6Addr (Z.land (ip na) (ip_int_from_prefix p)) None
                 else na)
                (ip_int_from_prefix p) p)
      else None
  end.
Proof.
  change (n ++ "/" ++ str_int p) with (n ++ String "/" (str_int p)).
  unfold IPv6Network. rewrite split_app.
  rewrite (split_no_sep "/" (str_int p)) by (apply str_int_contains; reflexivity).
  destruct (contains "/" n) eqn:Hc.
  - (* a slash in the stored text: three parts or more *)
    replace (IPv6Address n) with (@None IPv6Addr)
      by (unfold IPv6Address; rewrite Hc; reflexivity).
    apply count_contains in Hc. pose proof (split_length "/" n) as L.
    destruct (split "/" n) as [|a [|b l]]; cbn [List.length] in L; try lia.
    cbn [app List.length].
    replace (2 <? Z.of_nat (S (S (List.length (l ++ [str_int p])))))
      with true by (symmetry; apply Z.ltb_lt; rewrite length_app; cbn; lia).
    reflexivity.
  - rewrite (split_no_sep "/" n Hc). cbn [app List.length].
    replace (2 <? Z.of_nat 2) with false by reflexivity.
    destruct (IPv6Address n) as [na|]; [|reflexivity].
    rewrite prefix_of_str_int.
    destruct ((0 <=? p) && (p <=? 128)); reflexivity.
Qed.

Lemma row_network_eq (row : V6.row) :
  row_network row =
  match IPv6Address (V6.network row) with
  | None => None
  | Some na =>
      let p := V6.prefix_length row in
      if (0 <=? p) && (p <=? 128) then
        Some (mkIPv6Net
                (if negb (Z.land (ip na) (ip_int_from_prefix p) =? ip na)
                 then mkIPv6Addr (Z.land (ip na) (ip_int_from_prefix p)) None
                 else na)
                (ip_int_from_prefix p) p)
      else None
  end.
Proof. apply network_of_row_text. Qed.

Lemma row_network_none (row : V6.row) :
  row_network row = None
  <-> V6.prefix_length row < 0 \/ 128 < V6.prefix_length row
      \/ IPv6Address (V6.network row) = None.
Proof.
  rewrite row_network_eq.
  destruct (IPv6Address (V6.network row)) as [na|]; [|tauto]. cbn zeta.
  destruct ((0 <=? V6.prefix_length row) && (V6.prefix_length row <=? 128)) eqn:E.
  - apply andb_true_iff in E as [E1 E2]. apply Z.leb_le in E1, E2.
    split; [discriminate | intros [H|[H|H]]; try lia; discriminate H].
  - apply andb_false_iff in E as [E|E]; apply Z.leb_gt in E; split; auto.
Qed.

Lemma row_network_some (row : V6.row) (net : IPv6Net) :
  row_network row = Some net ->
  prefixlen net = V6.prefix_length row
  /\ 0 <= prefixlen net <= 128
  /\ netmask net = ip_int_from_prefix (prefixlen net)
  /\ Z.land (ip (network_address net)) (netmask net) = ip (network_address net)
  /\ exists a, IPv6Address (V6.network row) = Some a
               /\ ip (network_address net) = Z.land (ip a) (netmask net).
Proof.
  rewrite row_network_eq.
  destruct (IPv6Address (V6.network row)) as [na|]; [|discriminate]. cbn zeta.
  destruct ((0 <=? V6.prefix_length row) && (V6.prefix_length row <=? 128)) eqn:E;
    [|discriminate].
  apply andb_true_iff in E as [E1 E2]. apply Z.leb_le in E1, E2.
  intros H. injection H as <-. cbn [prefixlen netmask network_address].
  repeat split; try assumption.
  - destruct (Z.land (ip na) (ip_int_from_prefix (V6.prefix_length row)) =? ip na)
      eqn:T; cbn [negb ip].
    + apply Z.eqb_eq in T. exact T.
    + rewrite <- Z.land_assoc, Z.land_diag. reflexivity.
  - exists na. split; [reflexivity|].
    destruct (Z.land (ip na) (ip_int_from_prefix (V6.prefix_length row)) =? ip na)
      eqn:T; cbn [negb ip]; [|reflexivity].
    apply Z.eqb_eq in T. symmetry. exact T.
Qed.

Lemma ipv6_tuple_none (e : RirEntry) :
  ipv6_tuple e = None <-> int (value (entry e)) = None.
Proof.
  unfold ipv6_tuple. destruct (int (value (entry e))); split; congruence.
Qed.

(** C7, as stated, fails: a record whose prefix length is 200 and whose
    address does not parse is stored as it is, and a record with host
    bits set is stored with its address text unchanged. *)
Lemma C7_invalid_prefix_is_stored :
  insert_entries_to_db empty_database
    (process_rir_data "ripencc|FR|ipv6|not-an-address|200||allocated" "RIPE")
  = Ret (mkDatabase [] [V6.mkRow 1 "not-an-address" 200 "FR" "RIPE" "" "allocated"]
                    0 1 [])
  /\ IPv6Address "not-an-address" = None
  /\ 128 < 200
  /\ insert_entries_to_db empty_database
       (process_rir_data "ripencc|FR|ipv6|2a01:e00::1|32||allocated" "RIPE")
     = Ret (mkDatabase [] [V6.mkRow 1 "2a01:e00::1" 32 "FR" "RIPE" "" "allocated"]
                       0 1 [])
  /\ option_map str_network (IPv6Network "2a01:e00::1/32") = Some "2a01:e00::/32".
Proof. repeat split. Qed.

End Ipv6Rows.

(** ** IPv4 lookup *)

Section Ipv4Lookup.

Lemma covers_iff (ip_int : Z) (r : V4.row) :
  covers ip_int r = true <-> V4.start_ip r <= ip_int <= V4.end_ip r.
Proof.
  unfold covers. rewrite andb_true_iff, Z.leb_le, Z.geb_le. tauto.
Qed.

(** [ORDER BY key LIMIT 1] yields a row whenever there is one, and that
    row has the least key. *)
Lemma order_by_limit_1_least {R : Type} (key : R -> Z) (rows : list R) :
  rows <> [] ->
  exists m, order_by_limit_1 key rows = Some m
            /\ In m rows
            /\ forall r, In r rows -> key m <= key r.
Proof.
  induction rows as [|x rest IH]; [congruence|]. intros _.
  cbn [order_by_limit_1]. destruct rest as [|y rest'].
  - exists x. cbn. repeat split; auto. intros r [<-|[]]. lia.
  - destruct IH as (m & Hm & Hin & Hleast); [discriminate|].
    rewrite Hm. destruct (key x <=? key m) eqn:E.
    + apply Z.leb_le in E. exists x. repeat split; [left; reflexivity|].
      intros r [<-|Hr]; [lia|]. specialize (Hleast r Hr). lia.
    + apply Z.leb_gt in E. exists m. repeat split; [right; exact Hin|].
      intros r [<-|Hr]; [lia|]. exact (Hleast r Hr).
Qed.

Lemma order_by_limit_1_nil {R : Type} (key : R -> Z) (rows : list R) :
  order_by_limit_1 key rows = None <-> rows = [].
Proof.
  split; [|intros ->; reflexivity].
  destruct rows as [|x rest]; [reflexivity|]. cbn [order_by_limit_1].
  destruct (order_by_limit_1 key rest) as [m|]; [|discriminate].
  destruct (key x <=? key m); discriminate.
Qed.

(** An address outside every stored range is not found. *)
Lemma lookup_ipv4_not_covered (d : Database) (ip_address : string) (ip_int : Z) :
  ip_to_int ip_address = Some ip_int ->
  (forall r, In r (ipv4_ranges d) -> covers ip_int r = false) ->
  lookup_ipv4 d ip_address = Ret None.
Proof.
  intros Hp Hn. unfold lookup_ipv4. rewrite Hp.
  replace (filter (covers ip_int) (ipv4_ranges d)) with (@nil V4.row); [reflexivity|].
  symmetry. induction (ipv4_ranges d) as [|x l IH]; [reflexivity|].
  cbn [filter]. rewrite (Hn x (or_introl eq_refl)).
  apply IH. intros r Hr. apply Hn. right. exact Hr.
Qed.

(** C3: an address inside a stored range is always found, and the row
    answered is a narrowest one among the stored ranges that contain
    the address. *)
Theorem C3_narrowest_containing_range
  (d : Database) (ip_address : string) (ip_int : Z) (row : V4.row) :
  ip_to_int ip_address = Some ip_int ->
  In row (ipv4_ranges d) ->
  V4.start_ip row <= ip_int <= V4.end_ip row ->
  exists best,
    In best (ipv4_ranges d)
    /\ V4.start_ip best <= ip_int <= V4.end_ip best
    /\ (forall r, In r (ipv4_ranges d) ->
                  V4.start_ip r <= ip_int <= V4.end_ip r ->
                  V4.end_ip best - V4.start_ip best <= V4.end_ip r - V4.start_ip r)
    /\ lookup_ipv4 d ip_address = Ret (Some (result_of_row4 ip_address best)).
Proof.
  intros Hp Hin Hrange. unfold lookup_ipv4. rewrite Hp.
  destruct (order_by_limit_1_least width (filter (covers ip_int) (ipv4_ranges d)))
    as (best & Hbest & Hb_in & Hleast).
  - intros E. assert (Hf : In row (filter (covers ip_int) (ipv4_ranges d)))
      by (apply filter_In; split; [exact Hin | apply covers_iff, Hrange]).
    rewrite E in Hf. exact Hf.
  - apply filter_In in Hb_in as [Hb_in Hb_cov]. exists best.
    repeat split; try (apply covers_iff in Hb_cov; lia); [exact Hb_in | |].
    + intros r Hr Hr_range. apply (Hleast r).
      apply filter_In. split; [exact Hr | apply covers_iff, Hr_range].
    + rewrite Hbest. reflexivity.
Qed.

(** C3 at two nested ranges around 8.8.8.8, the wider one stored first. *)
Lemma C3_narrowest_containing_range_witness :
  exists best,
    In best [V4.mkRow 1 134217728 150994943 "ZZ" "ARIN" "" "allocated";
             V4.mkRow 2 134744064 134744319 "US" "ARIN" "20140328" "allocated"]
    /\ V4.start_ip best <= 134744072 <= V4.end_ip best
    /\ (forall r,
           In r [V4.mkRow 1 134217728 150994943 "ZZ" "ARIN" "" "allocated";
                 V4.mkRow 2 134744064 134744319 "US" "ARIN" "20140328" "allocated"] ->
           V4.start_ip r <= 134744072 <= V4.end_ip r ->
           V4.end_ip best - V4.start_ip best <= V4.end_ip r - V4.start_ip r)
    /\ lookup_ipv4
         (mkDatabase
            [V4.mkRow 1 134217728 150994943 "ZZ" "ARIN" "" "allocated";
             V4.mkRow 2 134744064 134744319 "US" "ARIN" "20140328" "allocated"]
            [] 2 0 [])
         "8.8.8.8"
       = Ret (Some (result_of_row4 "8.8.8.8" best)).
Proof.
  apply (C3_narrowest_containing_range
           (mkDatabase
              [V4.mkRow 1 134217728 150994943 "ZZ" "ARIN" "" "allocated";
               V4.mkRow 2 134744064 134744319 "US" "ARIN" "20140328" "allocated"]
              [] 2 0 [])
           "8.8.8.8" 134744072
           (V4.mkRow 1 134217728 150994943 "ZZ" "ARIN" "" "allocated")).
  - reflexivity.
  - left. reflexivity.
  - cbn. lia.
Defined.

End Ipv4Lookup.

(** ** IPv6 lookup *)

Section Ipv6Lookup.
Import ipaddress.

(** The scan answers from the first row, in storage order, that stands
    for a network containing the address. *)
Lemma scan_ipv6_first_match (rows : list V6.row) (ip_obj : IPv6Addr)
  (ip_address : string) (res : Result.t) :
  scan_ipv6 rows ip_obj ip_address = Some res
  <-> exists before row after net,
        rows = (before ++ row :: after)%list
        /\ row_network row = Some net
        /\ net_contains net ip_obj = true
        /\ (forall r n, In r before -> row_network r = Some n ->
                        net_contains n ip_obj = false)
        /\ res = result_of_row6 ip_address row net.
Proof.
  assert (Hskip : forall x rest,
             (forall n, row_network x = Some n -> net_contains n ip_obj = false) ->
             (exists before row after net,
                 rest = (before ++ row :: after)%list
                 /\ row_network row = Some net
                 /\ net_contains net ip_obj = true
                 /\ (forall r n, In r before -> row_network r = Some n ->
                                 net_contains n ip_obj = false)
                 /\ res = result_of_row6 ip_address row net)
             <-> (exists before row after net,
                     x :: rest = (before ++ row :: after)%list
                     /\ row_network row = Some net
                     /\ net_contains net ip_obj = true
                     /\ (forall r n, In r before -> row_network r = Some n ->
                                     net_contains n ip_obj = false)
                     /\ res = result_of_row6 ip_address row net)).
  { intros x rest Hx. split.
    - intros (b & r & a & n & E & Hr & Hn & Hb & Hres).
      exists (x :: b), r, a, n. rewrite E. repeat split; auto.
      intros r' n' [Hin|Hin] Hr'; [subst r'; eauto | eauto].
    - intros (b & r & a & n & E & Hr & Hn & Hb & Hres).
      destruct b as [|y b]; cbn in E; injection E as E1 E2.
      + subst r. rewrite (Hx n Hr) in Hn. discriminate.
      + exists b, r, a, n. repeat split; auto.
        intros r' n' Hin. apply Hb. right. exact Hin. }
  induction rows as [|x rest IH].
  - split; [discriminate|]. intros (b & r & a & n & E & _).
    destruct b; discriminate E.
  - cbn [scan_ipv6]. fold (row_network x).
    destruct (row_network x) as [net|] eqn:Hx.
    + destruct (net_contains net ip_obj) eqn:Hc.
      * split.
        -- intros H. injection H as <-. exists [], x, rest, net.
           repeat split; auto. intros r n [].
        -- intros (b & r & a & n & E & Hr & Hn & Hb & Hres).
           destruct b as [|y b]; cbn in E; injection E as E1 E2.
           ++ subst r. rewrite Hx in Hr. injection Hr as <-. rewrite Hres.
              reflexivity.
           ++ subst y. rewrite (Hb x net (or_introl eq_refl) Hx) in Hc.
              discriminate.
      * rewrite IH. apply Hskip. intros n E. rewrite Hx in E.
        injection E as <-. exact Hc.
    + rewrite IH. apply Hskip. intros n E. rewrite Hx in E. discriminate E.
Qed.

Lemma scan_ipv6_no_match (rows : list V6.row) (ip_obj : IPv6Addr)
  (ip_address : string) :
  scan_ipv6 rows ip_obj ip_address = None
  <-> forall r n, In r rows -> row_network r = Some n ->
                  net_contains n ip_obj = false.
Proof.
  induction rows as [|x rest IH].
  - split; [intros _ r n [] | reflexivity].
  - cbn [scan_ipv6]. fold (row_network x).
    destruct (row_network x) as [net|] eqn:Hx.
    + destruct (net_contains net ip_obj) eqn:Hc.
      * split; [discriminate|]. intros H.
        rewrite (H x net (or_introl eq_refl) Hx) in Hc. discriminate.
      * rewrite IH. split.
        -- intros H r n [<-|Hin] Hr; [congruence | eauto].
        -- intros H r n Hin. apply H. right. exact Hin.
    + rewrite IH. split.
      * intros H r n [<-|Hin] Hr; [congruence | eauto].
      * intros H r n Hin. apply H. right. exact Hin.
Qed.

(** What an IPv6 lookup answers: the attributes of the first stored
    row, in storage order, whose network parses and contains the query
    address, whatever its prefix length; and "not found" exactly when
    no stored row has such a network. *)
Lemma lookup_ipv6_first_stored_match
  (d : Database) (ip_address : string) (ip_obj : IPv6Addr) :
  IPv6Address ip_address = Some ip_obj ->
  (forall res,
      lookup_ipv6 d ip_address = Ret (Some res)
      <-> exists before row after net,
            ipv6_ranges d = (before ++ row :: after)%list
            /\ row_network row = Some net
            /\ net_contains net ip_obj = true
            /\ (forall r n, In r before -> row_network r = Some n ->
                            net_contains n ip_obj = false)
            /\ res = result_of_row6 ip_address row net)
  /\ (lookup_ipv6 d ip_address = Ret None
      <-> forall r n, In r (ipv6_ranges d) -> row_network r = Some n ->
                      net_contains n ip_obj = false).
Proof.
  intros Hp. unfold lookup_ipv6. rewrite Hp. split.
  - intros res.
    rewrite <- (scan_ipv6_first_match (ipv6_ranges d) ip_obj ip_address res).
    split; intros H; [injection H as H; exact H | rewrite H; reflexivity].
  - rewrite <- (scan_ipv6_no_match (ipv6_ranges d) ip_obj ip_address).
    split; intros H; [injection H as H; exact H | rewrite H; reflexivity].
Qed.

(** The same two prefixes stored in the other order: the /48 is
    answered, because it comes first. *)
Example longer_prefix_wins_when_first :
  lookup_ipv6
    (mkDatabase []
       [V6.mkRow 1 "2001:db8::" 48 "JP" "APNIC" "20110101" "assigned";
        V6.mkRow 2 "2001:db8::" 32 "AU" "APNIC" "20100101" "allocated"]
       0 2 [])
    "2001:db8::1"
  = Ret (Some (Result.mk "2001:db8::1" (Some "JP") (Some "APNIC")
                 (Some "20110101") (Some "assigned") (Some 6)
                 (Some "2001:db8::/48"))).
Proof. reflexivity. Qed.

(** C1 fails on the code.  The delegation file lists 2001:db8::/32
    (AU) before 2001:db8::/48 (JP); both networks contain 2001:db8::1;
    the loop of [lookup_ipv6] returns at the first row that matches, so
    the lookup answers with the country of the /32, not with that of
    the longest matching prefix. *)
Theorem C1_shorter_prefix_wins_when_first :
  insert_entries_to_db empty_database (process_rir_data nested_prefixes_file "APNIC")
  = Ret nested_prefixes
  /\ lookup_ipv6 nested_prefixes "2001:db8::1"
     = Ret (Some (Result.mk "2001:db8::1" (Some "AU") (Some "APNIC")
                    (Some "20100101") (Some "allocated") (Some 6)
                    (Some "2001:db8::/32")))
  /\ (exists a n32 n48,
         IPv6Address "2001:db8::1" = Some a
         /\ IPv6Network "2001:db8::/32" = Some n32
         /\ IPv6Network "2001:db8::/48" = Some n48
         /\ prefixlen n32 < prefixlen n48
         /\ net_contains n32 a = true
         /\ net_contains n48 a = true).
Proof.
  split; [reflexivity|]. split; [reflexivity|].
  exists (mkIPv6Addr 42540766411282592856903984951653826561 None).
  eexists. eexists. repeat split.
Qed.

End Ipv6Lookup.

(** ** Lookups read the content of the tables, not the row ids *)

Section IndexOnly.

Lemma map_eq_Forall2 {A B : Type} (f : A -> B) (l1 l2 : list A) :
  map f l1 = map f l2 -> Forall2 (fun a b => f a = f b) l1 l2.
Proof.
  revert l2. induction l1 as [|a l1 IH]; intros [|b l2] H; try discriminate H.
  - constructor.
  - cbn in H. injection H as H1 H2. constructor; auto.
Qed.

Lemma same_columns4 (r1 r2 : V4.row) :
  V4.columns r1 = V4.columns r2 ->
  (forall ip_int, covers ip_int r1 = covers ip_int r2)
  /\ width r1 = width r2
  /\ (forall ip, result_of_row4 ip r1 = result_of_row4 ip r2).
Proof.
  destruct r1, r2. unfold V4.columns, covers, width, result_of_row4. cbn.
  intros H. injection H as -> -> -> -> -> ->. auto.
Qed.

Lemma same_columns6 (r1 r2 : V6.row) :
  V6.columns r1 = V6.columns r2 ->
  row_network r1 = row_network r2
  /\ (forall ip net, result_of_row6 ip r1 net = result_of_row6 ip r2 net).
Proof.
  destruct r1, r2. unfold V6.columns, row_network, result_of_row6. cbn.
  intros H. injection H as -> -> -> -> -> ->. auto.
Qed.

Lemma filter_same_columns (ip_int : Z) (t1 t2 : list V4.row) :
  Forall2 (fun a b => V4.columns a = V4.columns b) t1 t2 ->
  Forall2 (fun a b => V4.columns a = V4.columns b)
          (filter (covers ip_int) t1) (filter (covers ip_int) t2).
Proof.
  induction 1 as [|a b l1 l2 Hab _ IH]; [constructor|].
  cbn [filter]. destruct (same_columns4 a b Hab) as (Hc & _).
  rewrite (Hc ip_int). destruct (covers ip_int b); [constructor|]; assumption.
Qed.

Lemma order_by_same_columns (t1 t2 : list V4.row) :
  Forall2 (fun a b => V4.columns a = V4.columns b) t1 t2 ->
  match order_by_limit_1 width t1, order_by_limit_1 width t2 with
  | Some m1, Some m2 => V4.columns m1 = V4.columns m2
  | None, None => True
  | _, _ => False
  end.
Proof.
  induction 1 as [|a b l1 l2 Hab _ IH]; [exact I|].
  cbn [order_by_limit_1].
  destruct (order_by_limit_1 width l1) as [m1|], (order_by_limit_1 width l2) as [m2|];
    try contradiction; [|exact Hab].
  destruct (same_columns4 a b Hab) as (_ & Hw & _).
  destruct (same_columns4 m1 m2 IH) as (_ & Hwm & _).
  rewrite Hw, Hwm. destruct (width b <=? width m2); assumption.
Qed.

Lemma lookup_ipv4_index (d1 d2 : Database) (ip : string) :
  map V4.columns (ipv4_ranges d1) = map V4.columns (ipv4_ranges d2) ->
  lookup_ipv4 d1 ip = lookup_ipv4 d2 ip.
Proof.
  intros H. unfold lookup_ipv4. destruct (ip_to_int ip) as [a|]; [|reflexivity].
  f_equal. apply map_eq_Forall2 in H.
  pose proof (order_by_same_columns _ _ (filter_same_columns a _ _ H)) as Ho.
  destruct (order_by_limit_1 width (filter (covers a) (ipv4_ranges d1))) as [m1|],
           (order_by_limit_1 width (filter (covers a) (ipv4_ranges d2))) as [m2|];
    try contradiction; [|reflexivity].
  cbn [option_map]. f_equal. apply (same_columns4 m1 m2 Ho).
Qed.

Lemma scan_ipv6_index (t1 t2 : list V6.row) (ip_obj : ipaddress.IPv6Addr)
  (ip : string) :
  Forall2 (fun a b => V6.columns a = V6.columns b) t1 t2 ->
  scan_ipv6 t1 ip_obj ip = scan_ipv6 t2 ip_obj ip.
Proof.
  induction 1 as [|a b l1 l2 Hab _ IH]; [reflexivity|].
  cbn [scan_ipv6]. fold (row_network a). fold (row_network b).
  destruct (same_columns6 a b Hab) as (Hn & Hr). rewrite Hn.
  destruct (row_network b) as [net|]; [|exact IH].
  destruct (ipaddress.net_contains net ip_obj); [|exact IH].
  f_equal. apply (Hr ip net).
Qed.

Lemma lookup_ipv6_index (d1 d2 : Database) (ip : string) :
  map V6.columns (ipv6_ranges d1) = map V6.columns (ipv6_ranges d2) ->
  lookup_ipv6 d1 ip = lookup_ipv6 d2 ip.
Proof.
  intros H. unfold lookup_ipv6.
  destruct (ipaddress.IPv6Address ip) as [a|]; [|reflexivity].
  f_equal. apply scan_ipv6_index, map_eq_Forall2, H.
Qed.

(** Two databases with the same table content answer every lookup alike. *)
Lemma lookup_ip_index (d1 d2 : Database) (ip : string) :
  index_of d1 = index_of d2 -> lookup_ip d1 ip = lookup_ip d2 ip.
Proof.
  unfold index_of. intros H. injection H as H4 H6. unfold lookup_ip.
  destruct (ipaddress.ip_address ip) as [o|]; [|reflexivity].
  destruct (ipaddress.version o =? 4).
  - rewrite (lookup_ipv4_index d1 d2 _ H4). reflexivity.
  - rewrite (lookup_ipv6_index d1 d2 _ H6). reflexivity.
Qed.

Lemma index_of_counts (d1 d2 : Database) :
  index_of d1 = index_of d2 ->
  List.length (ipv4_ranges d1) = List.length (ipv4_ranges d2)
  /\ List.length (ipv6_ranges d1) = List.length (ipv6_ranges d2).
Proof.
  unfold index_of. intros H. injection H as H4 H6. split.
  - rewrite <- (length_map V4.columns (ipv4_ranges d1)), H4. apply length_map.
  - rewrite <- (length_map V6.columns (ipv6_ranges d1)), H6. apply length_map.
Qed.

End IndexOnly.

(** ** The build *)

Section BuildFacts.

Variable download_rir_data : string -> option string.

Lemma insert_entries_index (d d' : Database) (entries : list RirEntry) :
  insert_entries_to_db d entries = Ret d' ->
  index_of d'
  = ((fst (index_of d) ++ flat_map ipv4_contribution entries)%list,
     (snd (index_of d) ++ flat_map ipv6_contribution entries)%list).
Proof.
  intros H. apply insert_entries_stored in H as (H4 & H6 & _).
  unfold index_of. cbn [fst snd]. rewrite H4, H6. reflexivity.
Qed.

(** Whether the driver raises depends on the batch alone. *)
Lemma insert_entries_outcome (d1 d2 : Database) (entries : list RirEntry) :
  match insert_entries_to_db d1 entries, insert_entries_to_db d2 entries with
  | Ret _, Ret _ => True
  | Raise e1, Raise e2 => e1 = e2
  | _, _ => False
  end.
Proof.
  unfold insert_entries_to_db. destruct (prepare_entries entries) as [b4 b6].
  destruct (negb (forallb bindable4 b4)); [reflexivity|].
  destruct (negb (forallb bindable6 b6)); [reflexivity | exact I].
Qed.

Lemma build_loop_same (names : list string) (b1 b2 : Build) :
  same_state b1 b2 ->
  same_outcome (build_loop download_rir_data names b1)
               (build_loop download_rir_data names b2).
Proof.
  revert b1 b2. induction names as [|name rest IH]; intros b1 b2 Hs; [exact Hs|].
  cbn [build_loop].
  destruct (download_rir_data name) as [data|]; [|apply IH, Hs].
  destruct (Py.is_empty data); [apply IH, Hs|].
  destruct (process_rir_data data name) as [|e es] eqn:Ee; [apply IH, Hs|].
  pose proof (insert_entries_outcome (db b1) (db b2) (e :: es)) as Ho.
  destruct (insert_entries_to_db (db b1) (e :: es)) as [d1|e1] eqn:E1,
           (insert_entries_to_db (db b2) (e :: es)) as [d2|e2] eqn:E2;
    try contradiction.
  - apply IH. destruct Hs as (Hi & Ht & Hr).
    unfold same_state. cbn [commit db total_entries successful_rirs].
    rewrite (insert_entries_index _ _ _ E1), (insert_entries_index _ _ _ E2).
    rewrite Hi, Ht, Hr. auto.
  - cbn. auto.
Qed.

Lemma index_of_update_metadata (d : Database) (k v : string) :
  index_of (update_metadata d k v) = index_of d.
Proof. reflexivity. Qed.

Lemma build_table_same (now1 now2 : string) (old1 old2 : Database) :
  same_outcome (build_table download_rir_data now1 old1)
               (build_table download_rir_data now2 old2).
Proof.
  unfold build_table.
  pose proof (build_loop_same rir_names
                (commit (mkBuild old1 [] 0 []) (clear_tables old1))
                (commit (mkBuild old2 [] 0 []) (clear_tables old2))) as H.
  destruct (build_loop download_rir_data rir_names
              (commit (mkBuild old1 [] 0 []) (clear_tables old1))) as [b1|e1 b1],
           (build_loop download_rir_data rir_names
              (commit (mkBuild old2 [] 0 []) (clear_tables old2))) as [b2|e2 b2];
    cbn [same_outcome] in *.
  - destruct H as (Hi & Ht & Hr); [repeat split|].
    unfold same_state. cbn [commit db total_entries successful_rirs].
    rewrite !index_of_update_metadata. auto.
  - apply H. repeat split.
  - apply H. repeat split.
  - apply H. repeat split.
Qed.

(** C8: two builds from the same registry data end the same way, with
    the same number of IPv4 and of IPv6 ranges and the same answer to
    every lookup, whatever the databases held before and whenever the
    builds ran. *)
Theorem C8_rebuild_is_deterministic (now1 now2 : string) (old1 old2 : Database) :
  ((exists b1 b2, build_table download_rir_data now1 old1 = Done b1
                  /\ build_table download_rir_data now2 old2 = Done b2)
   \/ (exists e b1 b2, build_table download_rir_data now1 old1 = Crashed e b1
                       /\ build_table download_rir_data now2 old2 = Crashed e b2))
  /\ List.length (ipv4_ranges (db (final (build_table download_rir_data now1 old1))))
     = List.length (ipv4_ranges (db (final (build_table download_rir_data now2 old2))))
  /\ List.length (ipv6_ranges (db (final (build_table download_rir_data now1 old1))))
     = List.length (ipv6_ranges (db (final (build_table download_rir_data now2 old2))))
  /\ forall ip_address,
       lookup_ip (db (final (build_table download_rir_data now1 old1))) ip_address
       = lookup_ip (db (final (build_table download_rir_data now2 old2))) ip_address.
Proof.
  pose proof (build_table_same now1 now2 old1 old2) as H.
  destruct (build_table download_rir_data now1 old1) as [b1|e1 b1],
           (build_table download_rir_data now2 old2) as [b2|e2 b2];
    cbn [same_outcome final] in *; try contradiction.
  - destruct H as (Hi & _). split; [left; eauto|].
    destruct (index_of_counts _ _ Hi). repeat split; auto.
    intros ip. apply lookup_ip_index, Hi.
  - destruct H as (-> & Hi & _). split; [right; eauto|].
    destruct (index_of_counts _ _ Hi). repeat split; auto.
    intros ip. apply lookup_ip_index, Hi.
Qed.

End BuildFacts.

(** ** What a concurrent reader can observe *)

Section CommitPoints.

Variable download_rir_data : string -> option string.

Lemma firstn_exact {A : Type} (l r : list A) :
  firstn (List.length l) (l ++ r) = l.
Proof. induction l as [|a l IH]; [reflexivity|]. cbn. rewrite IH. reflexivity. Qed.

Lemma index_after_snoc (done : list string) (name : string) :
  index_after download_rir_data (done ++ [name])
  = ((fst (index_after download_rir_data done)
      ++ flat_map ipv4_contribution (registry_entries download_rir_data name))%list,
     (snd (index_after download_rir_data done)
      ++ flat_map ipv6_contribution (registry_entries download_rir_data name))%list).
Proof.
  unfold index_after. cbn [fst snd]. rewrite !flat_map_app. cbn [flat_map].
  rewrite !app_nil_r. reflexivity.
Qed.

Lemma index_after_skip (done : list string) (name : string) :
  registry_entries download_rir_data name = [] ->
  index_after download_rir_data (done ++ [name])
  = index_after download_rir_data done.
Proof.
  intros H. rewrite index_after_snoc, H. cbn [flat_map]. rewrite !app_nil_r.
  unfold index_after. reflexivity.
Qed.

Lemma commit_point_prefix (done rest : list string) (c : Database) :
  (done ++ rest)%list = rir_names ->
  index_of c = index_after download_rir_data done ->
  commit_point download_rir_data c.
Proof.
  intros Hn Hi. exists (List.length done). rewrite <- Hn. split.
  - rewrite length_app. lia.
  - rewrite firstn_exact. exact Hi.
Qed.

(** The loop keeps three things true: the tables hold the records of
    the registries done so far, every commit was made at such a point,
    and the last commit is the current state. *)
Lemma build_loop_commits (names done : list string) (b : Build) :
  (done ++ names)%list = rir_names ->
  index_of (db b) = index_after download_rir_data done ->
  Forall (commit_point download_rir_data) (commits b) ->
  last (commits b) (db b) = db b ->
  let r := build_loop download_rir_data names b in
  Forall (commit_point download_rir_data) (commits (final r))
  /\ last (commits (final r)) (db (final r)) = db (final r)
  /\ (exists later, commits (final r) = (commits b ++ later)%list)
  /\ (forall b', r = Done b' ->
                 index_of (db b') = index_after download_rir_data rir_names).
Proof.
  revert done b. induction names as [|name rest IH]; intros done b Hn Hi Hc Hl.
  - cbn. rewrite app_nil_r in Hn. subst done. repeat split; auto.
    + exists []. rewrite app_nil_r. reflexivity.
    + intros b' E. injection E as <-. exact Hi.
  - assert (Hn' : ((done ++ [name]) ++ rest)%list = rir_names)
      by (rewrite <- app_assoc; exact Hn).
    assert (Hskip : registry_entries download_rir_data name = [] ->
                    let r := build_loop download_rir_data rest b in
                    Forall (commit_point download_rir_data) (commits (final r))
                    /\ last (commits (final r)) (db (final r)) = db (final r)
                    /\ (exists later, commits (final r) = (commits b ++ later)%list)
                    /\ (forall b', r = Done b' ->
                                   index_of (db b')
                                   = index_after download_rir_data rir_names)).
    { intros E. apply (IH (done ++ [name])%list b Hn'); auto.
      rewrite index_after_skip by exact E. exact Hi. }
    cbn [build_loop]. unfold registry_entries in Hskip.
    destruct (download_rir_data name) as [data|] eqn:Ed; [|apply Hskip; reflexivity].
    destruct (Py.is_empty data) eqn:Ee; [apply Hskip; reflexivity|].
    destruct (process_rir_data data name) as [|e es] eqn:Ep;
      [apply Hskip; reflexivity|].
    destruct (insert_entries_to_db (db b) (e :: es)) as [d|ex] eqn:Ei.
    + assert (Hd : index_of d = index_after download_rir_data (done ++ [name])).
      { rewrite (insert_entries_index _ _ _ Ei), index_after_snoc, Hi.
        unfold registry_entries. rewrite Ed, Ee, Ep. reflexivity. }
      edestruct (IH (done ++ [name])%list
                   (mkBuild (db (commit b d)) (commits (commit b d))
                      (total_entries (commit b d) + Z.of_nat (List.length (e :: es)))
                      (successful_rirs (commit b d) ++ [name])) Hn')
        as (H1 & H2 & (later & H3) & H4).
      * exact Hd.
      * cbn [commits commit]. apply Forall_app. split; [exact Hc|].
        constructor; [|constructor]. exact (commit_point_prefix _ _ _ Hn' Hd).
      * cbn [commits commit db]. apply last_last.
      * repeat split; auto. exists ([d] ++ later)%list.
        rewrite H3. cbn [commits commit]. rewrite <- app_assoc. reflexivity.
    + cbn [final]. repeat split; auto.
      * exists []. rewrite app_nil_r. reflexivity.
      * intros b' E. discriminate E.
Qed.

Lemma commit_point_metadata (d : Database) (k v : string) :
  commit_point download_rir_data d ->
  commit_point download_rir_data (update_metadata d k v).
Proof. intros (n & Hn & Hi). exists n. split; assumption. Qed.

(** C4, as stated, fails: during a rebuild from the same registry data
    a reader can see the emptied tables, where 8.8.8.8 is not found
    although it is found both before and after the rebuild, and it can
    see ARIN's records without RIPE's. *)
Lemma C4_partial_index_is_observable :
  (exists c,
      In c (commits (final (build_table two_registries "2024-01-02T00:00:00"
                                        first_build)))
      /\ lookup_ip c "8.8.8.8" = Ret None
      /\ lookup_ip first_build "8.8.8.8"
         = Ret (Some (Result.mk "8.8.8.8" (Some "US") (Some "ARIN") (Some "20140328")
                        (Some "allocated") (Some 4) None))
      /\ lookup_ip (db (final (build_table two_registries "2024-01-02T00:00:00"
                                           first_build))) "8.8.8.8"
         = Ret (Some (Result.mk "8.8.8.8" (Some "US") (Some "ARIN") (Some "20140328")
                        (Some "allocated") (Some 4) None)))
  /\ (exists c,
         In c (commits (final (build_table two_registries "2024-01-02T00:00:00"
                                           first_build)))
         /\ lookup_ip c "8.8.8.8"
            = Ret (Some (Result.mk "8.8.8.8" (Some "US") (Some "ARIN")
                           (Some "20140328") (Some "allocated") (Some 4) None))
         /\ lookup_ip c "2.0.0.1" = Ret None
         /\ lookup_ip first_build "2.0.0.1"
            = Ret (Some (Result.mk "2.0.0.1" (Some "FR") (Some "RIPE")
                           (Some "20100712") (Some "allocated") (Some 4) None))
         /\ lookup_ip (db (final (build_table two_registries "2024-01-02T00:00:00"
                                              first_build))) "2.0.0.1"
            = Ret (Some (Result.mk "2.0.0.1" (Some "FR") (Some "RIPE")
                           (Some "20100712") (Some "allocated") (Some 4) None))).
Proof.
  split.
  - exists (clear_tables first_build).
    split; [vm_compute; left; reflexivity|].
    repeat split; vm_compute; reflexivity.
  - exists (nth 1 (commits (final (build_table two_registries "2024-01-02T00:00:00"
                                               first_build)))
                empty_database).
    split; [vm_compute; right; left; reflexivity|].
    repeat split; vm_compute; reflexivity.
Qed.

(** Every commit of a build leaves the tables with exactly the records
    of the first [k] registries, for some [k]; the first commit leaves
    them empty; and a build that ends normally leaves the records of
    all five registries. *)
Lemma build_commit_points (now : string) (old : Database) :
  (forall c,
      In c (commits (final (build_table download_rir_data now old))) ->
      exists k, (k <= List.length rir_names)%nat
                /\ index_of c = index_after download_rir_data (firstn k rir_names))
  /\ (exists later,
         commits (final (build_table download_rir_data now old))
         = clear_tables old :: later)
  /\ index_of (clear_tables old) = ([], [])
  /\ (forall b,
         build_table download_rir_data now old = Done b ->
         index_of (db b) = index_after download_rir_data rir_names
         /\ last (commits b) old = db b).
Proof.
  unfold build_table.
  pose proof (build_loop_commits rir_names []
                (commit (mkBuild old [] 0 []) (clear_tables old))
                eq_refl eq_refl) as H.
  cbn zeta in H.
  destruct H as (Hc & Hl & (later & Hlater) & Hd).
  { constructor; [|constructor]. exists 0%nat. split; [cbn; lia | reflexivity]. }
  { reflexivity. }
  destruct (build_loop download_rir_data rir_names
              (commit (mkBuild old [] 0 []) (clear_tables old))) as [b|e b];
    cbn [final] in *.
  - specialize (Hd b eq_refl).
    assert (Hcp : commit_point download_rir_data (db b)).
    { exists (List.length rir_names). split; [lia|]. rewrite firstn_all. exact Hd. }
    split; [|split; [|split]].
    + intros c Hin. cbn [commit commits db total_entries successful_rirs] in Hin.
      rewrite !in_app_iff in Hin. cbn [In] in Hin.
      rewrite Forall_forall in Hc.
      destruct Hin as [[[Hin|[<-|[]]]|[<-|[]]]|[<-|[]]];
        [apply Hc, Hin | | |]; repeat apply commit_point_metadata; exact Hcp.
    + cbn [commit commits db total_entries successful_rirs]. rewrite Hlater.
      cbn. eauto.
    + reflexivity.
    + intros b' E. injection E as <-. cbn [commit db commits]. split.
      * exact Hd.
      * apply last_last.
  - split; [|split; [|split]].
    + intros c Hin. rewrite Forall_forall in Hc. apply Hc, Hin.
    + rewrite Hlater. cbn. eauto.
    + reflexivity.
    + intros b' E. discriminate E.
Qed.

End CommitPoints.

(** ** IPv4 addresses as text *)

Section Ipv4Text.
Import Py ipaddress.

Lemma range_from_In (n : nat) (start v : Z) :
  start <= v < start + Z.of_nat n -> In v (range_from n start).
Proof.
  revert start. induction n as [|n IH]; intros start H; [lia|].
  cbn [range_from]. destruct (Z.eq_dec start v) as [->|Hne]; [left; reflexivity|].
  right. apply IH. lia.
Qed.

Lemma octets_ok (b : Z) : 0 <= b < 256 -> octet_ok b = true.
Proof.
  intros H.
  assert (A : forallb octet_ok (range_from 256 0) = true) by (vm_compute; reflexivity).
  rewrite forallb_forall in A. apply A, range_from_In. cbn. lia.
Qed.

Lemma octet_text (b : Z) :
  0 <= b < 256 ->
  parse_octet (str_int b) = Some b
  /\ contains "." (str_int b) = false
  /\ contains "/" (str_int b) = false
  /\ is_empty (str_int b) = false.
Proof.
  intros H. pose proof (octets_ok b H) as A. unfold octet_ok in A.
  destruct (parse_octet (str_int b)) as [b'|]; [|discriminate].
  apply andb_true_iff in A as [A A4]. apply andb_true_iff in A as [A A3].
  apply andb_true_iff in A as [A1 A2]. apply Z.eqb_eq in A1. subst b'.
  apply negb_true_iff in A2, A3, A4. auto.
Qed.

Lemma contains_app (ch : ascii) (a b : string) :
  contains ch (a ++ b) = contains ch a || contains ch b.
Proof.
  induction a as [|c a IH]; [reflexivity|]. cbn [append contains].
  rewrite IH. apply orb_assoc.
Qed.

Lemma is_empty_app (a b : string) :
  is_empty a = false -> is_empty (a ++ b) = false.
Proof. destruct a; [discriminate | reflexivity]. Qed.

Lemma to_bytes4_range (a : Z) :
  Forall (fun b => 0 <= b < 256) (to_bytes4_big a).
Proof.
  unfold to_bytes4_big. repeat constructor;
    change 255 with (Z.ones 8); rewrite Z.land_ones by lia;
    apply Z.mod_pos_bound; lia.
Qed.

Lemma from_to_bytes4 (a : Z) :
  0 <= a < 2 ^ 32 -> from_bytes_big (to_bytes4_big a) = a.
Proof.
  intros H. unfold from_bytes_big, to_bytes4_big. cbn [map fold_left].
  change 255 with (Z.ones 8). rewrite !Z.land_ones by lia.
  rewrite !Z.shiftr_div_pow2 by lia.
  change (2 ^ 24) with 16777216. change (2 ^ 16) with 65536.
  change (2 ^ 8) with 256. change (2 ^ 0) with 1. change (2 ^ 32) with 4294967296 in H.
  Z.to_euclidean_division_equations. lia.
Qed.

(** The dotted quad printed for an address reads back as that address. *)
Lemma ipv4_text_roundtrip (a : Z) :
  0 <= a < 2 ^ 32 -> IPv4Address (str_ipv4 a) = Some a.
Proof.
  intros H. pose proof (from_to_bytes4 a H) as Hv.
  pose proof (to_bytes4_range a) as Hr.
  unfold str_ipv4. destruct (to_bytes4_big a) as [|b3 [|b2 [|b1 [|b0 [|]]]]] eqn:E;
    try discriminate E.
  apply Forall_cons_iff in Hr as [H3 Hr]. apply Forall_cons_iff in Hr as [H2 Hr].
  apply Forall_cons_iff in Hr as [H1 Hr]. apply Forall_cons_iff in Hr as [H0 _].
  destruct (octet_text b3 H3) as (P3 & D3 & S3 & E3).
  destruct (octet_text b2 H2) as (P2 & D2 & S2 & E2).
  destruct (octet_text b1 H1) as (P1 & D1 & S1 & E1).
  destruct (octet_text b0 H0) as (P0 & D0 & S0 & E0).
  cbn [map join].
  change (str_int b3 ++ "." ++ str_int b2 ++ "." ++ str_int b1 ++ "." ++ str_int b0)
    with (str_int b3 ++ String "." (str_int b2 ++ String "." (str_int b1
            ++ String "." (str_int b0)))).
  unfold IPv4Address, ipv4_int_from_string.
  rewrite !contains_app. cbn [contains].
  rewrite !contains_app. cbn [contains]. rewrite !contains_app. cbn [contains].
  rewrite S3, S2, S1, S0. cbn [orb Ascii.eqb Bool.eqb].
  rewrite is_empty_app by assumption.
  rewrite !split_app, !split_no_sep by assumption.
  cbn [app List.length Z.of_nat Pos.of_succ_nat Pos.succ Z.eqb Pos.eqb negb map].
  rewrite P3, P2, P1, P0. cbn [all_some option_map]. rewrite Hv. reflexivity.
Qed.

Lemma of_digits_nonneg (s : string) (acc : Z) :
  all_chars is_digit s = true -> 0 <= acc -> 0 <= of_digits 10 digit_val s acc.
Proof.
  revert acc. induction s as [|c r IH]; intros acc H Ha; [exact Ha|].
  cbn [all_chars] in H. apply andb_true_iff in H as [Hc Hr].
  cbn [of_digits]. apply IH; [exact Hr|].
  unfold is_digit in Hc. apply andb_true_iff in Hc as [Hc _].
  apply N.leb_le in Hc. unfold digit_val. lia.
Qed.

Lemma parse_octet_range (s : string) (b : Z) :
  parse_octet s = Some b -> 0 <= b < 256.
Proof.
  unfold parse_octet. destruct (is_empty s); [discriminate|].
  destruct (all_chars is_digit s) eqn:Hd; [|discriminate]. cbn [negb].
  destruct (3 <? len s); [discriminate|].
  destruct (negb (String.eqb s "0") && startswith s "0"); [discriminate|].
  destruct (255 <? of_digits 10 digit_val s 0) eqn:Hle; [discriminate|].
  intros H. injection H as <-. apply Z.ltb_ge in Hle.
  pose proof (of_digits_nonneg s 0 Hd). lia.
Qed.

(** A parsed IPv4 address is a 32-bit number. *)
Lemma IPv4Address_range (s : string) (a : Z) :
  IPv4Address s = Some a -> 0 <= a < 2 ^ 32.
Proof.
  unfold IPv4Address, ipv4_int_from_string.
  destruct (contains "/" s); [discriminate|].
  destruct (is_empty s); [discriminate|].
  destruct (Z.of_nat (List.length (split "." s)) =? 4) eqn:L; [|discriminate].
  apply Z.eqb_eq in L. cbn [negb].
  destruct (split "." s) as [|o3 [|o2 [|o1 [|o0 [|]]]]];
    cbn [List.length] in L; try lia.
  cbn [map all_some].
  destruct (parse_octet o3) as [b3|] eqn:P3; [|discriminate].
  destruct (parse_octet o2) as [b2|] eqn:P2; [|discriminate].
  destruct (parse_octet o1) as [b1|] eqn:P1; [|discriminate].
  destruct (parse_octet o0) as [b0|] eqn:P0; [|discriminate].
  cbn [option_map from_bytes_big fold_left]. intros H. injection H as <-.
  apply parse_octet_range in P3, P2, P1, P0.
  change (2 ^ 32) with 4294967296. lia.
Qed.

End Ipv4Text.

(** ** Bulk lookup *)

Section BulkLookup.
Import ipaddress.

(** [lookup_ip] never lets an exception out. *)
Lemma lookup_ip_returns (d : Database) (ip_address : string) :
  exists found, lookup_ip d ip_address = Ret found.
Proof.
  unfold lookup_ip. destruct (ipaddress.ip_address ip_address) as [o|];
    [|exists None; reflexivity].
  destruct (version o =? 4).
  - unfold lookup_ipv4. destruct (ip_to_int (str_ip o)); cbn; eauto.
  - unfold lookup_ipv6. destruct (IPv6Address (str_ip o)); cbn; eauto.
Qed.

Lemma lookup_ip_unparseable (d : Database) (ip_address : string) :
  ipaddress.ip_address ip_address = None -> lookup_ip d ip_address = Ret None.
Proof. intros H. unfold lookup_ip. rewrite H. reflexivity. Qed.

Lemma lookup_ip_v4_not_covered (d : Database) (ip_address : string) (ip_int : Z) :
  IPv4Address ip_address = Some ip_int ->
  (forall r, In r (ipv4_ranges d) ->
             ~ (V4.start_ip r <= ip_int <= V4.end_ip r)) ->
  lookup_ip d ip_address = Ret None.
Proof.
  intros Hp Hn. unfold lookup_ip, ipaddress.ip_address. rewrite Hp.
  cbn [version str_ip Z.eqb Pos.eqb].
  rewrite (lookup_ipv4_not_covered d (str_ipv4 ip_int) ip_int); [reflexivity| |].
  - apply ipv4_text_roundtrip, (IPv4Address_range ip_address), Hp.
  - intros r Hr. destruct (covers ip_int r) eqn:E; [|reflexivity].
    apply covers_iff in E. destruct (Hn r Hr E).
Qed.

Lemma bulk_lookup_spec (d : Database) (ip_list : list string) :
  exists results,
    bulk_lookup d ip_list = Ret results
    /\ List.length results = List.length ip_list
    /\ forall i ip,
         nth_error ip_list i = Some ip ->
         exists found,
           lookup_ip d ip = Ret found
           /\ nth_error results i
              = Some (match found with Some r => r | None => placeholder ip end).
Proof.
  induction ip_list as [|ip rest IH].
  - exists []. repeat split. intros [|i] ip H; discriminate H.
  - destruct IH as (results & Hb & Hl & Hn).
    destruct (lookup_ip_returns d ip) as (found & Hf).
    exists (match found with Some r => r | None => placeholder ip end :: results).
    cbn [bulk_lookup bind]. rewrite Hf, Hb. cbn [bind].
    repeat split; [cbn; lia|].
    intros [|i] ip' H; cbn [nth_error] in *.
    + injection H as <-. eauto.
    + apply Hn, H.
Qed.

End BulkLookup.

(** ** IPv6 addresses as text *)

Section Ipv6Text.
Import Py ipaddress.

Lemma hextets_ok (v : Z) : 0 <= v < 65536 -> hextet_ok v = true.
Proof.
  intros H.
  assert (A : forallb hextet_ok (range_from (Z.to_nat 65536) 0) = true)
    by (vm_compute; reflexivity).
  rewrite forallb_forall in A. apply A, range_from_In.
  rewrite Z2Nat.id; lia.
Qed.

Lemma hextet_text (v : Z) :
  0 <= v < 65536 ->
  parse_hextet (str_hex v) = Some v
  /\ String.eqb (str_hex v) "0" = (v =? 0)
  /\ is_empty (str_hex v) = false
  /\ contains ":" (str_hex v) = false
  /\ contains "." (str_hex v) = false
  /\ contains "/" (str_hex v) = false
  /\ contains "%" (str_hex v) = false.
Proof.
  intros H. pose proof (hextets_ok v H) as A. unfold hextet_ok in A. cbn zeta in A.
  destruct (parse_hextet (str_hex v)) as [v'|]; [|discriminate].
  repeat (apply andb_true_iff in A as [A ?]).
  apply Z.eqb_eq in A. subst v'.
  repeat match goal with
         | X : negb _ = true |- _ => apply negb_true_iff in X
         | X : Bool.eqb _ _ = true |- _ => apply Bool.eqb_prop in X
         end.
  auto 10.
Qed.

Lemma join_cons (sep p q : string) (r : list string) :
  join sep (p :: q :: r) = p ++ sep ++ join sep (q :: r).
Proof. reflexivity. Qed.

Lemma split_join (parts : list string) :
  parts <> [] ->
  Forall (fun p => contains ":" p = false) parts ->
  split ":" (join ":" parts) = parts.
Proof.
  induction parts as [|p [|q r] IH]; intros Hne Hf; [congruence| |].
  - cbn [join]. apply split_no_sep. apply Forall_inv in Hf. exact Hf.
  - rewrite join_cons.
    change (p ++ ":" ++ join ":" (q :: r)) with (p ++ String ":" (join ":" (q :: r))).
    rewrite split_app, IH; [|discriminate | apply Forall_inv_tail in Hf; exact Hf].
    rewrite split_no_sep by (apply Forall_inv in Hf; exact Hf). reflexivity.
Qed.

Lemma contains_join (ch : ascii) (parts : list string) :
  Ascii.eqb ":" ch = false ->
  Forall (fun p => contains ch p = false) parts ->
  contains ch (join ":" parts) = false.
Proof.
  intros Hch. induction parts as [|p [|q r] IH]; intros Hf; [reflexivity| |].
  - apply Forall_inv in Hf. exact Hf.
  - rewrite join_cons, !contains_app. cbn [contains]. rewrite Hch.
    rewrite (Forall_inv Hf), IH by (apply Forall_inv_tail in Hf; exact Hf).
    reflexivity.
Qed.

Lemma is_empty_join (p q : string) (r : list string) :
  is_empty (join ":" (p :: q :: r)) = false.
Proof. rewrite join_cons. destruct p; reflexivity. Qed.

(** The layout of the parts depends on which of them are empty only. *)
Lemma hextet_layout_ext (p1 p2 : list string) :
  map is_empty p1 = map is_empty p2 -> hextet_layout p1 = hextet_layout p2.
Proof.
  intros H.
  assert (L : List.length p1 = List.length p2)
    by (rewrite <- (length_map is_empty p1), H; apply length_map).
  assert (E : forall i, is_empty (part p1 i) = is_empty (part p2 i)).
  { intros i. unfold part.
    change true with (is_empty "").
    rewrite <- !(map_nth is_empty), H. reflexivity. }
  unfold hextet_layout, interior_empty. rewrite L.
  rewrite (filter_ext _ _ E). rewrite !E. reflexivity.
Qed.

(** Reading the joined parts: no part holds a colon, and the last one
    holds no dot, so the parts are found again and go through the
    layout and the two shift loops. *)
Lemma int_from_joined_parts (parts : list string) :
  (3 <= List.length parts <= 9)%nat ->
  Forall (fun p => contains ":" p = false) parts ->
  Forall (fun p => contains "." p = false) parts ->
  ipv6_int_from_string (join ":" parts) =
  match hextet_layout parts with
  | None => None
  | Some (parts_hi, parts_lo, parts_skipped) =>
      match shift_hextets (firstn (Z.to_nat parts_hi) parts) 0 with
      | None => None
      | Some hi =>
          shift_hextets (skipn (List.length parts - Z.to_nat parts_lo) parts)
                        (Z.shiftl hi (16 * parts_skipped))
      end
  end.
Proof.
  intros Hlen Hc Hd. unfold ipv6_int_from_string.
  assert (Hne : parts <> []) by (destruct parts; [cbn in Hlen; lia | discriminate]).
  replace (is_empty (join ":" parts)) with false
    by (destruct parts as [|p [|q r]]; try (cbn in Hlen; lia);
        symmetry; apply is_empty_join).
  rewrite split_join by assumption.
  replace (Z.of_nat (List.length parts) <? 3) with false
    by (symmetry; apply Z.ltb_ge; lia).
  replace (contains "." (last parts "")) with false.
  2:{ symmetry. rewrite Forall_forall in Hd. apply Hd.
      destruct (exists_last Hne) as (l & x & ->). rewrite last_last.
      apply in_or_app. right. left. reflexivity. }
  replace (HEXTET_COUNT + 1 <? Z.of_nat (List.length parts)) with false
    by (symmetry; apply Z.ltb_ge; unfold HEXTET_COUNT; lia).
  reflexivity.
Qed.

Lemma zero_run_fold (idxs : list Z) (hs : list string) (st : Z * Z * Z * Z) :
  fold_left zero_run_step (combine idxs hs) st
  = fold_left run_step (combine idxs (map (fun h => String.eqb h "0") hs)) st.
Proof.
  revert idxs st. induction hs as [|h r IH]; intros [|i idxs] st; try reflexivity.
  cbn [combine map fold_left]. rewrite IH. reflexivity.
Qed.

Lemma compress_hextets_run (hs : list string) :
  compress_hextets hs =
  let '(best_start, best_len) :=
    best_zero_run (map (fun h => String.eqb h "0") hs) in
  if 1 <? best_len then
    let best_end := best_start + best_len in
    let hs' :=
      if best_end =? Z.of_nat (List.length hs)
      then (hs ++ [EmptyString])%list else hs in
    let hs' :=
      (firstn (Z.to_nat best_start) hs' ++ [EmptyString]
       ++ skipn (Z.to_nat best_end) hs')%list in
    if best_start =? 0 then EmptyString :: hs' else hs'
  else hs.
Proof.
  unfold compress_hextets, best_zero_run, enumerate.
  rewrite length_map, zero_run_fold.
  destruct (fold_left run_step _ _) as [[[bs bl] cs] cl]. reflexivity.
Qed.

Lemma best_run_ok_8 (z0 z1 z2 z3 z4 z5 z6 z7 : bool) :
  best_run_ok [z0; z1; z2; z3; z4; z5; z6; z7] = true.
Proof.
  destruct z0, z1, z2, z3, z4, z5, z6, z7; vm_compute; reflexivity.
Qed.

Lemma shift_hextets_text (v : Z) (h : string) (r : list string) (x : Z) :
  hextet_text_of v h ->
  shift_hextets (h :: r) x = shift_hextets r (x * 65536 + v).
Proof.
  intros (H & P & _). cbn [shift_hextets]. rewrite P.
  f_equal. rewrite Z.shiftl_mul_pow2 by lia. change (2 ^ 16) with 65536.
  assert (D : Z.land (x * 65536) v = 0).
  { apply Z.bits_inj'. intros n Hn. rewrite Z.land_spec, Z.bits_0.
    destruct (Z.lt_ge_cases n 16) as [Hlt|Hge].
    - change 65536 with (2 ^ 16). rewrite Z.mul_pow2_bits_low by lia. reflexivity.
    - replace v with (v mod 2 ^ 16) by (apply Z.mod_small; change (2 ^ 16) with 65536; lia).
      rewrite Z.mod_pow2_bits_high by lia. apply andb_false_r. }
  rewrite <- Z.lxor_lor by exact D. symmetry. apply Z.add_nocarry_lxor, D.
Qed.

Lemma hextet_layout_flags (parts : list string) :
  hextet_layout parts
  = hextet_layout (map (fun b : bool => if b then "" else "0") (map is_empty parts)).
Proof.
  apply hextet_layout_ext. rewrite !map_map. apply map_ext.
  intros p. destruct (is_empty p); reflexivity.
Qed.

Lemma is_empty_nil : is_empty "" = true. Proof. reflexivity. Qed.
Lemma contains_nil (ch : ascii) : contains ch "" = false. Proof. reflexivity. Qed.

Ltac hextet_facts :=
  repeat match goal with
         | H : hextet_text_of _ _ |- _ =>
             let Hr := fresh "Hrange" in let Hp := fresh "Hparse" in
             let Hz := fresh "Hzero" in let He := fresh "Hempty" in
             let Hc := fresh "Hcolon" in let Hd := fresh "Hdot" in
             pose proof H as (Hr & Hp & Hz & He & Hc & Hd); revert H
         end; intros.

Ltac rewrite_zero_flags :=
  repeat match goal with
         | H : String.eqb ?h "0" = _ |- context [String.eqb ?h "0"] => rewrite H
         end.


Ltac rewrite_empty :=
  repeat match goal with
         | H : is_empty ?h = false |- context [is_empty ?h] => rewrite H
         end;
  rewrite ?is_empty_nil.

Ltac compute_layout :=
  match goal with
  | |- context [hextet_layout ?l] =>
      let r := eval vm_compute in (hextet_layout l) in
      change (hextet_layout l) with r
  end.

Lemma shift_hextets_nil (x : Z) : shift_hextets [] x = Some x.
Proof. reflexivity. Qed.

Ltac shift_all :=
  repeat match goal with
         | H : hextet_text_of _ ?h |- context [shift_hextets (?h :: _) _] =>
             rewrite (shift_hextets_text _ h _ _ H)
         end;
  rewrite ?shift_hextets_nil; cbv beta iota.

Ltac compute_powers :=
  repeat match goal with
         | |- context [Z.shiftl ?x ?k] =>
             rewrite (Z.shiftl_mul_pow2 x k) by lia
         end;
  repeat match goal with
         | |- context [2 ^ ?e] =>
             let r := eval vm_compute in (2 ^ e) in change (2 ^ e) with r
         end.

(** Reads the joined parts back, once the parts are known. *)
Ltac read_parts :=
  rewrite int_from_joined_parts;
  [ rewrite hextet_layout_flags; cbn [map]; rewrite_empty; compute_layout;
    cbv beta iota;
    repeat match goal with
           | |- context [Z.to_nat ?z] =>
               let r := eval vm_compute in (Z.to_nat z) in
               change (Z.to_nat z) with r
           end;
    cbn [firstn skipn List.length Nat.sub];
    shift_all; shift_all; unfold of_hextets; cbn [fold_left]; f_equal;
    compute_powers; lia
  | cbn [List.length]; lia
  | repeat (apply Forall_cons; [first [assumption | reflexivity]|]); apply Forall_nil
  | repeat (apply Forall_cons; [first [assumption | reflexivity]|]); apply Forall_nil ].

Lemma compressed_text_reads_back
  (v0 v1 v2 v3 v4 v5 v6 v7 : Z) (h0 h1 h2 h3 h4 h5 h6 h7 : string) :
  hextet_text_of v0 h0 -> hextet_text_of v1 h1 -> hextet_text_of v2 h2 ->
  hextet_text_of v3 h3 -> hextet_text_of v4 h4 -> hextet_text_of v5 h5 ->
  hextet_text_of v6 h6 -> hextet_text_of v7 h7 ->
  ipv6_int_from_string (join ":" (compress_hextets [h0; h1; h2; h3; h4; h5; h6; h7]))
  = Some (of_hextets [v0; v1; v2; v3; v4; v5; v6; v7]).
Proof.
  intros H0 H1 H2 H3 H4 H5 H6 H7.
  hextet_facts.
  rewrite compress_hextets_run. cbn [map].
  rewrite_zero_flags.
  pose proof (best_run_ok_8 (v0 =? 0) (v1 =? 0) (v2 =? 0) (v3 =? 0)
                            (v4 =? 0) (v5 =? 0) (v6 =? 0) (v7 =? 0)) as Hok.
  unfold best_run_ok in Hok.
  destruct (best_zero_run _) as [s l].
  apply orb_true_iff in Hok as [Hshort|Hrun].
  - apply Z.leb_le in Hshort.
    replace (1 <? l) with false by (symmetry; apply Z.ltb_ge; lia).
    read_parts.
  - apply andb_true_iff in Hrun as [Hin Hrun_zero].
    apply existsb_exists in Hin as (c & Hin & Hc).
    unfold run_eqb in Hc. apply andb_true_iff in Hc as [Hs Hl].
    apply Z.eqb_eq in Hs, Hl. cbn [fst snd] in Hs, Hl. subst s l.
    vm_compute in Hin.
    repeat (destruct Hin as [<-|Hin]; [|idtac]); [..|destruct Hin].
    all: simpl in Hrun_zero;
      rewrite ?andb_true_r in Hrun_zero;
      repeat match type of Hrun_zero with
             | _ && _ = true => apply andb_true_iff in Hrun_zero as [? Hrun_zero]
             end;
      repeat match goal with
             | X : (_ =? 0) = true |- _ => apply Z.eqb_eq in X
             end.
    all: cbv zeta; cbn [fst snd];
      repeat match goal with
             | |- context [Z.ltb ?a ?b] =>
                 let r := eval vm_compute in (Z.ltb a b) in
                 change (Z.ltb a b) with r
             | |- context [Z.eqb ?a ?b] =>
                 let r := eval vm_compute in (Z.eqb a b) in
                 change (Z.eqb a b) with r
             | |- context [Z.to_nat ?z] =>
                 let r := eval vm_compute in (Z.to_nat z) in
                 change (Z.to_nat z) with r
             end;
      cbv beta iota; cbn [firstn skipn app].
    all: read_parts.
Qed.

Lemma hextets_of_range (x : Z) : Forall (fun v => 0 <= v < 65536) (hextets_of x).
Proof.
  unfold hextets_of. repeat constructor;
    change 65535 with (Z.ones 16); rewrite Z.land_ones by lia;
    apply Z.mod_pos_bound; lia.
Qed.

Lemma of_hextets_of (x : Z) : 0 <= x < 2 ^ 128 -> of_hextets (hextets_of x) = x.
Proof.
  intros H. unfold of_hextets, hextets_of. cbn [map fold_left].
  change 65535 with (Z.ones 16). rewrite !Z.land_ones by lia.
  rewrite !Z.shiftr_div_pow2 by lia.
  repeat match goal with
         | |- context [2 ^ ?e] =>
             let r := eval vm_compute in (2 ^ e) in change (2 ^ e) with r
         end.
  change (2 ^ 128) with 340282366920938463463374607431768211456 in H.
  Z.to_euclidean_division_equations. lia.
Qed.

Lemma string_from_ip_int_eq (x : Z) :
  string_from_ip_int x = join ":" (compress_hextets (map str_hex (hextets_of x))).
Proof. unfold string_from_ip_int, hextets_of. rewrite map_map. reflexivity. Qed.

Lemma hextet_text_of_str_hex (v : Z) :
  0 <= v < 65536 -> hextet_text_of v (str_hex v).
Proof.
  intros H. destruct (hextet_text v H) as (Hp & Hz & He & Hc & Hd & _).
  unfold hextet_text_of. auto 10.
Qed.

(** The text printed for a 128-bit number reads back as that number. *)
Lemma ipv6_int_roundtrip (x : Z) :
  0 <= x < 2 ^ 128 -> ipv6_int_from_string (string_from_ip_int x) = Some x.
Proof.
  intros H. rewrite string_from_ip_int_eq.
  pose proof (hextets_of_range x) as Hr. pose proof (of_hextets_of x H) as Hv.
  destruct (hextets_of x) as [|v0 [|v1 [|v2 [|v3 [|v4 [|v5 [|v6 [|v7 [|]]]]]]]]] eqn:E;
    try discriminate E.
  do 8 (apply Forall_cons_iff in Hr as [? Hr]).
  cbn [map]. rewrite <- Hv.
  apply compressed_text_reads_back; apply hextet_text_of_str_hex; assumption.
Qed.

Lemma Forall_firstn {A : Type} (P : A -> Prop) (n : nat) (l : list A) :
  Forall P l -> Forall P (firstn n l).
Proof.
  revert n. induction l as [|a l IH]; intros [|n] H; cbn [firstn]; auto.
  apply Forall_cons_iff in H as [Ha Hl]. constructor; auto.
Qed.

Lemma Forall_skipn {A : Type} (P : A -> Prop) (n : nat) (l : list A) :
  Forall P l -> Forall P (skipn n l).
Proof.
  revert n. induction l as [|a l IH]; intros [|n] H; cbn [skipn]; auto.
  apply Forall_cons_iff in H as [Ha Hl]. auto.
Qed.

(** Compression keeps hextets and adds empty parts only. *)
Lemma compress_parts (P : string -> Prop) (hs : list string) :
  Forall P hs -> P "" -> Forall P (compress_hextets hs).
Proof.
  intros Hh He. unfold compress_hextets.
  destruct (fold_left zero_run_step _ _) as [[[bs bl] cs] cl].
  destruct (1 <? bl); [|exact Hh].
  cbv zeta.
  set (hs' := if bs + bl =? Z.of_nat (List.length hs)
              then (hs ++ [""])%list else hs).
  assert (H' : Forall P hs').
  { unfold hs'. destruct (bs + bl =? _); [|exact Hh].
    apply Forall_app. split; [exact Hh | constructor; auto]. }
  assert (H'' : Forall P (firstn (Z.to_nat bs) hs' ++ [""]
                          ++ skipn (Z.to_nat (bs + bl)) hs')%list).
  { apply Forall_app. split; [apply Forall_firstn, H'|].
    constructor; [exact He | apply Forall_skipn, H']. }
  destruct (bs =? 0); [constructor|]; assumption.
Qed.

Lemma string_from_ip_int_contains (ch : ascii) (x : Z) :
  ch = "/"%char \/ ch = "%"%char ->
  contains ch (string_from_ip_int x) = false.
Proof.
  intros Hch. rewrite string_from_ip_int_eq.
  apply contains_join; [destruct Hch; subst ch; reflexivity|].
  apply compress_parts; [|reflexivity].
  apply Forall_map. eapply Forall_impl; [|apply hextets_of_range].
  intros v Hv. destruct (hextet_text v Hv) as (_ & _ & _ & _ & _ & Hs & Hp).
  destruct Hch; subst ch; assumption.
Qed.

Lemma partition_no_sep (sep : ascii) (s : string) :
  contains sep s = false -> partition sep s = (s, None).
Proof.
  induction s as [|c r IH]; [reflexivity|]. cbn [contains partition].
  intros H. apply orb_false_iff in H as [H1 H2]. rewrite H1, (IH H2). reflexivity.
Qed.

Lemma partition_app (sep : ascii) (a b : string) :
  contains sep a = false -> partition sep (a ++ String sep b) = (a, Some b).
Proof.
  induction a as [|c r IH]; cbn [contains append partition].
  - intros _. rewrite Ascii.eqb_refl. reflexivity.
  - intros H. apply orb_false_iff in H as [H1 H2]. rewrite H1, (IH H2). reflexivity.
Qed.

(** The text printed for an address reads back, if at all, as an
    address with the same number. *)
Lemma ipv6_text_roundtrip (a a' : IPv6Addr) :
  0 <= ip a < 2 ^ 128 ->
  IPv6Address (str_ipv6 a) = Some a' -> ip a' = ip a.
Proof.
  intros Hr. pose proof (ipv6_int_roundtrip (ip a) Hr) as Hx.
  pose proof (string_from_ip_int_contains "%" (ip a) (or_intror eq_refl)) as Hp.
  assert (Hplain : IPv6Address (string_from_ip_int (ip a)) = Some a' -> ip a' = ip a).
  { unfold IPv6Address. destruct (contains "/" _); [discriminate|].
    unfold split_scope_id. rewrite (partition_no_sep _ _ Hp), Hx.
    cbn [option_map]. intros H. injection H as <-. reflexivity. }
  unfold str_ipv6. destruct (scope_id a) as [scope|]; [|exact Hplain].
  destruct (is_empty scope) eqn:Ee; [exact Hplain|].
  change (string_from_ip_int (ip a) ++ "%" ++ scope)
    with (string_from_ip_int (ip a) ++ String "%" scope).
  unfold IPv6Address. destruct (contains "/" _); [discriminate|].
  unfold split_scope_id. rewrite (partition_app _ _ _ Hp), Ee. cbn [orb].
  destruct (contains "%" scope); [discriminate|]. rewrite Hx.
  cbn [option_map]. intros H. injection H as <-. reflexivity.
Qed.

Lemma hex_val_range (c : ascii) : is_hex_digit c = true -> 0 <= hex_val c <= 15.
Proof.
  intros H.
  destruct c as [[] [] [] [] [] [] [] []]; vm_compute in H; try discriminate H;
    vm_compute; split; discriminate.
Qed.

Lemma of_digits_hex_bound (s : string) (acc : Z) :
  all_chars is_hex_digit s = true -> 0 <= acc ->
  0 <= of_digits 16 hex_val s acc < (acc + 1) * 16 ^ Z.of_nat (String.length s).
Proof.
  revert acc. induction s as [|c r IH]; intros acc H Ha.
  - cbn. lia.
  - cbn [all_chars] in H. apply andb_true_iff in H as [Hc Hr].
    pose proof (hex_val_range c Hc) as Hv.
    cbn [of_digits String.length]. specialize (IH (16 * acc + hex_val c) Hr).
    destruct IH as [IH1 IH2]; [lia|]. split; [exact IH1|].
    eapply Z.lt_le_trans; [exact IH2|].
    rewrite Nat2Z.inj_succ, Z.pow_succ_r by lia.
    assert (0 < 16 ^ Z.of_nat (String.length r)) by (apply Z.pow_pos_nonneg; lia).
    nia.
Qed.

Lemma parse_hextet_range (h : string) (v : Z) :
  parse_hextet h = Some v -> 0 <= v < 65536.
Proof.
  unfold parse_hextet. destruct (all_chars is_hex_digit h) eqn:Hd; [|discriminate].
  cbn [negb]. destruct (4 <? len h) eqn:Hl; [discriminate|].
  destruct (is_empty h); [discriminate|]. intros H. injection H as <-.
  apply Z.ltb_ge in Hl. unfold len in Hl.
  destruct (of_digits_hex_bound h 0 Hd) as [B1 B2]; [lia|]. split; [exact B1|].
  eapply Z.lt_le_trans; [exact B2|].
  change 65536 with (1 * 16 ^ 4). apply Z.mul_le_mono_nonneg_l; [lia|].
  apply Z.pow_le_mono_r; lia.
Qed.

Lemma lor_shiftl_16 (x v : Z) :
  0 <= v < 65536 -> Z.lor (Z.shiftl x 16) v = x * 65536 + v.
Proof.
  intros H. rewrite Z.shiftl_mul_pow2 by lia. change (2 ^ 16) with 65536.
  assert (D : Z.land (x * 65536) v = 0).
  { apply Z.bits_inj'. intros n Hn. rewrite Z.land_spec, Z.bits_0.
    destruct (Z.lt_ge_cases n 16) as [Hlt|Hge].
    - change 65536 with (2 ^ 16). rewrite Z.mul_pow2_bits_low by lia. reflexivity.
    - replace v with (v mod 2 ^ 16)
        by (apply Z.mod_small; change (2 ^ 16) with 65536; lia).
      rewrite Z.mod_pow2_bits_high by lia. apply andb_false_r. }
  rewrite <- Z.lxor_lor by exact D. symmetry. apply Z.add_nocarry_lxor, D.
Qed.

Lemma shift_hextets_range (l : list string) (x y m : Z) :
  shift_hextets l x = Some y -> 0 <= m -> 0 <= x < 2 ^ m ->
  0 <= y < 2 ^ (m + 16 * Z.of_nat (List.length l)).
Proof.
  revert x m. induction l as [|h r IH]; intros x m H Hm Hx.
  - cbn in H. injection H as <-. cbn [List.length Z.of_nat].
    rewrite Z.mul_0_r, Z.add_0_r. exact Hx.
  - cbn [shift_hextets] in H. destruct (parse_hextet h) as [v|] eqn:P; [|discriminate].
    pose proof (parse_hextet_range h v P) as Hv.
    rewrite lor_shiftl_16 in H by exact Hv.
    specialize (IH _ (m + 16) H).
    replace (m + 16 * Z.of_nat (List.length (h :: r)))
      with (m + 16 + 16 * Z.of_nat (List.length r))
      by (cbn [List.length]; lia).
    apply IH; [lia|]. rewrite Z.pow_add_r by lia. change (2 ^ 16) with 65536. lia.
Qed.

Lemma interior_empty_range (parts : list string) (i : Z) :
  In i (interior_empty parts) -> 1 <= i <= Z.of_nat (List.length parts) - 2.
Proof.
  unfold interior_empty. intros H. apply filter_In in H as [H _].
  apply in_map_iff in H as (k & <- & Hk). apply in_seq in Hk. lia.
Qed.

Lemma hextet_layout_sum (parts : list string) (hi lo sk : Z) :
  hextet_layout parts = Some (hi, lo, sk) ->
  0 <= hi /\ 0 <= lo /\ 0 <= sk /\ hi + lo + sk = 8.
Proof.
  unfold hextet_layout.
  destruct (interior_empty parts) as [|i [|j l]] eqn:E; [| |discriminate].
  - destruct (Z.of_nat (List.length parts) =? HEXTET_COUNT) eqn:En; [|discriminate].
    apply Z.eqb_eq in En. cbn [negb].
    destruct (is_empty (part parts 0)); [discriminate|].
    destruct (is_empty (part parts _)); [discriminate|].
    intros H. injection H as <- <- <-. unfold HEXTET_COUNT in En. lia.
  - assert (Hi : 1 <= i <= Z.of_nat (List.length parts) - 2)
      by (apply interior_empty_range; rewrite E; left; reflexivity).
    cbv zeta.
    destruct (is_empty (part parts 0)), (is_empty (part parts _)); cbn [andb];
      intros H;
      repeat match type of H with
             | context [if ?c then _ else _] => destruct c eqn:?
             end;
      try discriminate H;
      apply (f_equal (fun o => match o with Some t => t | None => (0, 0, 0) end)) in H;
      apply pair_equal_spec in H as [H Hsk];
      apply pair_equal_spec in H as [Hhi Hlo]; subst hi lo sk;
      repeat match goal with
             | X : negb _ = false |- _ => apply negb_false_iff in X
             | X : (_ =? _) = true |- _ => apply Z.eqb_eq in X
             | X : (_ <? _) = false |- _ => apply Z.ltb_ge in X
             end;
      unfold HEXTET_COUNT in *; lia.
Qed.

Lemma ipv6_int_from_string_range (s : string) (x : Z) :
  ipv6_int_from_string s = Some x -> 0 <= x < 2 ^ 128.
Proof.
  unfold ipv6_int_from_string. destruct (is_empty s); [discriminate|].
  destruct (Z.of_nat (List.length (split ":" s)) <? 3); [discriminate|].
  match goal with
  | |- match ?w with _ => _ end = _ -> _ => destruct w as [parts|]; [|discriminate]
  end.
  destruct (HEXTET_COUNT + 1 <? Z.of_nat (List.length parts)); [discriminate|].
  destruct (hextet_layout parts) as [[[hi lo] sk]|] eqn:L; [|discriminate].
  apply hextet_layout_sum in L as (Hhi & Hlo & Hsk & Hsum).
  destruct (shift_hextets (firstn (Z.to_nat hi) parts) 0) as [h|] eqn:S1;
    [|discriminate].
  intros S2.
  apply (shift_hextets_range _ _ _ 0) in S1; [|lia|cbn; lia].
  apply (shift_hextets_range _ _ _
           (16 * Z.of_nat (List.length (firstn (Z.to_nat hi) parts)) + 16 * sk))
    in S2.
  - split; [apply S2|]. eapply Z.lt_le_trans; [apply S2|].
    apply Z.pow_le_mono_r; [lia|].
    pose proof (firstn_le_length (Z.to_nat hi) parts).
    rewrite length_skipn. lia.
  - lia.
  - rewrite Z.shiftl_mul_pow2 by lia. rewrite Z.pow_add_r by lia.
    rewrite Z.add_0_l in S1.
    assert (0 < 2 ^ (16 * sk)) by (apply Z.pow_pos_nonneg; lia).
    split; [apply Z.mul_nonneg_nonneg; lia|].
    apply Z.mul_lt_mono_pos_r; lia.
Qed.

(** A parsed IPv6 address is a 128-bit number. *)
Lemma IPv6Address_range (s : string) (a : IPv6Addr) :
  IPv6Address s = Some a -> 0 <= ip a < 2 ^ 128.
Proof.
  unfold IPv6Address. destruct (contains "/" s); [discriminate|].
  destruct (split_scope_id s) as [[addr scope]|]; [|discriminate].
  destruct (ipv6_int_from_string addr) as [x|] eqn:E; [|discriminate].
  cbn [option_map]. intros H. injection H as <-. cbn [ip].
  eapply ipv6_int_from_string_range, E.
Qed.

End Ipv6Text.

(** ** Bulk lookup of unresolved addresses *)

Section BulkLookupClaim.
Import ipaddress.

Lemma ip_address_v4 (s : string) (a : Z) :
  ip_address s = Some (V4 a) -> IPv4Address s = Some a.
Proof.
  unfold ip_address. destruct (IPv4Address s) as [x|].
  - intros H. injection H as <-. reflexivity.
  - destruct (IPv6Address s); discriminate.
Qed.

Lemma ip_address_v6 (s : string) (a : IPv6Addr) :
  ip_address s = Some (V6 a) -> IPv6Address s = Some a.
Proof.
  unfold ip_address. destruct (IPv4Address s) as [x|]; [discriminate|].
  destruct (IPv6Address s) as [y|]; [|discriminate].
  intros H. injection H as <-. reflexivity.
Qed.

Lemma net_contains_ip (n : IPv6Net) (a a' : IPv6Addr) :
  ip a' = ip a -> net_contains n a' = net_contains n a.
Proof. unfold net_contains. intros ->. reflexivity. Qed.

(** An IPv6 address no stored network contains is not found. *)
Lemma lookup_ip_v6_not_covered (d : Database) (ip_address : string) (a : IPv6Addr) :
  ipaddress.ip_address ip_address = Some (V6 a) ->
  (forall r n, In r (ipv6_ranges d) -> row_network r = Some n ->
               net_contains n a = false) ->
  lookup_ip d ip_address = Ret None.
Proof.
  intros Hp Hn. unfold lookup_ip. rewrite Hp. cbn [version str_ip Z.eqb Pos.eqb].
  unfold lookup_ipv6.
  destruct (IPv6Address (str_ipv6 a)) as [a'|] eqn:E; [|reflexivity].
  assert (Hip : ip a' = ip a).
  { apply ipv6_text_roundtrip; [|exact E].
    apply (IPv6Address_range ip_address), ip_address_v6, Hp. }
  replace (scan_ipv6 (ipv6_ranges d) a' (str_ipv6 a)) with (@None Result.t);
    [reflexivity|].
  symmetry. apply scan_ipv6_no_match. intros r n Hr Hrn.
  rewrite (net_contains_ip n a a' Hip). eauto.
Qed.

(** C9: [bulk_lookup] never raises and answers with one result per
    queried address, in the order of the queries.  The result for an
    address is what [lookup_ip] found, or, when it found nothing, the
    placeholder that carries the queried address with country,
    registry, date, status and version all absent; this is the case
    for an address that does not parse, for an IPv4 address outside
    every stored range, and for an IPv6 address that no stored network
    contains. *)
Theorem C9_bulk_lookup_keeps_every_query (d : Database) (ip_list : list string) :
  exists results,
    bulk_lookup d ip_list = Ret results
    /\ List.length results = List.length ip_list
    /\ forall i ip,
         nth_error ip_list i = Some ip ->
         (exists found,
             lookup_ip d ip = Ret found
             /\ nth_error results i
                = Some (match found with
                        | Some r => r
                        | None => Result.mk ip None None None None None None
                        end))
         /\ (ip_address ip = None ->
             nth_error results i = Some (Result.mk ip None None None None None None))
         /\ (forall a,
                ip_address ip = Some (V4 a) ->
                (forall r, In r (ipv4_ranges d) ->
                           ~ (V4.start_ip r <= a <= V4.end_ip r)) ->
                nth_error results i
                = Some (Result.mk ip None None None None None None))
         /\ (forall a,
                ip_address ip = Some (V6 a) ->
                (forall r n, In r (ipv6_ranges d) -> row_network r = Some n ->
                             net_contains n a = false) ->
                nth_error results i
                = Some (Result.mk ip None None None None None None)).
Proof.
  destruct (bulk_lookup_spec d ip_list) as (results & Hb & Hl & Hn).
  exists results. split; [exact Hb|]. split; [exact Hl|].
  intros i ip Hi. destruct (Hn i ip Hi) as (found & Hf & Hr).
  assert (Hnone : lookup_ip d ip = Ret None ->
                  nth_error results i
                  = Some (Result.mk ip None None None None None None)).
  { intros E. rewrite E in Hf. injection Hf as <-. exact Hr. }
  split; [exists found; split; assumption|]. split; [|split].
  - intros H. apply Hnone, lookup_ip_unparseable, H.
  - intros a Ha Hout. apply Hnone.
    apply (lookup_ip_v4_not_covered d ip a); [apply ip_address_v4, Ha | exact Hout].
  - intros a Ha Hout. apply Hnone.
    apply (lookup_ip_v6_not_covered d ip a); assumption.
Qed.

End BulkLookupClaim.

(** ** The shape of an accepted record *)

Section NormalizerShape.
Import Py.

Lemma split_fields_no_sep (sep : ascii) (s : string) :
  Forall (fun f => contains sep f = false) (split sep s).
Proof.
  induction s as [|c r IH]; [repeat constructor|].
  rewrite split_String. destruct (Ascii.eqb c sep) eqn:E.
  - constructor; [reflexivity | exact IH].
  - destruct (split sep r) as [|f fs].
    + repeat constructor. cbn. rewrite E. reflexivity.
    + apply Forall_cons_iff in IH as [Hf Hfs]. constructor; [|exact Hfs].
      cbn. rewrite E. exact Hf.
Qed.

Lemma upper_char_idempotent (c : ascii) : upper_char (upper_char c) = upper_char c.
Proof.
  destruct c as [[] [] [] [] [] [] [] []]; reflexivity.
Qed.

Lemma upper_idempotent (s : string) : upper (upper s) = upper s.
Proof.
  induction s as [|c r IH]; [reflexivity|].
  cbn [upper]. rewrite upper_char_idempotent, IH. reflexivity.
Qed.

Lemma upper_length (s : string) : String.length (upper s) = String.length s.
Proof. induction s as [|c r IH]; [reflexivity|]. cbn. rewrite IH. reflexivity. Qed.

Lemma upper_char_not_pipe (c : ascii) :
  Ascii.eqb c "|" = false -> Ascii.eqb (upper_char c) "|" = false.
Proof.
  destruct c as [[] [] [] [] [] [] [] []]; intros H; try reflexivity; discriminate H.
Qed.

Lemma upper_no_pipe (s : string) :
  contains "|" s = false -> contains "|" (upper s) = false.
Proof.
  induction s as [|c r IH]; [reflexivity|].
  cbn [contains upper]. intros H. apply orb_false_iff in H as [H1 H2].
  rewrite (upper_char_not_pipe c H1), (IH H2). reflexivity.
Qed.

Lemma validate_date_no_pipe (f : string) :
  contains "|" f = false -> contains "|" (validate_date f) = false.
Proof.
  intros H. unfold validate_date.
  destruct (negb (is_empty f) && (len f =? 8)); [|exact H].
  destruct (Strptime.strptime_Ymd f); [exact H | reflexivity].
Qed.

(** X1: a record that [parse_rir_line] accepts has a country code of
    two characters, in upper case and not the wildcard, the family
    [ipv4] or [ipv6], and no pipe in any of its seven fields. *)
Theorem X1_accepted_record_shape (line : string) (e : Entry) :
  parse_rir_line line = Some e ->
  String.length (country_code e) = 2%nat
  /\ upper (country_code e) = country_code e
  /\ country_code e <> "*"
  /\ (type e = "ipv4" \/ type e = "ipv6")
  /\ Forall (fun f => contains "|" f = false)
            [registry e; country_code e; type e; start e; value e; date e; status e].
Proof.
  unfold parse_rir_line.
  destruct (startswith line "#" || is_empty (strip line)); [discriminate|].
  pose proof (split_fields_no_sep "|" (strip line)) as Hf.
  destruct (Nat.le_gt_cases 7 (List.length (split "|" (strip line)))) as [Hl|Hl];
    [|rewrite entry_of_fields_lt7 by exact Hl; discriminate].
  rewrite entry_of_fields_ge7 by exact Hl.
  assert (Hn : forall i, (i < 7)%nat ->
                         contains "|" (nth i (split "|" (strip line)) "") = false).
  { intros i Hi. rewrite Forall_forall in Hf. apply Hf, nth_In. lia. }
  unfold Spec.bad_country, Spec.bad_family.
  set (fs := split "|" (strip line)) in *.
  destruct (String.eqb (nth 1 fs "") "*") eqn:Estar; [discriminate|].
  destruct (len (nth 1 fs "") =? 2) eqn:Elen; [|discriminate].
  cbn [negb orb].
  destruct (String.eqb (nth 2 fs "") "ipv4" || String.eqb (nth 2 fs "") "ipv6") eqn:Et;
    [|discriminate].
  cbn [negb]. intros H. injection H as <-. cbn [country_code type registry start value date status].
  apply Z.eqb_eq in Elen. unfold len in Elen.
  split; [rewrite upper_length; lia|].
  split; [apply upper_idempotent|].
  split.
  { intros E. pose proof (upper_length (nth 1 fs "")) as L. rewrite E in L.
    cbn in L. lia. }
  split.
  { apply orb_true_iff in Et as [Et|Et]; apply String.eqb_eq in Et; auto. }
  repeat (apply Forall_cons; [first [apply upper_no_pipe | apply validate_date_no_pipe | idtac];
                              apply Hn; lia|]).
  apply Forall_nil.
Qed.

(** X1 at a line with a lower-case country code. *)
Lemma X1_accepted_record_shape_witness :
  String.length (country_code sample_entry) = 2%nat
  /\ upper (country_code sample_entry) = country_code sample_entry
  /\ country_code sample_entry <> "*"
  /\ (type sample_entry = "ipv4" \/ type sample_entry = "ipv6")
  /\ Forall (fun f => contains "|" f = false)
            [registry sample_entry; country_code sample_entry; type sample_entry;
             start sample_entry; value sample_entry; date sample_entry;
             status sample_entry].
Proof.
  apply (X1_accepted_record_shape sample_line sample_entry). reflexivity.
Defined.

End NormalizerShape.

(** ** Whitespace around a line *)

Section Whitespace.
Import Py.

Lemma lstrip_spaces (ws s : string) :
  all_chars is_space ws = true -> lstrip (ws ++ s) = lstrip s.
Proof.
  induction ws as [|c r IH]; [reflexivity|].
  cbn [all_chars append lstrip]. intros H. apply andb_true_iff in H as [H1 H2].
  rewrite H1. apply IH, H2.
Qed.

Lemma lstrip_all_space (ws : string) :
  all_chars is_space ws = true -> lstrip ws = "".
Proof.
  induction ws as [|c r IH]; [reflexivity|].
  cbn [all_chars lstrip]. intros H. apply andb_true_iff in H as [H1 H2].
  rewrite H1. apply IH, H2.
Qed.

Lemma rstrip_all_space (ws : string) :
  all_chars is_space ws = true -> rstrip ws = "".
Proof.
  induction ws as [|c r IH]; [reflexivity|].
  cbn [all_chars rstrip]. intros H. apply andb_true_iff in H as [H1 H2].
  rewrite (IH H2), H1. reflexivity.
Qed.

Lemma rstrip_spaces (s ws : string) :
  all_chars is_space ws = true -> rstrip (s ++ ws) = rstrip s.
Proof.
  intros H. induction s as [|c r IH]; [apply rstrip_all_space, H|].
  cbn [append rstrip]. rewrite IH. reflexivity.
Qed.

Lemma lstrip_app_spaces (s ws : string) :
  all_chars is_space ws = true ->
  rstrip (lstrip (s ++ ws)) = rstrip (lstrip s).
Proof.
  intros H. induction s as [|c r IH].
  - cbn [append]. rewrite (lstrip_all_space ws H). reflexivity.
  - cbn [append lstrip]. destruct (is_space c); [exact IH|].
    change (String c (r ++ ws)) with (String c r ++ ws). apply rstrip_spaces, H.
Qed.

Lemma startswith_app_spaces (s ws : string) :
  all_chars is_space ws = true -> startswith (s ++ ws) "#" = startswith s "#".
Proof.
  intros H. destruct s as [|c r].
  - destruct ws as [|w r]; [reflexivity|].
    cbn [all_chars] in H. apply andb_true_iff in H as [H _].
    cbn [append]. unfold startswith. cbn [String.prefix].
    destruct (ascii_dec "#" w) as [<-|]; [discriminate H | reflexivity].
  - cbn [append]. apply startswith_marker.
Qed.

Lemma startswith_spaces_app (ws s : string) :
  all_chars is_space ws = true -> startswith s "#" = false ->
  startswith (ws ++ s) "#" = false.
Proof.
  intros H Hs. destruct ws as [|w r]; [exact Hs|].
  cbn [all_chars] in H. apply andb_true_iff in H as [H _].
  cbn [append]. unfold startswith. cbn [String.prefix].
  destruct (ascii_dec "#" w) as [<-|]; [discriminate H | reflexivity].
Qed.

Lemma parse_trailing_spaces (line ws : string) :
  all_chars is_space ws = true ->
  parse_rir_line (line ++ ws) = parse_rir_line line.
Proof.
  intros H. unfold parse_rir_line, strip.
  rewrite (startswith_app_spaces line ws H), (lstrip_app_spaces line ws H).
  reflexivity.
Qed.

Lemma parse_leading_spaces (line ws : string) :
  all_chars is_space ws = true -> startswith line "#" = false ->
  parse_rir_line (ws ++ line) = parse_rir_line line.
Proof.
  intros H Hs. unfold parse_rir_line, strip.
  rewrite (startswith_spaces_app ws line H Hs), Hs, (lstrip_spaces ws line H).
  reflexivity.
Qed.

(** X2: whitespace after a line, such as the carriage return of a
    CRLF file, never changes what [parse_rir_line] returns, and
    whitespace before a line does not either unless the line starts
    with the comment marker. *)
Theorem X2_surrounding_whitespace_is_ignored (line ws : string) :
  all_chars is_space ws = true ->
  parse_rir_line (line ++ ws) = parse_rir_line line
  /\ (startswith line "#" = false -> parse_rir_line (ws ++ line) = parse_rir_line line).
Proof.
  intros H. split; [apply parse_trailing_spaces, H|].
  intros Hs. apply parse_leading_spaces; assumption.
Qed.

(** X2 at a line that ends, or starts, with a carriage return. *)
Lemma X2_surrounding_whitespace_is_ignored_witness :
  parse_rir_line ("arin|US|ipv4|8.8.8.0|256|20140328|allocated" ++ String "013" "")
  = parse_rir_line "arin|US|ipv4|8.8.8.0|256|20140328|allocated"
  /\ (startswith "arin|US|ipv4|8.8.8.0|256|20140328|allocated" "#" = false ->
      parse_rir_line (String "013" "" ++ "arin|US|ipv4|8.8.8.0|256|20140328|allocated")
      = parse_rir_line "arin|US|ipv4|8.8.8.0|256|20140328|allocated").
Proof.
  apply (X2_surrounding_whitespace_is_ignored
           "arin|US|ipv4|8.8.8.0|256|20140328|allocated" (String "013" "")).
  reflexivity.
Defined.

End Whitespace.

(** ** [process_rir_data], line by line *)

Section Lines.
Import Py.

Lemma string_app_assoc (a b c : string) : (a ++ b) ++ c = a ++ b ++ c.
Proof. induction a as [|x r IH]; [reflexivity|]. cbn. rewrite IH. reflexivity. Qed.

Lemma parsed_line_entries (rir_name : string) (lines : list string) (e : RirEntry) :
  In e (flat_map (fun line => match parse_rir_line line with
                              | Some e => [mkRirEntry e rir_name]
                              | None => []
                              end) lines)
  <-> exists line, In line lines /\ parse_rir_line line = Some (entry e)
                   /\ rir e = rir_name.
Proof.
  rewrite in_flat_map. split.
  - intros (line & Hl & He). exists line. split; [exact Hl|].
    destruct (parse_rir_line line) as [x|]; [|destruct He].
    destruct He as [<-|[]]. split; reflexivity.
  - intros (line & Hl & Hp & Hr). exists line. split; [exact Hl|].
    rewrite Hp. left. destruct e as [x r]. cbn in *. subst. reflexivity.
Qed.

Lemma split_app_last (sep : ascii) (a w : string) :
  contains sep w = false ->
  split sep (a ++ w) = on_last (fun l => l ++ w) (split sep a).
Proof.
  intros H. induction a as [|c r IH].
  - cbn [append]. rewrite (split_no_sep sep w H). reflexivity.
  - cbn [append]. rewrite !split_String, IH.
    destruct (split_cons sep r) as (f & fs & E). rewrite E.
    destruct (Ascii.eqb c sep); cbn [on_last].
    + destruct (on_last (fun l => l ++ w) (f :: fs)) eqn:E'; [|reflexivity].
      apply (f_equal (@List.length string)) in E'.
      rewrite on_last_length in E'. discriminate E'.
    + destruct fs as [|g gs]; reflexivity.
Qed.

Lemma parsed_on_last (rir_name w : string) (lines : list string) :
  all_chars is_space w = true ->
  flat_map (fun line => match parse_rir_line line with
                        | Some e => [mkRirEntry e rir_name]
                        | None => []
                        end) (on_last (fun l => l ++ w) lines)
  = flat_map (fun line => match parse_rir_line line with
                          | Some e => [mkRirEntry e rir_name]
                          | None => []
                          end) lines.
Proof.
  intros H. induction lines as [|l [|m r] IH]; [reflexivity| |].
  - cbn [on_last flat_map].
    rewrite (parse_trailing_spaces l w H). reflexivity.
  - change (on_last (fun l => l ++ w) (l :: m :: r))
      with (l :: on_last (fun l => l ++ w) (m :: r)).
    cbn [flat_map] in *. rewrite IH. reflexivity.
Qed.

(** X3: [process_rir_data] works line by line.  The entries of two
    texts joined by a newline, or by carriage return and newline, are
    the entries of the first followed by those of the second; an entry
    is returned exactly for the lines that [parse_rir_line] accepts,
    tagged with the registry name; and there are at most as many
    entries as lines. *)
Theorem X3_process_rir_data_line_by_line (rir_name : string) :
  (forall a b,
      process_rir_data (a ++ newline ++ b) rir_name
      = (process_rir_data a rir_name ++ process_rir_data b rir_name)%list)
  /\ (forall data e,
         In e (process_rir_data data rir_name)
         <-> exists line, In line (split "010" data)
                          /\ parse_rir_line line = Some (entry e)
                          /\ rir e = rir_name)
  /\ (forall data,
         (List.length (process_rir_data data rir_name)
          <= S (Spec.count "010" data))%nat)
  /\ (forall a b,
         process_rir_data (a ++ String "013" newline ++ b) rir_name
         = (process_rir_data a rir_name ++ process_rir_data b rir_name)%list).
Proof.
  split; [|split; [|split]].
  - intros a b. unfold process_rir_data, newline. cbn [append].
    rewrite split_app, flat_map_app. reflexivity.
  - intros data e. apply parsed_line_entries.
  - intros data. unfold process_rir_data. rewrite <- split_length.
    induction (split "010" data) as [|l r IH]; [apply Nat.le_refl|].
    cbn [flat_map]. rewrite length_app. cbn [List.length].
    destruct (parse_rir_line l); cbn [List.length]; lia.
  - intros a b. unfold process_rir_data, newline.
    change (a ++ String "013" (String "010" "") ++ b)
      with (a ++ String "013" (String "010" b)).
    replace (a ++ String "013" (String "010" b))
      with ((a ++ String "013" "") ++ String "010" b)
      by (rewrite string_app_assoc; reflexivity).
    rewrite split_app, flat_map_app. f_equal.
    rewrite split_app_last by reflexivity.
    apply parsed_on_last. reflexivity.
Qed.

End Lines.

(** ** Batches of [insert_entries_to_db] *)

Section Batches.
Import Py.

Lemma number_rows_app {T R : Type} (with_id : Z -> T -> R) (seq : Z) (a b : list T) :
  number_rows with_id seq (a ++ b)
  = (number_rows with_id seq a
     ++ number_rows with_id (seq + Z.of_nat (List.length a)) b)%list.
Proof.
  revert seq. induction a as [|x r IH]; intros seq.
  - cbn. rewrite Z.add_0_r. reflexivity.
  - cbn [app number_rows List.length]. rewrite IH. do 3 f_equal. lia.
Qed.

Lemma insert_entries_eq (d : Database) (entries : list RirEntry) :
  insert_entries_to_db d entries =
  if negb (forallb bindable4 (flat_map ipv4_contribution entries)) then Raise OverflowError
  else if negb (forallb bindable6 (flat_map ipv6_contribution entries)) then Raise OverflowError
  else
    Ret (mkDatabase
           (ipv4_ranges d ++ number_rows V4.with_id (ipv4_seq d)
                               (flat_map ipv4_contribution entries))
           (ipv6_ranges d ++ number_rows V6.with_id (ipv6_seq d)
                               (flat_map ipv6_contribution entries))
           (ipv4_seq d + Z.of_nat (List.length (flat_map ipv4_contribution entries)))
           (ipv6_seq d + Z.of_nat (List.length (flat_map ipv6_contribution entries)))
           (metadata d)).
Proof.
  unfold insert_entries_to_db. rewrite prepare_entries_contributions. reflexivity.
Qed.

(** X4: inserting a list of entries in one call stores the same rows,
    with the same ids, as inserting a first part and then the rest in
    a second call; the one call succeeds exactly when both calls do. *)
Theorem X4_one_batch_or_two (d d' : Database) (es1 es2 : list RirEntry) :
  insert_entries_to_db d (es1 ++ es2) = Ret d'
  <-> exists d1, insert_entries_to_db d es1 = Ret d1
                 /\ insert_entries_to_db d1 es2 = Ret d'.
Proof.
  rewrite !insert_entries_eq, !flat_map_app, !forallb_app.
  destruct (forallb bindable4 (flat_map ipv4_contribution es1)) eqn:A1;
    [|split; [discriminate | intros (d1 & H & _); discriminate H]].
  destruct (forallb bindable6 (flat_map ipv6_contribution es1)) eqn:B1.
  2:{ cbn [andb negb]. destruct (forallb bindable4 (flat_map ipv4_contribution es2));
      cbn [negb]; rewrite ?andb_false_r;
      (split; [discriminate | intros (d1 & H & _); discriminate H]). }
  cbn [andb negb]. split.
  - intros H. eexists. split; [reflexivity|].
    rewrite insert_entries_eq. cbn [ipv4_ranges ipv6_ranges ipv4_seq ipv6_seq metadata].
    destruct (forallb bindable4 (flat_map ipv4_contribution es2)); [|discriminate H].
    destruct (forallb bindable6 (flat_map ipv6_contribution es2)); [|discriminate H].
    cbn [negb] in *. injection H as <-.
    rewrite !number_rows_app, !length_app, !Nat2Z.inj_add, !app_assoc, !Z.add_assoc.
    reflexivity.
  - intros (d1 & H1 & H2). injection H1 as <-.
    rewrite insert_entries_eq in H2.
    cbn [ipv4_ranges ipv6_ranges ipv4_seq ipv6_seq metadata] in H2.
    destruct (forallb bindable4 (flat_map ipv4_contribution es2)); [|discriminate H2].
    destruct (forallb bindable6 (flat_map ipv6_contribution es2)); [|discriminate H2].
    cbn [negb] in *. injection H2 as <-.
    rewrite !number_rows_app, !length_app, !Nat2Z.inj_add, !app_assoc, !Z.add_assoc.
    reflexivity.
Qed.

End Batches.

(** ** What a build reports *)

Section BuildReport.

Variable download_rir_data : string -> option string.

Lemma insert_entries_fits (d : Database) (entries : list RirEntry) :
  (batch_fits entries = true ->
   exists d', insert_entries_to_db d entries = Ret d' /\ metadata d' = metadata d)
  /\ (batch_fits entries = false ->
      insert_entries_to_db d entries = Raise OverflowError).
Proof.
  rewrite insert_entries_eq. unfold batch_fits.
  destruct (forallb bindable4 _); [|split; [discriminate | reflexivity]].
  destruct (forallb bindable6 _); [|split; [discriminate | reflexivity]].
  split; [|discriminate]. intros _. eexists. split; reflexivity.
Qed.

Lemma build_loop_step (name : string) (rest : list string) (b : Build) :
  build_loop download_rir_data (name :: rest) b =
  match registry_entries download_rir_data name with
  | [] => build_loop download_rir_data rest b
  | entries =>
      match insert_entries_to_db (db b) entries with
      | Raise e => Crashed e b
      | Ret d =>
          build_loop download_rir_data rest
            (mkBuild d (commits b ++ [d])
               (total_entries b + Z.of_nat (List.length entries))
               (successful_rirs b ++ [name]))
      end
  end.
Proof.
  cbn [build_loop]. unfold registry_entries.
  destruct (download_rir_data name) as [data|]; [|reflexivity].
  destruct (Py.is_empty data); [reflexivity|].
  destruct (process_rir_data data name); reflexivity.
Qed.

Lemma build_loop_report (names : list string) (b : Build) :
  match build_loop download_rir_data names b with
  | Done b' =>
      total_entries b'
      = total_entries b
        + Z.of_nat (List.length (flat_map (registry_entries download_rir_data) names))
      /\ successful_rirs b'
         = (successful_rirs b ++ filter (delivered download_rir_data) names)%list
      /\ metadata (db b') = metadata (db b)
      /\ Forall (fun n => batch_fits (registry_entries download_rir_data n) = true) names
  | Crashed e b' =>
      e = OverflowError
      /\ metadata (db b') = metadata (db b)
      /\ Exists (fun n => batch_fits (registry_entries download_rir_data n) = false) names
  end.
Proof.
  revert b. induction names as [|name rest IH]; intros b.
  - cbn. rewrite Z.add_0_r, app_nil_r. auto.
  - rewrite build_loop_step. cbn [flat_map filter]. unfold delivered at 1.
    destruct (registry_entries download_rir_data name) as [|e es] eqn:Ee.
    + specialize (IH b). destruct (build_loop download_rir_data rest b).
      * destruct IH as (H1 & H2 & H3 & H4). repeat split; auto.
        constructor; [rewrite Ee; reflexivity | exact H4].
      * destruct IH as (H1 & H2 & H3). repeat split; auto.
    + destruct (batch_fits (e :: es)) eqn:Ef.
      * destruct (proj1 (insert_entries_fits (db b) (e :: es)) Ef) as (d' & Hi & Hm).
        rewrite Hi.
        specialize (IH (mkBuild d' (commits b ++ [d'])
                          (total_entries b + Z.of_nat (List.length (e :: es)))
                          (successful_rirs b ++ [name]))).
        destruct (build_loop download_rir_data rest _).
        -- cbn [total_entries successful_rirs db] in IH.
           destruct IH as (H1 & H2 & H3 & H4). rewrite H1, H2, H3, Hm.
           rewrite length_app, Nat2Z.inj_add, <- app_assoc.
           repeat split; [lia|]. constructor; [rewrite Ee; exact Ef | exact H4].
        -- cbn [total_entries successful_rirs db] in IH.
           destruct IH as (H1 & H2 & H3). rewrite H2, Hm. repeat split; auto.
      * rewrite (proj2 (insert_entries_fits (db b) (e :: es)) Ef).
        repeat split. left. rewrite Ee. exact Ef.
Qed.

Lemma contribution_count (entries : list RirEntry) :
  (List.length (flat_map ipv4_contribution entries)
   + List.length (flat_map ipv6_contribution entries)
   <= List.length entries)%nat.
Proof.
  induction entries as [|e r IH]; [apply Nat.le_refl|].
  cbn [flat_map]. rewrite !length_app. cbn [List.length].
  unfold ipv4_contribution at 1, ipv6_contribution at 1.
  destruct (String.eqb (type (entry e)) "ipv4") eqn:E4.
  - rewrite (ipv4_is_not_ipv6 _ E4). destruct (ipv4_tuple e); cbn [List.length]; lia.
  - destruct (String.eqb (type (entry e)) "ipv6");
      [destruct (ipv6_tuple e)|]; cbn [List.length]; lia.
Qed.

Lemma update_metadata_fresh (d : Database) (k v : string) :
  metadata (update_metadata d k v)
  = (filter (fun kv => negb (String.eqb (fst kv) k)) (metadata d) ++ [(k, v)])%list.
Proof. reflexivity. Qed.

Lemma filter_filter {A : Type} (f g : A -> bool) (l : list A) :
  filter f (filter g l) = filter (fun x => g x && f x) l.
Proof.
  induction l as [|x r IH]; [reflexivity|].
  cbn [filter]. destruct (g x); cbn [filter andb]; [destruct (f x)|]; rewrite IH; reflexivity.
Qed.

Lemma build_metadata (m : list (string * string)) (v1 v2 v3 : string) :
  (filter (fun kv => negb (String.eqb (fst kv) "successful_rirs"))
     (filter (fun kv => negb (String.eqb (fst kv) "total_entries"))
        (filter (fun kv => negb (String.eqb (fst kv) "last_updated")) m
         ++ [("last_updated", v1)])
      ++ [("total_entries", v2)])
   ++ [("successful_rirs", v3)])%list
  = (filter (fun kv => negb (existsb (String.eqb (fst kv)) build_keys)) m
     ++ [("last_updated", v1); ("total_entries", v2); ("successful_rirs", v3)])%list.
Proof.
  rewrite !filter_app, !filter_filter. cbn [filter String.eqb Ascii.eqb Bool.eqb fst negb app].
  rewrite <- !app_assoc. cbn [app]. f_equal.
  apply filter_ext. intros [k v]. cbn [fst build_keys existsb].
  rewrite orb_false_r, !negb_orb, andb_assoc. reflexivity.
Qed.

(** X5: what a finished build reports.  [total_entries] counts every
    entry the registries delivered, whether or not it became a row, so
    the two tables never hold more rows than it says;
    [successful_rirs] lists the registries that delivered at least one
    entry, in the order of [rir_urls]; and the metadata table holds its
    other keys unchanged, followed by the three keys of the build. *)
Theorem X5_build_report (now : string) (old : Database) (b : Build) :
  build_table download_rir_data now old = Done b ->
  total_entries b
  = Z.of_nat (List.length (flat_map (registry_entries download_rir_data) rir_names))
  /\ successful_rirs b = filter (delivered download_rir_data) rir_names
  /\ metadata (db b)
     = (filter (fun kv => negb (existsb (String.eqb (fst kv)) build_keys))
               (metadata old)
        ++ [("last_updated", now);
            ("total_entries", Py.str_int (total_entries b));
            ("successful_rirs", Py.join "," (successful_rirs b))])%list
  /\ Z.of_nat (List.length (ipv4_ranges (db b)) + List.length (ipv6_ranges (db b)))
     <= total_entries b.
Proof.
  unfold build_table.
  pose proof (build_loop_report rir_names
                (commit (mkBuild old [] 0 []) (clear_tables old))) as R.
  pose proof (build_loop_commits download_rir_data rir_names []
                (commit (mkBuild old [] 0 []) (clear_tables old))
                eq_refl eq_refl) as C.
  cbn zeta in C. destruct C as (_ & _ & _ & Hd).
  { constructor; [|constructor]. exists 0%nat. split; [cbn; lia | reflexivity]. }
  { reflexivity. }
  destruct (build_loop download_rir_data rir_names
              (commit (mkBuild old [] 0 []) (clear_tables old))) as [b0|e b0];
    [|discriminate].
  specialize (Hd b0 eq_refl).
  cbn [commit total_entries successful_rirs db clear_tables metadata] in R.
  destruct R as (Ht & Hs & Hm & _). intros E. injection E as <-.
  cbn [commit total_entries successful_rirs db] in *.
  rewrite Ht, Hs. cbn [app]. repeat split.
  - rewrite !update_metadata_fresh, Hm. apply build_metadata.
  - apply (f_equal (fun p => (List.length (fst p) + List.length (snd p))%nat)) in Hd.
    unfold index_of, index_after in Hd. cbn [fst snd] in Hd.
    rewrite !length_map in Hd.
    unfold update_metadata. cbn [ipv4_ranges ipv6_ranges]. rewrite Hd.
    apply inj_le, contribution_count.
Qed.

Lemma lookup_ip_empty (d : Database) (ip : string) :
  ipv4_ranges d = [] -> ipv6_ranges d = [] -> lookup_ip d ip = Ret None.
Proof.
  intros H4 H6. destruct (ipaddress.ip_address ip) as [[a|a]|] eqn:E.
  - apply (lookup_ip_v4_not_covered d ip a); [apply ip_address_v4, E|].
    rewrite H4. intros r [].
  - apply (lookup_ip_v6_not_covered d ip a E). rewrite H6. intros r n [].
  - apply lookup_ip_unparseable, E.
Qed.

Lemma build_loop_nothing (names : list string) (b : Build) :
  (forall n, In n names -> registry_entries download_rir_data n = []) ->
  build_loop download_rir_data names b = Done b.
Proof.
  induction names as [|name rest IH]; intros H; [reflexivity|].
  rewrite build_loop_step, (H name (or_introl eq_refl)).
  apply IH. intros n Hn. apply H. right. exact Hn.
Qed.

(** X6: when no registry delivers an entry (every download fails, is
    empty or holds no valid line), [build_table] still ends normally:
    it leaves both tables empty, whatever they held before, so every
    lookup answers "not found", and records a total of 0 and an empty
    list of registries. *)
Theorem X6_failed_downloads_empty_the_index (now : string) (old : Database) :
  (forall n, In n rir_names -> registry_entries download_rir_data n = []) ->
  exists b,
    build_table download_rir_data now old = Done b
    /\ ipv4_ranges (db b) = [] /\ ipv6_ranges (db b) = []
    /\ (forall ip, lookup_ip (db b) ip = Ret None)
    /\ total_entries b = 0 /\ successful_rirs b = []
    /\ In ("total_entries", "0") (metadata (db b))
    /\ In ("successful_rirs", "") (metadata (db b)).
Proof.
  intros H. unfold build_table. rewrite (build_loop_nothing _ _ H).
  eexists. split; [reflexivity|].
  cbn [commit db total_entries successful_rirs update_metadata clear_tables
       ipv4_ranges ipv6_ranges metadata].
  repeat split.
  - intros ip. apply lookup_ip_empty; reflexivity.
  - apply in_or_app. left. apply filter_In. split; [|reflexivity].
    apply in_or_app. right. left. reflexivity.
  - apply in_or_app. right. left. reflexivity.
Qed.

(** X7: given downloads that return, [build_table] ends normally
    exactly when every registry's batch holds only integers that fit
    in 64 bits; otherwise it ends with [OverflowError], and the
    metadata table is left as it was before the build. *)
Theorem X7_build_fails_on_overflow_only (now : string) (old : Database) :
  ((exists b, build_table download_rir_data now old = Done b)
   <-> Forall (fun n => batch_fits (registry_entries download_rir_data n) = true)
              rir_names)
  /\ (forall e b,
         build_table download_rir_data now old = Crashed e b ->
         e = OverflowError
         /\ metadata (db b) = metadata old
         /\ Exists (fun n => batch_fits (registry_entries download_rir_data n) = false)
                   rir_names).
Proof.
  unfold build_table.
  pose proof (build_loop_report rir_names
                (commit (mkBuild old [] 0 []) (clear_tables old))) as R.
  destruct (build_loop download_rir_data rir_names
              (commit (mkBuild old [] 0 []) (clear_tables old))) as [b0|e0 b0].
  - destruct R as (_ & _ & _ & Hf). split.
    + split; [intros _; exact Hf | intros _; eexists; reflexivity].
    + intros e b E. discriminate E.
  - destruct R as (He & Hm & Hx). split.
    + split; [intros (b & E); discriminate E|].
      intros Hf. exfalso. apply Exists_exists in Hx as (n & Hn & Hb).
      rewrite Forall_forall in Hf. rewrite (Hf n Hn) in Hb. discriminate Hb.
    + intros e b E. injection E as <- <-. auto.
Qed.

End BuildReport.

(** X5 at a build from two registries. *)
Lemma X5_build_report_witness :
  total_entries first_build_run
  = Z.of_nat (List.length (flat_map (registry_entries two_registries) rir_names))
  /\ successful_rirs first_build_run = filter (delivered two_registries) rir_names
  /\ metadata (db first_build_run)
     = (filter (fun kv => negb (existsb (String.eqb (fst kv)) build_keys))
               (metadata empty_database)
        ++ [("last_updated", "2024-01-01T00:00:00");
            ("total_entries", Py.str_int (total_entries first_build_run));
            ("successful_rirs", Py.join "," (successful_rirs first_build_run))])%list
  /\ Z.of_nat (List.length (ipv4_ranges (db first_build_run))
               + List.length (ipv6_ranges (db first_build_run)))
     <= total_entries first_build_run.
Proof.
  apply (X5_build_report two_registries "2024-01-01T00:00:00" empty_database
                         first_build_run).
  vm_compute. reflexivity.
Defined.

(** X6 at a rebuild of a filled database while every download fails. *)
Lemma X6_failed_downloads_empty_the_index_witness :
  exists b,
    build_table no_registry "2024-01-02T00:00:00" first_build = Done b
    /\ ipv4_ranges (db b) = [] /\ ipv6_ranges (db b) = []
    /\ (forall ip, lookup_ip (db b) ip = Ret None)
    /\ total_entries b = 0 /\ successful_rirs b = []
    /\ In ("total_entries", "0") (metadata (db b))
    /\ In ("successful_rirs", "") (metadata (db b)).
Proof.
  apply (X6_failed_downloads_empty_the_index no_registry "2024-01-02T00:00:00"
                                             first_build).
  intros n Hn. reflexivity.
Defined.

(** ** The rows of a finished build *)

Section StoredRows.

Variable download_rir_data : string -> option string.

Lemma parsed_country_code (line : string) (e : Entry) :
  parse_rir_line line = Some e -> String.length (country_code e) = 2%nat.
Proof.
  rewrite parse_rir_line_cascade.
  destruct (Spec.comment_at_line_start line || Spec.blank line); [discriminate|].
  destruct (Spec.field_count line <? 7); [discriminate|].
  destruct (Spec.bad_country (Spec.field 1 line)) eqn:Eb; [discriminate|].
  destruct (Spec.bad_family _); [discriminate|]. cbn [orb].
  intros H. injection H as <-. cbn [country_code]. rewrite upper_length.
  unfold Spec.bad_country in Eb. apply orb_false_iff in Eb as [_ Eb].
  apply negb_false_iff, Z.eqb_eq in Eb. unfold Py.len in Eb. lia.
Qed.

Lemma registry_entry_origin (n : string) (e : RirEntry) :
  In e (registry_entries download_rir_data n) ->
  rir e = n /\ String.length (country_code (entry e)) = 2%nat
  /\ delivered download_rir_data n = true.
Proof.
  intros H. assert (Hd : delivered download_rir_data n = true).
  { unfold delivered. destruct (registry_entries download_rir_data n); [destruct H|].
    reflexivity. }
  unfold registry_entries in H. destruct (download_rir_data n) as [data|]; [|destruct H].
  destruct (Py.is_empty data); [destruct H|].
  apply parsed_line_entries in H as (line & _ & Hp & Hr).
  split; [exact Hr|]. split; [|exact Hd]. apply (parsed_country_code line), Hp.
Qed.

(** X8: after a build that ends normally, every stored row has a
    country code of two characters and the name of one of the
    successful registries; an IPv4 row starts at a 32-bit address and
    its end fits in 64 bits, and the prefix length of an IPv6 row fits
    in 64 bits. *)
Theorem X8_rows_of_a_finished_build (now : string) (old : Database) (b : Build) :
  build_table download_rir_data now old = Done b ->
  Forall (fun r => String.length (V4.country_code r) = 2%nat
                   /\ In (V4.rir r) (successful_rirs b)
                   /\ 0 <= V4.start_ip r < 2 ^ 32
                   /\ - 2 ^ 63 <= V4.end_ip r < 2 ^ 63)
         (ipv4_ranges (db b))
  /\ Forall (fun r => String.length (V6.country_code r) = 2%nat
                      /\ In (V6.rir r) (successful_rirs b)
                      /\ - 2 ^ 63 <= V6.prefix_length r < 2 ^ 63)
            (ipv6_ranges (db b)).
Proof.
  unfold build_table.
  pose proof (build_loop_report download_rir_data rir_names
                (commit (mkBuild old [] 0 []) (clear_tables old))) as R.
  pose proof (build_loop_commits download_rir_data rir_names []
                (commit (mkBuild old [] 0 []) (clear_tables old))
                eq_refl eq_refl) as C.
  cbn zeta in C. destruct C as (_ & _ & _ & Hd).
  { constructor; [|constructor]. exists 0%nat. split; [cbn; lia | reflexivity]. }
  { reflexivity. }
  destruct (build_loop download_rir_data rir_names
              (commit (mkBuild old [] 0 []) (clear_tables old))) as [b0|e b0];
    [|discriminate].
  specialize (Hd b0 eq_refl). destruct R as (_ & Hs & _ & Hf).
  cbn [commit successful_rirs app] in Hs.
  intros E. injection E as <-.
  cbn [commit db successful_rirs update_metadata ipv4_ranges ipv6_ranges].
  pose proof (f_equal fst Hd) as H4. pose proof (f_equal snd Hd) as H6.
  unfold index_of, index_after in H4, H6. cbn [fst snd] in H4, H6. clear Hd.
  rewrite Forall_forall in Hf. split; apply Forall_forall; intros r Hr.
  - assert (Hin : In (V4.columns r) (map V4.columns (ipv4_ranges (db b0))))
      by (apply in_map, Hr).
    rewrite H4 in Hin. apply in_flat_map in Hin as (e & He & Hc).
    apply in_flat_map in He as (n & Hn & He).
    destruct (registry_entry_origin n e He) as (Hrir & Hcc & Hdel).
    specialize (Hf n Hn). unfold batch_fits in Hf.
    apply andb_true_iff in Hf as [Hf _]. rewrite forallb_forall in Hf.
    assert (Hb : bindable4 (V4.columns r) = true).
    { apply Hf. apply in_flat_map. exists e. split; assumption. }
    unfold ipv4_contribution in Hc.
    destruct (String.eqb (type (entry e)) "ipv4"); [|destruct Hc].
    unfold ipv4_tuple in Hc.
    destruct (Py.int (value (entry e))) as [num|]; [|destruct Hc].
    destruct (ip_to_int (start (entry e))) as [s|] eqn:Es; [|destruct Hc].
    destruct Hc as [Hc|[]]. rewrite <- Hc in Hb.
    destruct r as [i s' e' cc rr da st]. cbn in Hc. injection Hc as <- <- <- <- _ _.
    cbn [V4.country_code V4.rir V4.start_ip V4.end_ip].
    split; [exact Hcc|]. split.
    { rewrite Hs. apply filter_In. split; [rewrite Hrir; exact Hn|].
      rewrite Hrir. exact Hdel. }
    split; [apply (IPv4Address_range _ _ Es)|].
    cbn in Hb. apply andb_true_iff in Hb as [_ Hb]. unfold fits_int64 in Hb.
    apply andb_true_iff in Hb as [Hb1 Hb2].
    apply Z.leb_le in Hb1. apply Z.ltb_lt in Hb2. lia.
  - assert (Hin : In (V6.columns r) (map V6.columns (ipv6_ranges (db b0))))
      by (apply in_map, Hr).
    rewrite H6 in Hin. apply in_flat_map in Hin as (e & He & Hc).
    apply in_flat_map in He as (n & Hn & He).
    destruct (registry_entry_origin n e He) as (Hrir & Hcc & Hdel).
    specialize (Hf n Hn). unfold batch_fits in Hf.
    apply andb_true_iff in Hf as [_ Hf]. rewrite forallb_forall in Hf.
    assert (Hb : bindable6 (V6.columns r) = true).
    { apply Hf. apply in_flat_map. exists e. split; assumption. }
    unfold ipv6_contribution in Hc.
    destruct (String.eqb (type (entry e)) "ipv6"); [|destruct Hc].
    unfold ipv6_tuple in Hc.
    destruct (Py.int (value (entry e))) as [p|]; [|destruct Hc].
    destruct Hc as [Hc|[]]. rewrite <- Hc in Hb.
    destruct r as [i n' p' cc rr da st]. cbn in Hc. injection Hc as _ <- <- <- _ _.
    cbn [V6.country_code V6.rir V6.prefix_length].
    split; [exact Hcc|]. split.
    { rewrite Hs. apply filter_In. split; [rewrite Hrir; exact Hn|].
      rewrite Hrir. exact Hdel. }
    cbn in Hb. unfold fits_int64 in Hb.
    apply andb_true_iff in Hb as [Hb1 Hb2].
    apply Z.leb_le in Hb1. apply Z.ltb_lt in Hb2. lia.
Qed.

End StoredRows.

(** X8 at a build from two registries. *)
Lemma X8_rows_of_a_finished_build_witness :
  Forall (fun r => String.length (V4.country_code r) = 2%nat
                   /\ In (V4.rir r) (successful_rirs first_build_run)
                   /\ 0 <= V4.start_ip r < 2 ^ 32
                   /\ - 2 ^ 63 <= V4.end_ip r < 2 ^ 63)
         (ipv4_ranges (db first_build_run))
  /\ Forall (fun r => String.length (V6.country_code r) = 2%nat
                      /\ In (V6.rir r) (successful_rirs first_build_run)
                      /\ - 2 ^ 63 <= V6.prefix_length r < 2 ^ 63)
            (ipv6_ranges (db first_build_run)).
Proof.
  apply (X8_rows_of_a_finished_build two_registries "2024-01-01T00:00:00"
                                     empty_database first_build_run).
  vm_compute. reflexivity.
Defined.

(** ** What a lookup answers *)

Section LookupAnswers.
Import Py ipaddress.

Lemma partition_some (sep : ascii) (s a b : string) :
  partition sep s = (a, Some b) -> s = a ++ String sep b.
Proof.
  revert a. induction s as [|c r IH]; intros a; cbn [partition]; [discriminate|].
  destruct (Ascii.eqb c sep) eqn:E.
  - apply Ascii.eqb_eq in E. subst c. intros H. injection H as <- <-. reflexivity.
  - destruct (partition sep r) as [x y]. intros H. injection H as <- ->.
    cbn [append]. f_equal. apply IH. reflexivity.
Qed.

(** The canonical text of a parsed address reads back as that address. *)
Lemma ipv6_canonical_reads_back (q : string) (a : IPv6Addr) :
  IPv6Address q = Some a -> IPv6Address (str_ipv6 a) = Some a.
Proof.
  intros Hq. pose proof (IPv6Address_range q a Hq) as Hr.
  pose proof (ipv6_int_roundtrip (ip a) Hr) as Hx.
  pose proof (string_from_ip_int_contains "%" (ip a) (or_intror eq_refl)) as Hp.
  pose proof (string_from_ip_int_contains "/" (ip a) (or_introl eq_refl)) as Hs.
  revert Hq. unfold IPv6Address at 1.
  destruct (contains "/" q) eqn:Eq; [discriminate|].
  unfold split_scope_id at 1.
  destruct (partition "%" q) as [addr [scope|]] eqn:Ep.
  - destruct (is_empty scope || contains "%" scope) eqn:Es; [discriminate|].
    apply orb_false_iff in Es as [Es1 Es2].
    destruct (ipv6_int_from_string addr) as [x|]; [|discriminate].
    cbn [option_map]. intros H. injection H as <-.
    cbn [ip] in *. unfold str_ipv6. cbn [scope_id ip]. rewrite Es1.
    change (string_from_ip_int x ++ "%" ++ scope)
      with (string_from_ip_int x ++ String "%" scope).
    apply partition_some in Ep. subst q.
    rewrite contains_app in Eq. apply orb_false_iff in Eq as [_ Eq].
    cbn [contains] in Eq. apply orb_false_iff in Eq as [_ Eq].
    unfold IPv6Address. rewrite contains_app, Hs. cbn [contains orb Ascii.eqb Bool.eqb].
    rewrite Eq. unfold split_scope_id.
    rewrite (partition_app _ _ _ Hp), Es1, Es2. cbn [orb]. rewrite Hx. reflexivity.
  - destruct (ipv6_int_from_string addr) as [x|]; [|discriminate].
    cbn [option_map]. intros H. injection H as <-.
    cbn [ip] in *. unfold str_ipv6. cbn [scope_id ip].
    unfold IPv6Address. rewrite Hs. unfold split_scope_id.
    rewrite (partition_no_sep _ _ Hp), Hx. reflexivity.
Qed.

Lemma split_chars (p : ascii -> bool) (sep : ascii) (s : string) :
  Forall (fun f => all_chars p f = true) (split sep s) ->
  all_chars (fun c => p c || Ascii.eqb c sep) s = true.
Proof.
  induction s as [|c r IH]; [reflexivity|].
  rewrite split_String. cbn [all_chars]. destruct (Ascii.eqb c sep) eqn:E.
  - intros H. apply Forall_inv_tail in H. rewrite orb_true_r. apply IH, H.
  - destruct (split_cons sep r) as (f & fs & Er). rewrite Er in *.
    intros H. apply Forall_cons_iff in H as [Hf Hfs].
    cbn [all_chars] in Hf. apply andb_true_iff in Hf as [Hc Hf].
    rewrite Hc. cbn [orb andb]. apply IH. constructor; assumption.
Qed.

Lemma all_some_Forall {A B : Type} (f : A -> option B) (l : list A) (r : list B) :
  all_some (map f l) = Some r -> Forall (fun x => f x <> None) l.
Proof.
  revert r. induction l as [|x l IH]; intros r; [constructor|].
  cbn [map all_some]. destruct (f x) eqn:E; [|discriminate].
  destruct (all_some (map f l)) eqn:E'; [|discriminate].
  intros _. constructor; [congruence | eapply IH; reflexivity].
Qed.

Lemma parse_octet_digits (o : string) :
  parse_octet o <> None -> all_chars is_digit o = true.
Proof.
  unfold parse_octet. destruct (is_empty o); [congruence|].
  destruct (all_chars is_digit o); [reflexivity | cbn; congruence].
Qed.

Lemma ipv4_text_chars (q : string) (a : Z) :
  IPv4Address q = Some a -> all_chars digit_or_dot q = true.
Proof.
  unfold IPv4Address, ipv4_int_from_string.
  destruct (contains "/" q); [discriminate|].
  destruct (is_empty q); [discriminate|].
  destruct (negb _); [discriminate|].
  destruct (all_some (map parse_octet (split "." q))) as [os|] eqn:E; [|discriminate].
  intros _. apply (split_chars is_digit "." q).
  eapply Forall_impl; [|apply (all_some_Forall _ _ _ E)].
  intros o. apply parse_octet_digits.
Qed.

Lemma all_chars_contains (p : ascii -> bool) (ch : ascii) (s : string) :
  p ch = false -> contains ch s = true -> all_chars p s = false.
Proof.
  intros Hp. induction s as [|c r IH]; [discriminate|].
  cbn [contains all_chars]. destruct (Ascii.eqb c ch) eqn:E.
  - apply Ascii.eqb_eq in E. subst c. rewrite Hp. reflexivity.
  - cbn [orb]. intros H. rewrite (IH H). apply andb_false_r.
Qed.

Lemma contains_count (ch : ascii) (s : string) :
  (0 < Spec.count ch s)%nat -> contains ch s = true.
Proof.
  induction s as [|c r IH]; cbn [Spec.count contains]; [lia|].
  destruct (Ascii.eqb c ch); [reflexivity|]. cbn [orb]. exact IH.
Qed.

Lemma ipv6_text_has_colon (q : string) (a : IPv6Addr) :
  IPv6Address q = Some a -> contains ":" q = true.
Proof.
  unfold IPv6Address. destruct (contains "/" q); [discriminate|].
  unfold split_scope_id.
  assert (H : forall addr, ipv6_int_from_string addr <> None -> contains ":" addr = true).
  { intros addr. unfold ipv6_int_from_string. destruct (is_empty addr); [congruence|].
    destruct (Z.of_nat (List.length (split ":" addr)) <? 3) eqn:E; [congruence|].
    intros _. apply contains_count. rewrite split_length in E.
    apply Z.ltb_ge in E. lia. }
  destruct (partition "%" q) as [addr [scope|]] eqn:Ep.
  - destruct (is_empty scope || contains "%" scope); [discriminate|].
    destruct (ipv6_int_from_string addr) eqn:E; [|discriminate]. intros _.
    apply partition_some in Ep. subst q. rewrite contains_app, H; [reflexivity|].
    congruence.
  - destruct (ipv6_int_from_string addr) eqn:E; [|discriminate]. intros _.
    assert (Hq : q = addr).
    { clear -Ep. revert addr Ep. induction q as [|c r IH]; intros addr; cbn [partition].
      - intros H. injection H as <-. reflexivity.
      - destruct (Ascii.eqb c "%"); [discriminate|].
        destruct (partition "%" r) as [x y]. intros H. injection H as <- ->.
        f_equal. apply IH. reflexivity. }
    subst q. apply H. congruence.
Qed.

(** An IPv6 text is never read as an IPv4 address. *)
Lemma ipv6_text_is_not_ipv4 (q : string) (a : IPv6Addr) :
  IPv6Address q = Some a -> IPv4Address q = None.
Proof.
  intros H6. destruct (IPv4Address q) as [x|] eqn:E4; [|reflexivity].
  apply ipv4_text_chars in E4. apply ipv6_text_has_colon in H6.
  rewrite (all_chars_contains digit_or_dot ":" q eq_refl H6) in E4. discriminate E4.
Qed.

Lemma lookup_ip_v4 (d : Database) (q : string) (a : Z) :
  IPv4Address q = Some a ->
  lookup_ip d q
  = Ret (option_map (result_of_row4 (str_ipv4 a))
           (order_by_limit_1 width (filter (covers a) (ipv4_ranges d)))).
Proof.
  intros Hq. unfold lookup_ip, ip_address. rewrite Hq.
  cbn [version str_ip Z.eqb Pos.eqb]. unfold lookup_ipv4, ip_to_int.
  rewrite (ipv4_text_roundtrip a (IPv4Address_range q a Hq)). reflexivity.
Qed.

Lemma lookup_ip_v6 (d : Database) (q : string) (a : IPv6Addr) :
  IPv4Address q = None -> IPv6Address q = Some a ->
  lookup_ip d q = Ret (scan_ipv6 (ipv6_ranges d) a (str_ipv6 a)).
Proof.
  intros H4 H6. unfold lookup_ip, ip_address. rewrite H4, H6.
  cbn [option_map version str_ip Z.eqb Pos.eqb]. unfold lookup_ipv6.
  rewrite (ipv6_canonical_reads_back q a H6). reflexivity.
Qed.

(** X9: every answer of [lookup_ip] comes from a stored row that
    contains the queried address: an IPv4 row with
    [start_ip <= a <= end_ip], or an IPv6 row whose network parses and
    contains it.  The address in the answer is the canonical text of
    the query and reads back as the queried address.  In particular a
    row whose end lies before its start never answers. *)
Theorem X9_every_answer_comes_from_a_containing_row
  (d : Database) (q : string) (r : Result.t) :
  lookup_ip d q = Ret (Some r) ->
  (exists a row,
      IPv4Address q = Some a
      /\ In row (ipv4_ranges d)
      /\ V4.start_ip row <= a <= V4.end_ip row
      /\ r = result_of_row4 (str_ipv4 a) row
      /\ IPv4Address (Result.ip_address r) = Some a)
  \/ (exists a row net,
         IPv4Address q = None /\ IPv6Address q = Some a
         /\ In row (ipv6_ranges d)
         /\ row_network row = Some net
         /\ net_contains net a = true
         /\ r = result_of_row6 (str_ipv6 a) row net
         /\ IPv6Address (Result.ip_address r) = Some a).
Proof.
  destruct (IPv4Address q) as [a|] eqn:E4.
  - rewrite (lookup_ip_v4 d q a E4).
    destruct (order_by_limit_1 width (filter (covers a) (ipv4_ranges d)))
      as [row|] eqn:Eo; [|discriminate].
    cbn [option_map]. intros H. injection H as <-. left. exists a, row.
    assert (Hin : In row (filter (covers a) (ipv4_ranges d))).
    { destruct (order_by_limit_1_least width (filter (covers a) (ipv4_ranges d)))
        as (m & Hm & Hin & _).
      - intros En. rewrite En in Eo. discriminate Eo.
      - rewrite Hm in Eo. injection Eo as <-. exact Hin. }
    apply filter_In in Hin as [Hin Hc]. apply covers_iff in Hc.
    repeat split; try tauto.
    cbn. apply ipv4_text_roundtrip, (IPv4Address_range q a E4).
  - destruct (IPv6Address q) as [a|] eqn:E6.
    + rewrite (lookup_ip_v6 d q a E4 E6). intros H. injection H as H.
      apply scan_ipv6_first_match in H
        as (before & row & after & net & Hrows & Hnet & Hc & _ & ->).
      right. exists a, row, net. repeat split; try assumption.
      * rewrite Hrows. apply in_or_app. right. left. reflexivity.
      * cbn. apply (ipv6_canonical_reads_back q a E6).
    + rewrite lookup_ip_unparseable; [discriminate|].
      unfold ip_address. rewrite E4, E6. reflexivity.
Qed.

Lemma stored_row4 (d d' : Database) (es : list RirEntry) (e : RirEntry) (t : V4.tuple) :
  insert_entries_to_db d es = Ret d' -> In e es ->
  type (entry e) = "ipv4" -> ipv4_tuple e = Some t ->
  exists row, In row (ipv4_ranges d') /\ V4.columns row = t.
Proof.
  intros Hi He Ht Htu. apply insert_entries_stored in Hi as (H4 & _ & _).
  assert (Hin : In t (map V4.columns (ipv4_ranges d'))).
  { rewrite H4. apply in_or_app. right. apply in_flat_map. exists e.
    split; [exact He|]. unfold ipv4_contribution. rewrite Ht, Htu. left. reflexivity. }
  apply in_map_iff in Hin as (row & Hc & Hr). eauto.
Qed.

Lemma stored_row6 (d d' : Database) (es : list RirEntry) (e : RirEntry) (t : V6.tuple) :
  insert_entries_to_db d es = Ret d' -> In e es ->
  type (entry e) = "ipv6" -> ipv6_tuple e = Some t ->
  exists row, In row (ipv6_ranges d') /\ V6.columns row = t.
Proof.
  intros Hi He Ht Htu. apply insert_entries_stored in Hi as (_ & H6 & _).
  assert (Hin : In t (map V6.columns (ipv6_ranges d'))).
  { rewrite H6. apply in_or_app. right. apply in_flat_map. exists e.
    split; [exact He|]. unfold ipv6_contribution. rewrite Ht, Htu. left. reflexivity. }
  apply in_map_iff in Hin as (row & Hc & Hr). eauto.
Qed.

(** X10: an IPv4 record that was inserted is found.  For every
    address between the record's start and its start plus count minus
    one, [lookup_ip] answers with a stored range that contains the
    address and is no wider than the record's. *)
Theorem X10_stored_ipv4_record_is_found
  (d d' : Database) (es : list RirEntry) (e : RirEntry) (s n a : Z) (q : string) :
  insert_entries_to_db d es = Ret d' -> In e es ->
  type (entry e) = "ipv4" ->
  ip_to_int (start (entry e)) = Some s ->
  Py.int (value (entry e)) = Some n ->
  IPv4Address q = Some a ->
  s <= a <= s + n - 1 ->
  exists row,
    In row (ipv4_ranges d')
    /\ V4.start_ip row <= a <= V4.end_ip row
    /\ V4.end_ip row - V4.start_ip row <= n - 1
    /\ lookup_ip d' q = Ret (Some (result_of_row4 (str_ipv4 a) row)).
Proof.
  intros Hi He Ht Hs Hn Hq Ha.
  destruct (stored_row4 d d' es e
              (s, s + n - 1, country_code (entry e), rir e, date (entry e),
               status (entry e)) Hi He Ht) as (row0 & Hin0 & Hc0).
  { unfold ipv4_tuple. rewrite Hn, Hs. reflexivity. }
  destruct row0 as [i0 s0 e0 cc0 r0 da0 st0]. cbn in Hc0. injection Hc0 as -> -> _ _ _ _.
  rewrite (lookup_ip_v4 d' q a Hq).
  set (row0 := V4.mkRow i0 s (s + n - 1) cc0 r0 da0 st0) in *.
  assert (Hf : In row0 (filter (covers a) (ipv4_ranges d'))).
  { apply filter_In. split; [exact Hin0|]. apply covers_iff. cbn. lia. }
  destruct (order_by_limit_1_least width (filter (covers a) (ipv4_ranges d')))
    as (best & Hb & Hbin & Hleast).
  { intros E. rewrite E in Hf. exact Hf. }
  exists best. apply filter_In in Hbin as [Hbin Hbc]. apply covers_iff in Hbc.
  specialize (Hleast row0 Hf). unfold width in Hleast. cbn in Hleast.
  rewrite Hb. repeat split; try tauto. lia.
Qed.

(** X11: an IPv6 record that was inserted with a prefix length
    between 0 and 128 and an address that parses is found: for every
    address that agrees with the record's on the prefix bits,
    [lookup_ip] answers with a stored row whose network contains the
    address. *)
Theorem X11_stored_ipv6_record_is_found
  (d d' : Database) (es : list RirEntry) (e : RirEntry) (na a : IPv6Addr) (p : Z)
  (q : string) :
  insert_entries_to_db d es = Ret d' -> In e es ->
  type (entry e) = "ipv6" ->
  IPv6Address (start (entry e)) = Some na ->
  Py.int (value (entry e)) = Some p ->
  0 <= p <= 128 ->
  IPv6Address q = Some a ->
  Z.land (ip a) (ip_int_from_prefix p) = Z.land (ip na) (ip_int_from_prefix p) ->
  exists row net,
    In row (ipv6_ranges d')
    /\ row_network row = Some net
    /\ net_contains net a = true
    /\ lookup_ip d' q = Ret (Some (result_of_row6 (str_ipv6 a) row net)).
Proof.
  intros Hi He Ht Hna Hp Hr Hq Ha.
  destruct (stored_row6 d d' es e
              (start (entry e), p, country_code (entry e), rir e, date (entry e),
               status (entry e)) Hi He Ht) as (row0 & Hin0 & Hc0).
  { unfold ipv6_tuple. rewrite Hp. reflexivity. }
  rewrite (lookup_ip_v6 d' q a (ipv6_text_is_not_ipv4 q a Hq) Hq).
  destruct (scan_ipv6 (ipv6_ranges d') a (str_ipv6 a)) as [res|] eqn:Es.
  - apply scan_ipv6_first_match in Es
      as (before & row & after & net & Hrows & Hnet & Hc & _ & ->).
    exists row, net. repeat split; try assumption.
    rewrite Hrows. apply in_or_app. right. left. reflexivity.
  - exfalso. pose proof (proj1 (scan_ipv6_no_match _ _ _) Es row0) as Hno.
    pose proof (row_network_eq row0) as Hnet.
    destruct row0 as [i0 n0 p0 cc0 r0 da0 st0]. cbn in Hc0.
    injection Hc0 as -> -> _ _ _ _. cbn [V6.network V6.prefix_length] in Hnet.
    rewrite Hna in Hnet. cbn zeta in Hnet.
    replace ((0 <=? p) && (p <=? 128)) with true in Hnet
      by (symmetry; apply andb_true_iff; split; apply Z.leb_le; lia).
    specialize (Hno _ Hin0 Hnet). unfold net_contains in Hno.
    cbn [netmask network_address] in Hno. apply Z.eqb_neq in Hno. apply Hno.
    rewrite Ha.
    destruct (Z.land (ip na) (ip_int_from_prefix p) =? ip na) eqn:E; cbn [negb ip].
    + apply Z.eqb_eq, E.
    + reflexivity.
Qed.

(** X9 at the lookup of 2001:db8::1 among two nested prefixes. *)
Lemma X9_every_answer_comes_from_a_containing_row_witness :
  (exists a row,
      IPv4Address "2001:db8::1" = Some a
      /\ In row (ipv4_ranges nested_prefixes)
      /\ V4.start_ip row <= a <= V4.end_ip row
      /\ sample_result6 = result_of_row4 (str_ipv4 a) row
      /\ IPv4Address (Result.ip_address sample_result6) = Some a)
  \/ (exists a row net,
         IPv4Address "2001:db8::1" = None /\ IPv6Address "2001:db8::1" = Some a
         /\ In row (ipv6_ranges nested_prefixes)
         /\ row_network row = Some net
         /\ net_contains net a = true
         /\ sample_result6 = result_of_row6 (str_ipv6 a) row net
         /\ IPv6Address (Result.ip_address sample_result6) = Some a).
Proof.
  apply (X9_every_answer_comes_from_a_containing_row nested_prefixes "2001:db8::1"
                                                     sample_result6).
  reflexivity.
Defined.

(** X10 at the lookup of 8.8.8.8 after the insertion of 8.8.8.0 with
    count 256. *)
Lemma X10_stored_ipv4_record_is_found_witness :
  exists row,
    In row (ipv4_ranges sample_database)
    /\ V4.start_ip row <= 134744072 <= V4.end_ip row
    /\ V4.end_ip row - V4.start_ip row <= 256 - 1
    /\ lookup_ip sample_database "8.8.8.8"
       = Ret (Some (result_of_row4 (str_ipv4 134744072) row)).
Proof.
  apply (X10_stored_ipv4_record_is_found empty_database sample_database
           [mkRirEntry sample_entry "ARIN"] (mkRirEntry sample_entry "ARIN")
           134744064 256 134744072 "8.8.8.8");
    try reflexivity; [left; reflexivity | lia].
Defined.

(** X11 at the lookup of 2001:db8::1 after the insertion of
    2001:db8::/32. *)
Lemma X11_stored_ipv6_record_is_found_witness :
  exists row net,
    In row (ipv6_ranges nested_prefixes)
    /\ row_network row = Some net
    /\ net_contains net (mkIPv6Addr 42540766411282592856903984951653826561 None) = true
    /\ lookup_ip nested_prefixes "2001:db8::1"
       = Ret (Some (result_of_row6
                      (str_ipv6 (mkIPv6Addr 42540766411282592856903984951653826561 None))
                      row net)).
Proof.
  apply (X11_stored_ipv6_record_is_found empty_database nested_prefixes
           (process_rir_data nested_prefixes_file "APNIC")
           (mkRirEntry (mkEntry "apnic" "AU" "ipv6" "2001:db8::" "32" "20100101"
                                "allocated") "APNIC")
           (mkIPv6Addr 42540766411282592856903984951653826560 None)
           (mkIPv6Addr 42540766411282592856903984951653826561 None)
           32 "2001:db8::1");
    try reflexivity; [left; reflexivity | lia].
Defined.

End LookupAnswers.

(** ** Spellings of an IPv6 query *)

Section Ipv6Queries.
Import Py ipaddress.

Lemma scan_ipv6_number (rows : list V6.row) (a1 a2 : IPv6Addr) (t1 t2 : string) :
  ip a1 = ip a2 ->
  option_map row_attributes (scan_ipv6 rows a1 t1)
  = option_map row_attributes (scan_ipv6 rows a2 t2).
Proof.
  intros H. induction rows as [|row rest IH]; [reflexivity|].
  cbn [scan_ipv6].
  destruct (IPv6Network (V6.network row ++ "/" ++ str_int (V6.prefix_length row)))
    as [net|]; [|exact IH].
  rewrite (net_contains_ip net a2 a1 H).
  destruct (net_contains net a2); [reflexivity | exact IH].
Qed.

(** X12: the answer to an IPv6 query depends on the 128-bit number
    of the address and on the IPv6 table only.  Two texts of the same
    number (other case, zeros written out, a zone id) get the
    attributes of the same stored row, each with its own canonical
    text as address, and the rows of the IPv4 table are never
    consulted. *)
Theorem X12_ipv6_answer_depends_on_the_number_only
  (d : Database) (q1 q2 : string) (a1 a2 : IPv6Addr) :
  IPv6Address q1 = Some a1 -> IPv6Address q2 = Some a2 -> ip a1 = ip a2 ->
  exists found1 found2,
    lookup_ip d q1 = Ret found1 /\ lookup_ip d q2 = Ret found2
    /\ option_map row_attributes found1 = option_map row_attributes found2
    /\ (forall r, found1 = Some r -> Result.ip_address r = str_ipv6 a1)
    /\ (forall r, found2 = Some r -> Result.ip_address r = str_ipv6 a2)
    /\ (forall ipv4_table,
           lookup_ip (mkDatabase ipv4_table (ipv6_ranges d) (ipv4_seq d) (ipv6_seq d)
                                 (metadata d)) q1
           = Ret found1).
Proof.
  intros H1 H2 Hip.
  exists (scan_ipv6 (ipv6_ranges d) a1 (str_ipv6 a1)),
         (scan_ipv6 (ipv6_ranges d) a2 (str_ipv6 a2)).
  rewrite (lookup_ip_v6 d q1 a1 (ipv6_text_is_not_ipv4 q1 a1 H1) H1).
  rewrite (lookup_ip_v6 d q2 a2 (ipv6_text_is_not_ipv4 q2 a2 H2) H2).
  split; [reflexivity|]. split; [reflexivity|].
  split; [apply scan_ipv6_number, Hip|].
  assert (Ha : forall rows a t r, scan_ipv6 rows a t = Some r -> Result.ip_address r = t).
  { intros rows a t r H. apply scan_ipv6_first_match in H
      as (? & ? & ? & ? & _ & _ & _ & _ & ->). reflexivity. }
  split; [intros r; apply Ha|]. split; [intros r; apply Ha|].
  intros t4. rewrite (lookup_ip_v6 _ q1 a1 (ipv6_text_is_not_ipv4 q1 a1 H1) H1).
  reflexivity.
Qed.

(** X12 at two spellings of 2001:db8::1, one with a zone id. *)
Lemma X12_ipv6_answer_depends_on_the_number_only_witness :
  exists found1 found2,
    lookup_ip nested_prefixes "2001:DB8::1" = Ret found1
    /\ lookup_ip nested_prefixes "2001:db8:0:0:0:0:0:1%eth0" = Ret found2
    /\ option_map row_attributes found1 = option_map row_attributes found2
    /\ (forall r, found1 = Some r ->
                  Result.ip_address r
                  = str_ipv6 (mkIPv6Addr 42540766411282592856903984951653826561 None))
    /\ (forall r, found2 = Some r ->
                  Result.ip_address r
                  = str_ipv6 (mkIPv6Addr 42540766411282592856903984951653826561
                                         (Some "eth0")))
    /\ (forall ipv4_table,
           lookup_ip (mkDatabase ipv4_table (ipv6_ranges nested_prefixes)
                                 (ipv4_seq nested_prefixes) (ipv6_seq nested_prefixes)
                                 (metadata nested_prefixes)) "2001:DB8::1"
           = Ret found1).
Proof.
  apply (X12_ipv6_answer_depends_on_the_number_only nested_prefixes
           "2001:DB8::1" "2001:db8:0:0:0:0:0:1%eth0"
           (mkIPv6Addr 42540766411282592856903984951653826561 None)
           (mkIPv6Addr 42540766411282592856903984951653826561 (Some "eth0")));
    reflexivity.
Defined.

End Ipv6Queries.

(** ** [ip_to_int] and the dotted quad *)

Section Ipv4Canonical.
Import Py ipaddress.

Lemma is_digit_In (c : ascii) : is_digit c = true -> In c digit_chars.
Proof.
  destruct c as [[] [] [] [] [] [] [] []]; intros H; try discriminate H;
    unfold digit_chars; repeat first [left; reflexivity | right].
Qed.

Lemma digit_strings_In (s : string) :
  all_chars is_digit s = true -> In s (digit_strings (String.length s)).
Proof.
  induction s as [|c r IH]; [intros _; left; reflexivity|].
  cbn [all_chars String.length digit_strings]. intros H.
  apply andb_true_iff in H as [Hc Hr]. apply in_flat_map. exists c.
  split; [apply is_digit_In, Hc | apply in_map, IH, Hr].
Qed.

Lemma parse_octet_text (o : string) (b : Z) :
  parse_octet o = Some b -> str_int b = o.
Proof.
  intros H.
  assert (A : forallb octet_canonical
                (digit_strings 1 ++ digit_strings 2 ++ digit_strings 3) = true)
    by (vm_compute; reflexivity).
  rewrite forallb_forall in A.
  assert (Hin : In o (digit_strings 1 ++ digit_strings 2 ++ digit_strings 3)).
  { revert H. unfold parse_octet. destruct (is_empty o) eqn:Ee; [discriminate|].
    destruct (all_chars is_digit o) eqn:Hd; [|discriminate]. cbn [negb].
    destruct (3 <? len o) eqn:Hl; [discriminate|]. intros _.
    apply Z.ltb_ge in Hl. unfold len in Hl.
    pose proof (digit_strings_In o Hd) as Hin.
    destruct o as [|c1 [|c2 [|c3 [|c4 r]]]]; [discriminate Ee| | | |];
      cbn [String.length] in *; [| | |lia].
    - apply in_or_app. left. exact Hin.
    - apply in_or_app. right. apply in_or_app. left. exact Hin.
    - apply in_or_app. right. apply in_or_app. right. exact Hin. }
  specialize (A o Hin). unfold octet_canonical in A. rewrite H in A.
  apply String.eqb_eq, A.
Qed.

Lemma join_split (sep : ascii) (s : string) :
  join (String sep "") (split sep s) = s.
Proof.
  induction s as [|c r IH]; [reflexivity|].
  rewrite split_String. destruct (split_cons sep r) as (f & fs & E).
  rewrite E in *. destruct (Ascii.eqb c sep) eqn:Ec.
  - apply Ascii.eqb_eq in Ec. subst c.
    change (join (String sep "") ("" :: f :: fs))
      with ("" ++ String sep "" ++ join (String sep "") (f :: fs)).
    rewrite IH. reflexivity.
  - destruct fs as [|g gs].
    + cbn [join] in *. rewrite IH. reflexivity.
    + change (join (String sep "") (String c f :: g :: gs))
        with (String c (f ++ String sep "" ++ join (String sep "") (g :: gs))).
      change (join (String sep "") (f :: g :: gs))
        with (f ++ String sep "" ++ join (String sep "") (g :: gs)) in IH.
      rewrite IH. reflexivity.
Qed.

Lemma to_from_bytes4 (b3 b2 b1 b0 : Z) :
  0 <= b3 < 256 -> 0 <= b2 < 256 -> 0 <= b1 < 256 -> 0 <= b0 < 256 ->
  to_bytes4_big (from_bytes_big [b3; b2; b1; b0]) = [b3; b2; b1; b0].
Proof.
  intros H3 H2 H1 H0. unfold from_bytes_big, to_bytes4_big. cbn [map fold_left].
  change 255 with (Z.ones 8). rewrite !Z.land_ones by lia.
  rewrite !Z.shiftr_div_pow2 by lia.
  change (2 ^ 24) with 16777216. change (2 ^ 16) with 65536.
  change (2 ^ 8) with 256. change (2 ^ 0) with 1.
  repeat f_equal; Z.to_euclidean_division_equations; lia.
Qed.

(** The only text that reads as an address is its dotted quad. *)
Lemma ipv4_text_canonical (s : string) (a : Z) :
  IPv4Address s = Some a -> str_ipv4 a = s.
Proof.
  unfold IPv4Address, ipv4_int_from_string.
  destruct (contains "/" s); [discriminate|].
  destruct (is_empty s); [discriminate|].
  destruct (Z.of_nat (List.length (split "." s)) =? 4) eqn:L; [|discriminate].
  apply Z.eqb_eq in L. cbn [negb].
  pose proof (join_split "." s) as Hj.
  destruct (split "." s) as [|o3 [|o2 [|o1 [|o0 [|]]]]];
    cbn [List.length] in L; try lia.
  cbn [map all_some].
  destruct (parse_octet o3) as [b3|] eqn:P3; [|discriminate].
  destruct (parse_octet o2) as [b2|] eqn:P2; [|discriminate].
  destruct (parse_octet o1) as [b1|] eqn:P1; [|discriminate].
  destruct (parse_octet o0) as [b0|] eqn:P0; [|discriminate].
  cbn [option_map]. intros H. injection H as <-.
  unfold str_ipv4. rewrite to_from_bytes4 by (eapply parse_octet_range; eassumption).
  cbn [map]. rewrite (parse_octet_text _ _ P3), (parse_octet_text _ _ P2),
    (parse_octet_text _ _ P1), (parse_octet_text _ _ P0). exact Hj.
Qed.

(** X13: [ip_to_int] accepts exactly the canonical dotted quads.  The
    number it returns is below 2^32 and prints as the text it was read
    from; every number below 2^32 is read back from its dotted quad;
    so no two texts give the same number. *)
Theorem X13_ip_to_int_reads_canonical_dotted_quads :
  (forall s n, ip_to_int s = Some n -> 0 <= n < 2 ^ 32 /\ str_ipv4 n = s)
  /\ (forall n, 0 <= n < 2 ^ 32 -> ip_to_int (str_ipv4 n) = Some n)
  /\ (forall s1 s2 n, ip_to_int s1 = Some n -> ip_to_int s2 = Some n -> s1 = s2).
Proof.
  unfold ip_to_int. split; [|split].
  - intros s n H. split; [eapply IPv4Address_range, H | apply ipv4_text_canonical, H].
  - apply ipv4_text_roundtrip.
  - intros s1 s2 n H1 H2. apply ipv4_text_canonical in H1, H2. congruence.
Qed.

End Ipv4Canonical.

(** ** Dates of eight digits *)

Section DigitDates.
Import Py Strptime.

Lemma hd_error_map {A B : Type} (g : A -> B) (l : list A) :
  hd_error (map g l) = option_map g (hd_error l).
Proof. destruct l; reflexivity. Qed.

Lemma map_flat_map' {A B C : Type} (g : B -> C) (f : A -> list B) (l : list A) :
  map g (flat_map f l) = flat_map (fun x => map g (f x)) l.
Proof.
  induction l as [|x r IH]; [reflexivity|].
  cbn [flat_map]. rewrite map_app, IH. reflexivity.
Qed.

Lemma format_match_year (y1 y2 y3 y4 : ascii) (r : string) :
  is_digit y1 = true -> is_digit y2 = true -> is_digit y3 = true ->
  is_digit y4 = true ->
  format_match (String y1 (String y2 (String y3 (String y4 r))))
  = option_map (fun '(m, d, r3) =>
                  (String y1 (String y2 (String y3 (String y4 ""))), m, d, r3))
               (month_day_match r).
Proof.
  intros H1 H2 H3 H4. unfold format_match, month_day_match.
  assert (E : alternatives re_Y (String y1 (String y2 (String y3 (String y4 r))))
              = [(String y1 (String y2 (String y3 (String y4 ""))), r)]).
  { unfold alternatives. cbn [re_Y flat_map eat]. rewrite H1, H2, H3, H4.
    reflexivity. }
  rewrite E. cbn [flat_map]. rewrite app_nil_r.
  rewrite <- hd_error_map, map_flat_map'. f_equal.
  apply flat_map_ext. intros [m r2]. rewrite map_map.
  apply map_ext. intros [d r3]. reflexivity.
Qed.

Lemma valid_date_plausible (y m d : Z) :
  valid_date y m d = true ->
  (1 <=? m) && (m <=? 12) && (1 <=? d) && (d <=? 31) = true.
Proof.
  unfold valid_date, days_in_month. intros H.
  repeat (apply andb_true_iff in H as [H ?]).
  repeat (apply andb_true_iff; split); try assumption.
  apply Z.leb_le. apply Z.leb_le in H0.
  destruct (m =? 2); [destruct (is_leap y); lia|].
  destruct ((m =? 4) || (m =? 6) || (m =? 9) || (m =? 11)); lia.
Qed.

Lemma month_days_ok (r : string) :
  all_chars is_digit r = true -> String.length r = 4%nat -> month_day_ok r = true.
Proof.
  intros Hd Hl.
  assert (A : forallb month_day_ok (digit_strings 4) = true) by (vm_compute; reflexivity).
  rewrite forallb_forall in A. apply A. rewrite <- Hl. apply digit_strings_In, Hd.
Qed.

Lemma strptime_digits (f : string) :
  len f = 8 -> all_chars is_digit f = true ->
  (if Spec.calendar_date8 f then strptime_Ymd f <> None else strptime_Ymd f = None).
Proof.
  intros Hl Hd. unfold Spec.calendar_date8. rewrite Hd.
  replace (len f =? 8) with true by (symmetry; apply Z.eqb_eq, Hl).
  cbn [andb]. unfold len in Hl.
  destruct f as [|y1 [|y2 [|y3 [|y4 r]]]]; cbn [String.length] in Hl; try lia.
  cbn [all_chars] in Hd.
  apply andb_true_iff in Hd as [D1 Hd]. apply andb_true_iff in Hd as [D2 Hd].
  apply andb_true_iff in Hd as [D3 Hd]. apply andb_true_iff in Hd as [D4 Hd].
  assert (Hr : String.length r = 4%nat) by lia.
  pose proof (month_days_ok r Hd Hr) as Hok.
  unfold strptime_Ymd. rewrite (format_match_year y1 y2 y3 y4 r D1 D2 D3 D4).
  change (substring 0 4 (String y1 (String y2 (String y3 (String y4 r)))))
    with (String y1 (String y2 (String y3 (String y4 (substring 0 0 r))))).
  replace (substring 0 0 r) with "" by (destruct r; reflexivity).
  change (substring 4 2 (String y1 (String y2 (String y3 (String y4 r)))))
    with (substring 0 2 r).
  change (substring 6 2 (String y1 (String y2 (String y3 (String y4 r)))))
    with (substring 2 2 r).
  set (y := String y1 (String y2 (String y3 (String y4 "")))).
  assert (Hy : int y = Some (of_digits 10 digit_val y 0)).
  { rewrite int_digits; [reflexivity | discriminate|].
    subst y. cbn [all_chars]. rewrite D1, D2, D3, D4. reflexivity. }
  unfold month_day_ok in Hok. cbv zeta in Hok.
  set (M := of_digits 10 digit_val (substring 0 2 r) 0) in *.
  set (D := of_digits 10 digit_val (substring 2 2 r) 0) in *.
  set (Y := of_digits 10 digit_val y 0) in *.
  destruct (month_day_match r) as [[[m d] rest]|]; cbn [option_map].
  - destruct (is_empty rest); cbn [negb].
    + rewrite Hy. destruct (int m) as [mv|]; [|discriminate Hok].
      destruct (int d) as [dv|]; [|discriminate Hok].
      apply andb_true_iff in Hok as [Em Ed].
      apply Z.eqb_eq in Em, Ed. subst mv dv.
      destruct (valid_date Y M D); [discriminate | reflexivity].
    + destruct (valid_date Y M D) eqn:Ev; [|reflexivity].
      apply valid_date_plausible in Ev. rewrite Ev in Hok. discriminate Hok.
  - destruct (valid_date Y M D) eqn:Ev; [|reflexivity].
    apply valid_date_plausible in Ev. rewrite Ev in Hok. discriminate Hok.
Qed.

(** X14: when the date field of an accepted line consists of eight
    digits, the record keeps it exactly when it is a calendar date
    (year 1 to 9999, month 1 to 12, a day of that month, leap years
    counted) and holds the empty text otherwise. *)
Theorem X14_eight_digit_date_kept_iff_calendar_date (line : string) (e : Entry) :
  parse_rir_line line = Some e ->
  len (Spec.field 5 line) = 8 ->
  all_chars is_digit (Spec.field 5 line) = true ->
  date e = if Spec.calendar_date8 (Spec.field 5 line) then Spec.field 5 line else "".
Proof.
  intros Hp Hl Hd. rewrite parse_rir_line_cascade in Hp.
  destruct (Spec.comment_at_line_start line || Spec.blank line); [discriminate|].
  destruct (Spec.field_count line <? 7); [discriminate|].
  destruct (Spec.bad_country _ || Spec.bad_family _); [discriminate|].
  injection Hp as <-. cbn [date]. unfold validate_date.
  replace (len (Spec.field 5 line) =? 8) with true by (symmetry; apply Z.eqb_eq, Hl).
  replace (is_empty (Spec.field 5 line)) with false
    by (destruct (Spec.field 5 line); [discriminate Hl | reflexivity]).
  cbn [negb andb].
  pose proof (strptime_digits _ Hl Hd) as H.
  destruct (Spec.calendar_date8 (Spec.field 5 line)).
  - destruct (strptime_Ymd (Spec.field 5 line)); [reflexivity | congruence].
  - rewrite H. reflexivity.
Qed.

(** X14 at the thirty-first of February. *)
Lemma X14_eight_digit_date_kept_iff_calendar_date_witness :
  date (mkEntry "arin" "US" "ipv4" "8.8.8.0" "256" "" "allocated")
  = if Spec.calendar_date8
         (Spec.field 5 "arin|US|ipv4|8.8.8.0|256|20140231|allocated")
    then Spec.field 5 "arin|US|ipv4|8.8.8.0|256|20140231|allocated"
    else "".
Proof.
  apply (X14_eight_digit_date_kept_iff_calendar_date
           "arin|US|ipv4|8.8.8.0|256|20140231|allocated"
           (mkEntry "arin" "US" "ipv4" "8.8.8.0" "256" "" "allocated"));
    reflexivity.
Defined.

End DigitDates.

(** ** [cidr_to_range] *)

Section CidrRange.
Import Py ipaddress.

Lemma masks_of_prefix (p : Z) :
  0 <= p <= 32 ->
  IPv4Net.ip_int_from_prefix p = Z.shiftl (Z.ones p) (32 - p)
  /\ Z.lxor (IPv4Net.ip_int_from_prefix p) IPv4Net.ALL_ONES = Z.ones (32 - p).
Proof.
  intros H.
  assert (A : forallb masks_ok (range_from 33 0) = true) by (vm_compute; reflexivity).
  rewrite forallb_forall in A. specialize (A p (range_from_In 33 0 p ltac:(lia))).
  unfold masks_ok in A. apply andb_true_iff in A as [A1 A2].
  apply Z.eqb_eq in A1, A2. auto.
Qed.

Lemma land_high_bits (a p k : Z) :
  0 <= k -> 0 <= p -> 0 <= a < 2 ^ (p + k) ->
  Z.land a (Z.shiftl (Z.ones p) k) = a - a mod 2 ^ k.
Proof.
  intros Hk Hp Ha.
  assert (E : a - a mod 2 ^ k = Z.shiftl (Z.shiftr a k) k).
  { rewrite Z.shiftl_mul_pow2, Z.shiftr_div_pow2 by lia.
    pose proof (Z.div_mod a (2 ^ k) ltac:(lia)). lia. }
  rewrite E. apply Z.bits_inj'. intros n Hn.
  rewrite Z.land_spec. destruct (Z.lt_ge_cases n k) as [Hlt|Hge].
  - rewrite !Z.shiftl_spec_low by lia. apply andb_false_r.
  - rewrite !Z.shiftl_spec by lia. rewrite Z.shiftr_spec by lia.
    replace (n - k + k) with n by lia.
    destruct (Z.lt_ge_cases (n - k) p) as [Hlp|Hgp].
    + rewrite Z.ones_spec_low by lia. apply andb_true_r.
    + rewrite Z.ones_spec_high by lia. rewrite andb_false_r.
      symmetry. destruct (Z.eq_dec a 0) as [->|Hne]; [apply Z.bits_0|].
      apply Z.bits_above_log2; [lia|].
      apply Z.log2_lt_pow2; [lia|].
      eapply Z.lt_le_trans; [apply Ha|]. apply Z.pow_le_mono_r; lia.
Qed.

Lemma lor_low_bits (x k : Z) :
  0 <= k -> Z.lor (Z.shiftl x k) (Z.ones k) = Z.shiftl x k + Z.ones k.
Proof.
  intros Hk. symmetry. rewrite Z.add_nocarry_lxor; [apply Z.lxor_lor|].
  - apply Z.bits_inj'. intros n Hn. rewrite Z.land_spec, Z.bits_0.
    destruct (Z.lt_ge_cases n k).
    + rewrite Z.shiftl_spec_low by lia. reflexivity.
    + rewrite Z.ones_spec_high by lia. apply andb_false_r.
  - apply Z.bits_inj'. intros n Hn. rewrite Z.land_spec, Z.bits_0.
    destruct (Z.lt_ge_cases n k).
    + rewrite Z.shiftl_spec_low by lia. reflexivity.
    + rewrite Z.ones_spec_high by lia. apply andb_false_r.
Qed.

Lemma prefix_of_str_int4 (p : Z) :
  IPv4Net.prefix_from_prefix_string (str_int p)
  = if (0 <=? p) && (p <=? 32) then Some p else None.
Proof.
  unfold IPv4Net.prefix_from_prefix_string.
  destruct (Z.lt_ge_cases p 0) as [Hneg|Hpos].
  - destruct (str_int_negative p Hneg) as (r & ->).
    replace (0 <=? p) with false by (symmetry; apply Z.leb_gt; lia). reflexivity.
  - destruct (str_int_nonneg p Hpos) as (Hd & Hne & Hv).
    rewrite Hd. destruct (str_int p) eqn:E; [congruence|]. rewrite <- E in *.
    replace (is_empty (str_int p)) with false by (rewrite E; reflexivity).
    cbn [negb andb]. rewrite (int_digits _ Hne Hd), Hv.
    destruct (int_max_str_digits <? N.of_nat (String.length (str_int p)))%N eqn:El.
    + replace ((0 <=? p) && (p <=? 32)) with false; [reflexivity|].
      symmetry. apply andb_false_iff. right. apply Z.leb_gt.
      apply N.ltb_lt in El.
      destruct (Z.le_gt_cases p 32) as [Hle|]; [|assumption]. exfalso.
      assert (A : forallb (fun q => (N.of_nat (String.length (str_int q)) <=? 2)%N)
                          (range_from 33 0) = true) by (vm_compute; reflexivity).
      rewrite forallb_forall in A.
      specialize (A p (range_from_In 33 0 p ltac:(lia))). apply N.leb_le in A.
      unfold int_max_str_digits in El. lia.
    + unfold IPv4Net.max_prefixlen. destruct ((0 <=? p) && (p <=? 32)); reflexivity.
Qed.

Lemma mask_text_is_no_dotted_quad (p : Z) :
  IPv4Net.prefix_from_ip_string (str_int p) = None.
Proof.
  unfold IPv4Net.prefix_from_ip_string, ipv4_int_from_string.
  destruct (is_empty (str_int p)); [reflexivity|].
  rewrite split_no_sep by (apply str_int_contains; reflexivity). reflexivity.
Qed.

Lemma make_netmask_str_int (p : Z) :
  IPv4Net.make_netmask (str_int p)
  = if (0 <=? p) && (p <=? 32) then Some (IPv4Net.ip_int_from_prefix p, p) else None.
Proof.
  unfold IPv4Net.make_netmask. rewrite prefix_of_str_int4, mask_text_is_no_dotted_quad.
  destruct ((0 <=? p) && (p <=? 32)); reflexivity.
Qed.

Lemma network_of_text (s : string) (p : Z) :
  IPv4Net.IPv4Network (s ++ "/" ++ str_int p) =
  match IPv4Address s with
  | None => None
  | Some a =>
      if (0 <=? p) && (p <=? 32) then
        Some (IPv4Net.mk
                (if negb (Z.land a (IPv4Net.ip_int_from_prefix p) =? a)
                 then Z.land a (IPv4Net.ip_int_from_prefix p) else a)
                (IPv4Net.ip_int_from_prefix p) p)
      else None
  end.
Proof.
  unfold IPv4Net.IPv4Network.
  change (s ++ "/" ++ str_int p) with (s ++ String "/" (str_int p)).
  rewrite split_app.
  rewrite (split_no_sep "/" (str_int p)) by (apply str_int_contains; reflexivity).
  destruct (contains "/" s) eqn:Es.
  - assert (Hn : IPv4Address s = None) by (unfold IPv4Address; rewrite Es; reflexivity).
    rewrite Hn. pose proof (count_contains "/" s Es) as Hc.
    pose proof (split_length "/" s) as Hl.
    destruct (split "/" s) as [|x [|y l]]; cbn [List.length] in Hl; [lia|lia|].
    rewrite length_app. cbn [List.length app].
    destruct (2 <? _); [reflexivity|].
    destruct l; cbn [app]; [|reflexivity].
    destruct (IPv4Address x); reflexivity.
  - rewrite (split_no_sep "/" s Es). cbn [app List.length Z.of_nat Pos.of_succ_nat
      Pos.succ Z.ltb Z.compare Pos.compare Pos.compare_cont].
    destruct (IPv4Address s) as [a|]; [|reflexivity].
    rewrite make_netmask_str_int. destruct ((0 <=? p) && (p <=? 32)); reflexivity.
Qed.

(** X15: [cidr_to_range] raises exactly when the address is not a
    dotted quad or the prefix length is outside 0-32.  Otherwise it
    returns the address with its host bits cleared and that number
    plus 2^(32 - prefix) - 1: a range inside the 32-bit space that
    contains the address. *)
Theorem X15_cidr_to_range_bounds (network_str : string) (prefix_length : Z) :
  (cidr_to_range network_str prefix_length = None
   <-> IPv4Address network_str = None \/ prefix_length < 0 \/ 32 < prefix_length)
  /\ (forall lo hi,
         cidr_to_range network_str prefix_length = Some (lo, hi) ->
         exists a,
           IPv4Address network_str = Some a
           /\ lo = a - a mod 2 ^ (32 - prefix_length)
           /\ hi = lo + 2 ^ (32 - prefix_length) - 1
           /\ 0 <= lo <= a /\ a <= hi < 2 ^ 32).
Proof.
  unfold cidr_to_range. rewrite network_of_text.
  destruct (IPv4Address network_str) as [a|] eqn:Ea.
  2:{ split; [split; auto|]. intros lo hi H. discriminate H. }
  destruct ((0 <=? prefix_length) && (prefix_length <=? 32)) eqn:Ep.
  2:{ split; [|intros lo hi H; discriminate H].
      split; [intros _; right|reflexivity].
      apply andb_false_iff in Ep as [Ep|Ep]; apply Z.leb_gt in Ep; lia. }
  apply andb_true_iff in Ep as [Ep1 Ep2]. apply Z.leb_le in Ep1, Ep2.
  split.
  { split; [discriminate|]. intros [H|H]; [discriminate H | lia]. }
  intros lo hi H. injection H as <- <-. exists a. split; [reflexivity|].
  pose proof (IPv4Address_range _ _ Ea) as Ha.
  destruct (masks_of_prefix prefix_length ltac:(lia)) as [Hm Hh].
  set (k := 32 - prefix_length) in *.
  assert (Hland : Z.land a (IPv4Net.ip_int_from_prefix prefix_length) = a - a mod 2 ^ k).
  { rewrite Hm. apply land_high_bits; try lia.
    replace (prefix_length + k) with 32 by lia. exact Ha. }
  assert (Hlo : (if negb (Z.land a (IPv4Net.ip_int_from_prefix prefix_length) =? a)
                 then Z.land a (IPv4Net.ip_int_from_prefix prefix_length) else a)
                = a - a mod 2 ^ k).
  { destruct (Z.land a (IPv4Net.ip_int_from_prefix prefix_length) =? a) eqn:E;
      cbn [negb]; [|exact Hland]. apply Z.eqb_eq in E. congruence. }
  unfold IPv4Net.broadcast_address, IPv4Net.hostmask.
  cbn [IPv4Net.network_address IPv4Net.netmask]. rewrite Hlo, Hh.
  assert (Hk : 0 < 2 ^ k) by (apply Z.pow_pos_nonneg; lia).
  pose proof (Z.mod_pos_bound a (2 ^ k) Hk) as Hmod.
  assert (Hshift : a - a mod 2 ^ k = Z.shiftl (a / 2 ^ k) k).
  { rewrite Z.shiftl_mul_pow2 by lia.
    pose proof (Z.div_mod a (2 ^ k) ltac:(lia)). lia. }
  split; [reflexivity|]. split.
  { rewrite Hshift, lor_low_bits by lia. rewrite Z.ones_equiv. lia. }
  rewrite Hshift, lor_low_bits by lia. rewrite <- Hshift, Z.ones_equiv.
  assert (Hdiv : a / 2 ^ k < 2 ^ prefix_length).
  { apply Z.div_lt_upper_bound; [lia|]. rewrite <- Z.pow_add_r by lia.
    replace (k + prefix_length) with 32 by lia. lia. }
  assert (Hpow : 2 ^ 32 = 2 ^ prefix_length * 2 ^ k).
  { rewrite <- Z.pow_add_r by lia. f_equal. lia. }
  pose proof (Z.div_mod a (2 ^ k) ltac:(lia)) as Hdm.
  rewrite Hpow in *. repeat split; try lia; nia.
Qed.

(** X15 at 192.0.2.77/24. *)
Lemma X15_cidr_to_range_bounds_witness :
  exists a,
    IPv4Address "192.0.2.77" = Some a
    /\ 3221225984 = a - a mod 2 ^ (32 - 24)
    /\ 3221226239 = 3221225984 + 2 ^ (32 - 24) - 1
    /\ 0 <= 3221225984 <= a /\ a <= 3221226239 < 2 ^ 32.
Proof.
  apply (proj2 (X15_cidr_to_range_bounds "192.0.2.77" 24) 3221225984 3221226239).
  reflexivity.
Defined.

End CidrRange.

(** ** [_get_file_size] *)

Section FileSize.

Lemma round_half_even_error (num den : Z) :
  0 < den -> 2 * Z.abs (num - round_half_even num den * den) <= den.
Proof.
  intros Hd. unfold round_half_even.
  pose proof (Z.div_mod num den ltac:(lia)) as E.
  pose proof (Z.mod_pos_bound num den Hd) as B.
  set (q := num / den) in *. set (r := num mod den) in *.
  destruct (2 * r <? den) eqn:E1; [apply Z.ltb_lt in E1; nia|].
  apply Z.ltb_ge in E1.
  destruct (den <? 2 * r) eqn:E2; [apply Z.ltb_lt in E2; nia|].
  apply Z.ltb_ge in E2. destruct (Z.even q); nia.
Qed.

Lemma round_half_even_bounds (num den lo hi : Z) :
  0 < den -> lo * den <= num <= hi * den ->
  lo <= round_half_even num den <= hi.
Proof.
  intros Hd H. pose proof (round_half_even_error num den Hd) as E.
  set (t := round_half_even num den) in *. split.
  - destruct (Z.lt_ge_cases t lo) as [Hlt|]; [|assumption]. exfalso.
    assert (t + 1 <= lo) by lia. nia.
  - destruct (Z.lt_ge_cases hi t) as [Hlt|]; [|lia]. exfalso.
    assert (hi + 1 <= t) by lia. nia.
Qed.

Lemma format_1f_unit (num den : Z) (unit : string) :
  format_1f num den ++ " " ++ unit
  = Py.str_int (round_half_even (10 * num) den / 10) ++ "."
    ++ Py.str_int (round_half_even (10 * num) den mod 10) ++ " " ++ unit.
Proof. unfold format_1f. cbv zeta. rewrite !string_app_assoc. reflexivity. Qed.

Lemma size_loop_units (n : Z) :
  1024 <= n ->
  size_loop ["KB"; "MB"; "GB"] n 1024
  = format_1f n (1024 ^ Z.of_nat (unit_index n)) ++ " "
    ++ nth (unit_index n) unit_names "".
Proof.
  intros H. unfold unit_index, size_loop.
  change (1024 ^ 2) with 1048576. change (1024 ^ 3) with 1073741824.
  change (1024 ^ 4) with 1099511627776. change (1024 * 1024) with 1048576.
  change (1048576 * 1024) with 1073741824. change (1024 * 1048576) with 1073741824.
  change (1073741824 * 1024) with 1099511627776.
  change (1024 * 1073741824) with 1099511627776.
  replace (n <? 1024) with false by (symmetry; apply Z.ltb_ge; lia).
  destruct (n <? 1048576); [reflexivity|].
  destruct (n <? 1073741824); [reflexivity|].
  destruct (n <? 1099511627776); reflexivity.
Qed.

Lemma unit_index_range (n : Z) :
  0 <= n ->
  (unit_index n <= 4)%nat
  /\ (unit_index n = 0%nat -> n < 1024)
  /\ ((0 < unit_index n)%nat -> 1024 ^ Z.of_nat (unit_index n) <= n)
  /\ ((unit_index n < 4)%nat -> n < 1024 * 1024 ^ Z.of_nat (unit_index n)).
Proof.
  intros H. unfold unit_index.
  destruct (n <? 1024) eqn:E1; [apply Z.ltb_lt in E1; cbn; lia|].
  destruct (n <? 1024 ^ 2) eqn:E2; [apply Z.ltb_lt in E2; apply Z.ltb_ge in E1; cbn in *; lia|].
  destruct (n <? 1024 ^ 3) eqn:E3; [apply Z.ltb_lt in E3; apply Z.ltb_ge in E2; cbn in *; lia|].
  destruct (n <? 1024 ^ 4) eqn:E4; [apply Z.ltb_lt in E4; apply Z.ltb_ge in E3; cbn in *; lia|].
  apply Z.ltb_ge in E4. cbn in *. lia.
Qed.

(** X16: for a size below 2^53 bytes [_get_file_size] returns a
    number with one decimal and a unit.  The unit is B below 1024
    bytes, then KB, MB, GB for each further factor of 1024, and TB
    from 1024^4 on; the number is within 0.05 of the size divided by
    the unit; bytes are shown exactly; and in the units KB, MB and GB
    the number lies between 1.0 and 1024.0, both included. *)
Theorem X16_file_size_text (size : N) :
  Z.of_N size < 2 ^ 53 ->
  exists tenths,
    _get_file_size size
    = Ret (Py.str_int (tenths / 10) ++ "." ++ Py.str_int (tenths mod 10) ++ " "
           ++ nth (unit_index (Z.of_N size)) unit_names "")
    /\ 2 * Z.abs (10 * Z.of_N size - tenths * 1024 ^ Z.of_nat (unit_index (Z.of_N size)))
       <= 1024 ^ Z.of_nat (unit_index (Z.of_N size))
    /\ (unit_index (Z.of_N size) = 0%nat -> tenths = 10 * Z.of_N size)
    /\ ((0 < unit_index (Z.of_N size))%nat -> 10 <= tenths)
    /\ ((unit_index (Z.of_N size) < 4)%nat -> tenths <= 10240).
Proof.
  intros Hbig. pose proof (N2Z.is_nonneg size) as Hpos.
  set (n := Z.of_N size) in *.
  destruct (unit_index_range n Hpos) as (Hk & H0 & Hlo & Hhi).
  assert (Hden : 0 < 1024 ^ Z.of_nat (unit_index n)) by (apply Z.pow_pos_nonneg; lia).
  exists (round_half_even (10 * n) (1024 ^ Z.of_nat (unit_index n))).
  split; [|split; [|split; [|split]]].
  - unfold _get_file_size. fold n.
    destruct (n <? 1024) eqn:E.
    + assert (Ei : unit_index n = 0%nat) by (unfold unit_index; rewrite E; reflexivity).
      rewrite Ei. change (1024 ^ Z.of_nat 0) with 1.
      rewrite <- format_1f_unit. reflexivity.
    + apply Z.ltb_ge in E. unfold float_of_int.
      replace (n <? 2 ^ 53) with true by (symmetry; apply Z.ltb_lt, Hbig).
      cbn [bind]. rewrite size_loop_units by exact E.
      rewrite format_1f_unit. reflexivity.
  - apply round_half_even_error, Hden.
  - intros Ei. rewrite Ei. change (1024 ^ Z.of_nat 0) with 1.
    unfold round_half_even. rewrite Z.div_1_r, Z.mod_1_r. reflexivity.
  - intros Hi. apply (round_half_even_bounds _ _ 10 (10 * n)); [exact Hden|].
    specialize (Hlo Hi). nia.
  - intros Hi. apply (round_half_even_bounds _ _ 0 10240); [exact Hden|].
    specialize (Hhi Hi). nia.
Qed.

(** X16 at one byte less than a mebibyte. *)
Lemma X16_file_size_text_witness :
  exists tenths,
    _get_file_size 1048575
    = Ret (Py.str_int (tenths / 10) ++ "." ++ Py.str_int (tenths mod 10) ++ " "
           ++ nth (unit_index (Z.of_N 1048575)) unit_names "")
    /\ 2 * Z.abs (10 * Z.of_N 1048575
                  - tenths * 1024 ^ Z.of_nat (unit_index (Z.of_N 1048575)))
       <= 1024 ^ Z.of_nat (unit_index (Z.of_N 1048575))
    /\ (unit_index (Z.of_N 1048575) = 0%nat -> tenths = 10 * Z.of_N 1048575)
    /\ ((0 < unit_index (Z.of_N 1048575))%nat -> 10 <= tenths)
    /\ ((unit_index (Z.of_N 1048575) < 4)%nat -> tenths <= 10240).
Proof.
  apply (X16_file_size_text 1048575). reflexivity.
Defined.

(** A size just below a mebibyte is shown with the number 1024.0. *)
Example file_size_just_below_a_unit :
  _get_file_size 1048575 = Ret "1024.0 KB"
  /\ _get_file_size 0 = Ret "0.0 B"
  /\ _get_file_size 1536 = Ret "1.5 KB"
  /\ _get_file_size 1600 = Ret "1.6 KB"
  /\ _get_file_size 1088 = Ret "1.1 KB".
Proof. repeat split. Qed.

End FileSize.

(** ** The retries of [download_rir_data] *)

Section Retry.
Import Download.

(** X17: [download_rir_data] makes between one and three requests and
    sleeps five seconds before each request after the first, never
    after the last.  It returns the text of the first attempt that
    does not raise a [RequestException], and [None] exactly when all
    three attempts raise one. *)
Theorem X17_download_retries (get : Z -> attempt) :
  1 <= requests (download_rir_data get) <= 3
  /\ slept (download_rir_data get) = 5 * (requests (download_rir_data get) - 1)
  /\ (ended (download_rir_data get) = result None
      <-> get 0 = request_exception /\ get 1 = request_exception
          /\ get 2 = request_exception)
  /\ (forall text,
         ended (download_rir_data get) = result (Some text)
         <-> get 0 = returned text
             \/ (get 0 = request_exception /\ get 1 = returned text)
             \/ (get 0 = request_exception /\ get 1 = request_exception
                 /\ get 2 = returned text))
  /\ (ended (download_rir_data get) = result None ->
      requests (download_rir_data get) = 3).
Proof.
  unfold download_rir_data. cbn [attempts].
  destruct (get 0) as [|t0|] eqn:E0, (get 1) as [|t1|] eqn:E1, (get 2) as [|t2|] eqn:E2;
    cbn; repeat split; try lia; try discriminate; try tauto;
    try (intros H; injection H as <-; tauto);
    try (intros [H|[[H1 H2]|[H1 [H2 H3]]]]; congruence);
    try (intros [H1 [H2 H3]]; congruence).
Qed.

End Retry.

(** ** The exports *)

Section Exports.

Lemma insert_by_perm {R : Type} (key : R -> Z) (r : R) (l : list R) :
  Permutation (insert_by key r l) (r :: l).
Proof.
  induction l as [|x l IH]; [apply Permutation_refl|].
  cbn [insert_by]. destruct (key r <=? key x); [apply Permutation_refl|].
  eapply perm_trans; [apply perm_skip, IH | apply perm_swap].
Qed.

Lemma order_by_perm {R : Type} (key : R -> Z) (l : list R) :
  Permutation (order_by key l) l.
Proof.
  induction l as [|x l IH]; [apply perm_nil|].
  cbn [order_by]. eapply perm_trans; [apply insert_by_perm | apply perm_skip, IH].
Qed.

Lemma insert_by_sorted {R : Type} (key : R -> Z) (r : R) (l : list R) :
  StronglySorted (fun a b => key a <= key b) l ->
  StronglySorted (fun a b => key a <= key b) (insert_by key r l).
Proof.
  induction l as [|x l IH]; intros H; [repeat constructor|].
  cbn [insert_by]. destruct (key r <=? key x) eqn:E.
  - apply Z.leb_le in E. constructor; [exact H|].
    apply StronglySorted_inv in H as [_ Hx].
    constructor; [exact E|]. eapply Forall_impl; [|exact Hx]. cbn. intros. lia.
  - apply Z.leb_gt in E. apply StronglySorted_inv in H as [Hl Hx].
    constructor; [apply IH, Hl|].
    eapply Permutation_Forall; [apply Permutation_sym, insert_by_perm|].
    constructor; [lia | exact Hx].
Qed.

Lemma order_by_sorted {R : Type} (key : R -> Z) (l : list R) :
  StronglySorted (fun a b => key a <= key b) (order_by key l).
Proof.
  induction l as [|x l IH]; [constructor|]. apply insert_by_sorted, IH.
Qed.

Lemma sorted_map {A B : Type} (f : A -> B) (RA : A -> A -> Prop)
  (RB : B -> B -> Prop) (l : list A) :
  (forall a b, RA a b -> RB (f a) (f b)) ->
  StronglySorted RA l -> StronglySorted RB (map f l).
Proof.
  intros H S. induction S as [|x l Hl IH Hx]; [constructor|].
  cbn [map]. constructor; [exact IH|].
  apply Forall_map. eapply Forall_impl; [|exact Hx]. intros a. apply H.
Qed.

(** X18: [export_to_json] and [export_to_csv] list every row of the
    IPv4 table exactly once, in ascending order of the start address,
    with the row's own start, end and country; nothing of the IPv6
    table is exported. *)
Theorem X18_exports_list_every_ipv4_range_in_start_order (d : Database) :
  Permutation (json_data d)
              (map (fun r => mkJson (V4.start_ip r) (V4.end_ip r) (V4.country_code r))
                   (ipv4_ranges d))
  /\ StronglySorted (fun a b => json_start a <= json_start b) (json_data d)
  /\ Permutation (csv_rows d) (map V4.columns (ipv4_ranges d))
  /\ StronglySorted (fun a b => start_of a <= start_of b) (csv_rows d)
  /\ List.length (json_data d) = List.length (ipv4_ranges d)
  /\ List.length (csv_rows d) = List.length (ipv4_ranges d).
Proof.
  unfold json_data, csv_rows.
  pose proof (order_by_perm V4.start_ip (ipv4_ranges d)) as P.
  pose proof (order_by_sorted V4.start_ip (ipv4_ranges d)) as S.
  split; [apply Permutation_map, P|]. split.
  { eapply sorted_map; [|exact S]. intros a b H. exact H. }
  split; [apply Permutation_map, P|]. split.
  { eapply sorted_map; [|exact S]. intros a b H. exact H. }
  rewrite !length_map. split; apply Permutation_length, P.
Qed.

End Exports.

(** ** What is stored, and when the insertion raises *)

Section StorageClaims.
Import Py ipaddress.

Lemma batch_fits_tuple4 (es : list RirEntry) (e : RirEntry) (t : V4.tuple) :
  batch_fits es = true -> In e es -> ipv4_contribution e = [t] -> bindable4 t = true.
Proof.
  intros Hf He Hc. unfold batch_fits in Hf. apply andb_true_iff in Hf as [Hf _].
  rewrite forallb_forall in Hf. apply Hf, in_flat_map. exists e.
  split; [exact He | rewrite Hc; left; reflexivity].
Qed.

Lemma batch_fits_tuple6 (es : list RirEntry) (e : RirEntry) (t : V6.tuple) :
  batch_fits es = true -> In e es -> ipv6_contribution e = [t] -> bindable6 t = true.
Proof.
  intros Hf He Hc. unfold batch_fits in Hf. apply andb_true_iff in Hf as [_ Hf].
  rewrite forallb_forall in Hf. apply Hf, in_flat_map. exists e.
  split; [exact He | rewrite Hc; left; reflexivity].
Qed.

(** C2, amended.  An IPv4 record is left out of the batch, the rest of
    the batch being treated as if the record were absent, exactly when
    its start address does not parse as a dotted quad or its count
    field is not accepted by [int].  Every other IPv4 record puts the
    row with [end = start + count - 1] into the batch, whether or not
    the count is positive and whether or not the end stays within 32
    bits.  The batch is stored, this row included, exactly when every
    integer of the batch fits in 64 bits, which the end of this row
    must then do; otherwise the insertion raises [OverflowError] and
    stores nothing. *)
Theorem C2_ipv4_exclusion (e : RirEntry) :
  type (entry e) = "ipv4" ->
  (ipv4_tuple e = None
   <-> ip_to_int (start (entry e)) = None \/ int (value (entry e)) = None)
  /\ (ipv4_tuple e = None ->
      forall d es1 es2,
        insert_entries_to_db d (es1 ++ e :: es2) = insert_entries_to_db d (es1 ++ es2))
  /\ (forall start_ip num_ips,
         ip_to_int (start (entry e)) = Some start_ip ->
         int (value (entry e)) = Some num_ips ->
         forall d es1 es2,
           (forall d',
               insert_entries_to_db d (es1 ++ e :: es2) = Ret d' ->
               In (start_ip, start_ip + num_ips - 1, country_code (entry e), rir e,
                   date (entry e), status (entry e))
                  (map V4.columns (ipv4_ranges d')))
           /\ (batch_fits (es1 ++ e :: es2) = true ->
               (exists d', insert_entries_to_db d (es1 ++ e :: es2) = Ret d')
               /\ - 2 ^ 63 <= start_ip + num_ips - 1 < 2 ^ 63)
           /\ (batch_fits (es1 ++ e :: es2) = false ->
               insert_entries_to_db d (es1 ++ e :: es2) = Raise OverflowError)
           /\ (start_ip + num_ips - 1 < - 2 ^ 63 \/ 2 ^ 63 <= start_ip + num_ips - 1 ->
               batch_fits (es1 ++ e :: es2) = false)).
Proof.
  intros Ht. split; [apply ipv4_tuple_none|]. split.
  - intros Hn d es1 es2. apply insert_entries_skip.
    + unfold ipv4_contribution. rewrite Hn. destruct (String.eqb _ _); reflexivity.
    + unfold ipv6_contribution. rewrite Ht. reflexivity.
  - intros s n Hs Hn d es1 es2.
    assert (Hc : ipv4_contribution e
                 = [(s, s + n - 1, country_code (entry e), rir e, date (entry e),
                     status (entry e))]).
    { unfold ipv4_contribution, ipv4_tuple. rewrite Ht, Hn, Hs. reflexivity. }
    assert (Hin : In e (es1 ++ e :: es2)) by (apply in_or_app; right; left; reflexivity).
    assert (Hfit : batch_fits (es1 ++ e :: es2) = true ->
                   - 2 ^ 63 <= s + n - 1 < 2 ^ 63).
    { intros Hf. pose proof (batch_fits_tuple4 _ _ _ Hf Hin Hc) as Hb.
      cbn in Hb. apply andb_true_iff in Hb as [_ Hb]. unfold fits_int64 in Hb.
      apply andb_true_iff in Hb as [H1 H2].
      apply Z.leb_le in H1. apply Z.ltb_lt in H2. lia. }
    split; [|split; [|split]].
    + intros d' Hi. apply insert_entries_stored in Hi as (H4 & _ & _). rewrite H4.
      apply in_or_app. right. apply in_flat_map. exists e.
      split; [exact Hin | rewrite Hc; left; reflexivity].
    + intros Hf. split; [|apply Hfit, Hf].
      destruct (proj1 (insert_entries_fits d _) Hf) as (d' & Hi & _). eauto.
    + apply insert_entries_fits.
    + intros Hout. destruct (batch_fits (es1 ++ e :: es2)) eqn:Ef; [|reflexivity].
      specialize (Hfit eq_refl). lia.
Qed.

(** C2 at the record with start 255.255.255.0 and count 512, which is
    stored, and at a record with count 2^63, which is not. *)
Lemma C2_ipv4_exclusion_witness :
  (ipv4_tuple (mkRirEntry (mkEntry "arin" "US" "ipv4" "255.255.255.0" "512"
                                   "20140328" "allocated") "ARIN") = None
   <-> ip_to_int "255.255.255.0" = None \/ int "512" = None)
  /\ (exists d',
         insert_entries_to_db empty_database
           ([] ++ mkRirEntry (mkEntry "arin" "US" "ipv4" "255.255.255.0" "512"
                                      "20140328" "allocated") "ARIN" :: []) = Ret d')
  /\ In (4294967040, 4294967040 + 512 - 1, "US", "ARIN", "20140328", "allocated")
        (map V4.columns
           [V4.mkRow 1 4294967040 4294967551 "US" "ARIN" "20140328" "allocated"])
  /\ insert_entries_to_db sample_database ([] ++ huge_count_entry :: [])
     = Raise OverflowError.
Proof.
  pose proof (C2_ipv4_exclusion (mkRirEntry (mkEntry "arin" "US" "ipv4" "255.255.255.0" "512"
                                          "20140328" "allocated") "ARIN")
                eq_refl) as (H1 & _ & H3).
  destruct (H3 4294967040 512 eq_refl eq_refl empty_database [] [])
    as (Hin & Hfit & _ & _).
  pose proof (C2_ipv4_exclusion huge_count_entry eq_refl) as (_ & _ & G3).
  destruct (G3 167772160 9223372036854775808 eq_refl eq_refl sample_database [] [])
    as (_ & _ & Hraise & Hout).
  split; [exact H1|]. split; [exact (proj1 (Hfit eq_refl))|].
  split; [exact (Hin _ eq_refl)|].
  apply Hraise, Hout. right. vm_compute. discriminate.
Defined.

(** C7, amended.  An IPv6 record is left out of the batch exactly when
    its size field is not accepted by [int]; every other IPv6 record
    puts its address text as it is and that integer as prefix length
    into the batch.  The batch is stored, this row included, exactly
    when every integer of the batch fits in 64 bits, which the prefix
    length must then do; otherwise the insertion raises
    [OverflowError] and stores nothing.  The checks are made at lookup
    time: a row whose prefix length is outside 0-128 or whose address
    does not parse stands for no network and is skipped, and every
    other row stands for the network of that prefix length whose
    address is the parsed one with host bits cleared. *)
Theorem C7_ipv6_rows (e : RirEntry) :
  type (entry e) = "ipv6" ->
  (ipv6_tuple e = None <-> int (value (entry e)) = None)
  /\ (ipv6_tuple e = None ->
      forall d es1 es2,
        insert_entries_to_db d (es1 ++ e :: es2) = insert_entries_to_db d (es1 ++ es2))
  /\ (forall prefix_length,
         int (value (entry e)) = Some prefix_length ->
         forall d es1 es2,
           (forall d',
               insert_entries_to_db d (es1 ++ e :: es2) = Ret d' ->
               In (start (entry e), prefix_length, country_code (entry e), rir e,
                   date (entry e), status (entry e))
                  (map V6.columns (ipv6_ranges d')))
           /\ (batch_fits (es1 ++ e :: es2) = true ->
               (exists d', insert_entries_to_db d (es1 ++ e :: es2) = Ret d')
               /\ - 2 ^ 63 <= prefix_length < 2 ^ 63)
           /\ (batch_fits (es1 ++ e :: es2) = false ->
               insert_entries_to_db d (es1 ++ e :: es2) = Raise OverflowError)
           /\ (prefix_length < - 2 ^ 63 \/ 2 ^ 63 <= prefix_length ->
               batch_fits (es1 ++ e :: es2) = false))
  /\ (forall row,
         row_network row = None
         <-> V6.prefix_length row < 0 \/ 128 < V6.prefix_length row
             \/ IPv6Address (V6.network row) = None)
  /\ (forall row rest ip_obj ip_address,
         row_network row = None ->
         scan_ipv6 (row :: rest) ip_obj ip_address = scan_ipv6 rest ip_obj ip_address)
  /\ (forall row net,
         row_network row = Some net ->
         prefixlen net = V6.prefix_length row
         /\ 0 <= prefixlen net <= 128
         /\ netmask net = ip_int_from_prefix (prefixlen net)
         /\ Z.land (ip (network_address net)) (netmask net) = ip (network_address net)
         /\ exists a, IPv6Address (V6.network row) = Some a
                      /\ ip (network_address net) = Z.land (ip a) (netmask net)).
Proof.
  intros Ht. split; [apply ipv6_tuple_none|]. split; [|split; [|split; [|split]]].
  - intros Hn d es1 es2. apply insert_entries_skip.
    + unfold ipv4_contribution. rewrite Ht. reflexivity.
    + unfold ipv6_contribution. rewrite Hn. destruct (String.eqb _ _); reflexivity.
  - intros p Hp d es1 es2.
    assert (Hc : ipv6_contribution e
                 = [(start (entry e), p, country_code (entry e), rir e,
                     date (entry e), status (entry e))]).
    { unfold ipv6_contribution, ipv6_tuple. rewrite Ht, Hp. reflexivity. }
    assert (Hin : In e (es1 ++ e :: es2)) by (apply in_or_app; right; left; reflexivity).
    assert (Hfit : batch_fits (es1 ++ e :: es2) = true -> - 2 ^ 63 <= p < 2 ^ 63).
    { intros Hf. pose proof (batch_fits_tuple6 _ _ _ Hf Hin Hc) as Hb.
      cbn in Hb. unfold fits_int64 in Hb.
      apply andb_true_iff in Hb as [H1 H2].
      apply Z.leb_le in H1. apply Z.ltb_lt in H2. lia. }
    split; [|split; [|split]].
    + intros d' Hi. apply insert_entries_stored in Hi as (_ & H6 & _). rewrite H6.
      apply in_or_app. right. apply in_flat_map. exists e.
      split; [exact Hin | rewrite Hc; left; reflexivity].
    + intros Hf. split; [|apply Hfit, Hf].
      destruct (proj1 (insert_entries_fits d _) Hf) as (d' & Hi & _). eauto.
    + apply insert_entries_fits.
    + intros Hout. destruct (batch_fits (es1 ++ e :: es2)) eqn:Ef; [|reflexivity].
      specialize (Hfit eq_refl). lia.
  - apply row_network_none.
  - intros row rest ip_obj ip_address H. cbn [scan_ipv6].
    fold (row_network row). rewrite H. reflexivity.
  - apply row_network_some.
Qed.

(** C7 at the record with prefix length 200, which is stored and
    skipped by lookups, and at a record with prefix length 2^63, which
    is not stored. *)
Lemma C7_ipv6_rows_witness :
  (ipv6_tuple (mkRirEntry (mkEntry "ripencc" "FR" "ipv6" "not-an-address" "200" ""
                                   "allocated") "RIPE") = None
   <-> int "200" = None)
  /\ (exists d',
         insert_entries_to_db empty_database
           ([] ++ mkRirEntry (mkEntry "ripencc" "FR" "ipv6" "not-an-address" "200" ""
                                      "allocated") "RIPE" :: []) = Ret d')
  /\ In ("not-an-address", 200, "FR", "RIPE", "", "allocated")
        (map V6.columns [V6.mkRow 1 "not-an-address" 200 "FR" "RIPE" "" "allocated"])
  /\ insert_entries_to_db sample_database ([] ++ huge_prefix_entry :: [])
     = Raise OverflowError
  /\ (row_network (V6.mkRow 1 "not-an-address" 200 "FR" "RIPE" "" "allocated") = None
      <-> 200 < 0 \/ 128 < 200 \/ IPv6Address "not-an-address" = None).
Proof.
  pose proof (C7_ipv6_rows (mkRirEntry (mkEntry "ripencc" "FR" "ipv6" "not-an-address" "200"
                                          "" "allocated") "RIPE")
                eq_refl) as (H1 & _ & H3 & H4 & _).
  destruct (H3 200 eq_refl empty_database [] []) as (Hin & Hfit & _ & _).
  pose proof (C7_ipv6_rows huge_prefix_entry eq_refl) as (_ & _ & G3 & _).
  destruct (G3 9223372036854775808 eq_refl sample_database [] [])
    as (_ & _ & Hraise & Hout).
  split; [exact H1|]. split; [exact (proj1 (Hfit eq_refl))|].
  split; [exact (Hin _ eq_refl)|].
  split; [apply Hraise, Hout; right; vm_compute; discriminate|].
  exact (H4 (V6.mkRow 1 "not-an-address" 200 "FR" "RIPE" "" "allocated")).
Defined.

End StorageClaims.

(** ** The sequence of states of a rebuild *)

Section RebuildTrace.

Variable download_rir_data : string -> option string.

Lemma delivered_false (n : string) : delivered download_rir_data n = false -> registry_entries download_rir_data n = [].
Proof. unfold delivered. destruct (registry_entries download_rir_data n); [reflexivity | discriminate]. Qed.

Lemma delivered_true (n : string) : registry_entries download_rir_data n <> [] -> delivered download_rir_data n = true.
Proof. unfold delivered. destruct (registry_entries download_rir_data n); [congruence | reflexivity]. Qed.

Lemma index_after_app (a b : list string) :
  index_after download_rir_data (a ++ b)
  = ((fst (index_after download_rir_data a)
      ++ fst (index_after download_rir_data b))%list,
     (snd (index_after download_rir_data a)
      ++ snd (index_after download_rir_data b))%list).
Proof. unfold index_after. cbn [fst snd]. rewrite !flat_map_app. reflexivity. Qed.

Lemma index_after_delivering (names : list string) :
  index_after download_rir_data (filter (delivered download_rir_data) names) = index_after download_rir_data names.
Proof.
  induction names as [|n r IH]; [reflexivity|].
  cbn [filter]. destruct (delivered download_rir_data n) eqn:E.
  - change (n :: filter (delivered download_rir_data) r) with ([n] ++ filter (delivered download_rir_data) r)%list.
    change (n :: r) with ([n] ++ r)%list. rewrite !index_after_app, IH. reflexivity.
  - rewrite IH. change (n :: r) with ([n] ++ r)%list. rewrite index_after_app.
    assert (En : index_after download_rir_data [n] = ([], [])).
    { unfold index_after. cbn [flat_map]. rewrite (delivered_false n E). reflexivity. }
    rewrite En. unfold index_after. reflexivity.
Qed.

Lemma stages_prefix (l r : list string) (n : nat) :
  (n <= List.length l)%nat ->
  map (fun k => index_after download_rir_data (firstn k (l ++ r))) (seq 0 (S n))
  = map (fun k => index_after download_rir_data (firstn k l)) (seq 0 (S n)).
Proof.
  intros H. apply map_ext_in. intros k Hk. apply in_seq in Hk.
  rewrite firstn_app. replace (k - List.length l)%nat with 0%nat by lia.
  cbn [firstn]. rewrite app_nil_r. reflexivity.
Qed.

(** The indexes of the commits of the loop, one per delivering
    registry, each adding the whole batch of its registry. *)
Lemma build_loop_trace (names done : list string) (b : Build) :
  index_of (db b) = index_after download_rir_data (filter (delivered download_rir_data) done) ->
  map index_of (commits b)
  = map (fun k => index_after download_rir_data (firstn k (filter (delivered download_rir_data) done)))
        (seq 0 (S (List.length (filter (delivered download_rir_data) done)))) ->
  match build_loop download_rir_data names b with
  | Done b' =>
      map index_of (commits b')
      = map (fun k => index_after download_rir_data (firstn k (filter (delivered download_rir_data) (done ++ names))))
            (seq 0 (S (List.length (filter (delivered download_rir_data) (done ++ names)))))
      /\ index_of (db b') = index_after download_rir_data (filter (delivered download_rir_data) (done ++ names))
  | Crashed e b' =>
      exists j,
        (j < List.length (filter (delivered download_rir_data) (done ++ names)))%nat
        /\ map index_of (commits b')
           = map (fun k => index_after download_rir_data
                             (firstn k (filter (delivered download_rir_data) (done ++ names))))
                 (seq 0 (S j))
        /\ batch_fits (registry_entries download_rir_data (nth j (filter (delivered download_rir_data) (done ++ names)) "")) = false
        /\ index_of (db b')
           = index_after download_rir_data (firstn j (filter (delivered download_rir_data) (done ++ names)))
        /\ e = OverflowError
  end.
Proof.
  revert done b. induction names as [|name rest IH]; intros done b Hi Hc.
  - cbn [build_loop]. rewrite app_nil_r. auto.
  - rewrite build_loop_step.
    replace (done ++ name :: rest)%list with ((done ++ [name]) ++ rest)%list
      by (rewrite <- app_assoc; reflexivity).
    destruct (registry_entries download_rir_data name) as [|e es] eqn:Er.
    + assert (Ed : filter (delivered download_rir_data) (done ++ [name]) = filter (delivered download_rir_data) done).
      { rewrite filter_app. cbn [filter]. unfold delivered. rewrite Er.
        apply app_nil_r. }
      apply IH; rewrite Ed; assumption.
    + assert (Ed : filter (delivered download_rir_data) (done ++ [name]) = (filter (delivered download_rir_data) done ++ [name])%list).
      { rewrite filter_app. cbn [filter]. unfold delivered. rewrite Er. reflexivity. }
      cbv zeta. destruct (batch_fits (e :: es)) eqn:Ef.
      * destruct (proj1 (insert_entries_fits (db b) (e :: es)) Ef) as (d' & Hins & _).
        rewrite Hins.
        assert (Hd : index_of d' = index_after download_rir_data (filter (delivered download_rir_data) (done ++ [name]))).
        { rewrite (insert_entries_index _ _ _ Hins), Ed, index_after_snoc, Hi, Er.
          reflexivity. }
        apply IH; cbn [db commits]; [exact Hd|].
        rewrite map_app, Hc, Ed, length_app, Nat.add_1_r.
        rewrite (seq_S (S (List.length (filter (delivered download_rir_data) done)))), map_app.
        rewrite stages_prefix by lia. cbn [map Nat.add]. f_equal.
        rewrite firstn_all2 by (rewrite length_app; cbn; lia).
        rewrite Hd, Ed. reflexivity.
      * rewrite (proj2 (insert_entries_fits (db b) (e :: es)) Ef).
        exists (List.length (filter (delivered download_rir_data) done)).
        rewrite filter_app, Ed. rewrite <- app_assoc.
        split; [rewrite !length_app; cbn; lia|].
        split; [rewrite stages_prefix by lia; exact Hc|].
        split; [rewrite app_nth2, Nat.sub_diag by lia; cbn [app nth]; rewrite Er; exact Ef|].
        split; [rewrite firstn_exact; exact Hi | reflexivity].
Qed.

Lemma firstn_snoc (l : list string) (k : nat) :
  (k < List.length l)%nat -> firstn (S k) l = (firstn k l ++ [nth k l ""])%list.
Proof.
  revert k. induction l as [|x l IH]; intros k H; [cbn in H; lia|].
  destruct k as [|k]; [reflexivity|].
  cbn [List.length] in H. change (firstn (S (S k)) (x :: l)) with (x :: firstn (S k) l).
  rewrite IH by lia. reflexivity.
Qed.

Lemma stage_step (k : nat) :
  (k < List.length (delivering download_rir_data))%nat ->
  stage download_rir_data (S k)
  = ((fst (stage download_rir_data k)
      ++ flat_map ipv4_contribution
           (registry_entries download_rir_data
              (nth k (delivering download_rir_data) "")))%list,
     (snd (stage download_rir_data k)
      ++ flat_map ipv6_contribution
           (registry_entries download_rir_data
              (nth k (delivering download_rir_data) "")))%list)
  /\ registry_entries download_rir_data (nth k (delivering download_rir_data) "") <> [].
Proof.
  intros H. unfold stage. rewrite firstn_snoc by exact H. split.
  - apply index_after_snoc.
  - assert (Hin : In (nth k (delivering download_rir_data) "")
                     (delivering download_rir_data)) by (apply nth_In, H).
    unfold delivering in Hin at 2. apply filter_In in Hin as [_ Hd].
    unfold delivered in Hd. intros E. rewrite E in Hd. discriminate Hd.
Qed.

(** C4, amended.  A rebuild is a sequence of commits on the live
    tables, and a lookup that runs meanwhile reads the state left by
    the latest one.  These states are, in this order: the database as
    it was; the emptied tables; then, for each registry that delivered
    entries, in the order of [rir_urls], the tables with the whole batch
    of that registry added to those of the registries before it; and,
    when the build ends normally, three more states that differ in the
    metadata only and hold the records of all registries.  When an
    insertion raises, the states end with the commit of the registry
    before.  Every committed state holds exactly the records of the
    first [k] registries for some [k] from 0 to 5. *)
Theorem C4_commit_points (now : string) (old : Database) :
  ((forall c,
      In c (commits (final (build_table download_rir_data now old))) ->
      exists k, (k <= List.length rir_names)%nat
                /\ index_of c = index_after download_rir_data (firstn k rir_names))
   /\ (exists later,
         commits (final (build_table download_rir_data now old))
         = clear_tables old :: later)
   /\ index_of (clear_tables old) = ([], [])
   /\ (forall b,
         build_table download_rir_data now old = Done b ->
         index_of (db b) = index_after download_rir_data rir_names
         /\ last (commits b) old = db b))
  /\ (forall b,
         build_table download_rir_data now old = Done b ->
         map index_of (readable old (build_table download_rir_data now old))
         = (index_of old
            :: map (stage download_rir_data)
                   (seq 0 (S (List.length (delivering download_rir_data))))
            ++ repeat (index_after download_rir_data rir_names) 3)%list
         /\ stage download_rir_data (List.length (delivering download_rir_data))
            = index_after download_rir_data rir_names)
  /\ (forall e b,
         build_table download_rir_data now old = Crashed e b ->
         e = OverflowError
         /\ exists j,
              (j < List.length (delivering download_rir_data))%nat
              /\ map index_of (readable old (build_table download_rir_data now old))
                 = index_of old :: map (stage download_rir_data) (seq 0 (S j))
              /\ batch_fits (registry_entries download_rir_data
                               (nth j (delivering download_rir_data) "")) = false
              /\ index_of (db b) = stage download_rir_data j)
  /\ stage download_rir_data 0 = ([], [])
  /\ (forall k,
         (k < List.length (delivering download_rir_data))%nat ->
         stage download_rir_data (S k)
         = ((fst (stage download_rir_data k)
             ++ flat_map ipv4_contribution
                  (registry_entries download_rir_data
                     (nth k (delivering download_rir_data) "")))%list,
            (snd (stage download_rir_data k)
             ++ flat_map ipv6_contribution
                  (registry_entries download_rir_data
                     (nth k (delivering download_rir_data) "")))%list)
         /\ registry_entries download_rir_data
              (nth k (delivering download_rir_data) "") <> []).
Proof.
  split; [apply build_commit_points|].
  assert (Hfull : stage download_rir_data (List.length (delivering download_rir_data))
                  = index_after download_rir_data rir_names).
  { unfold stage. rewrite firstn_all. apply index_after_delivering. }
  split; [|split; [|split; [reflexivity | apply stage_step]]].
  - unfold readable, build_table.
    pose proof (build_loop_trace rir_names []
                  (commit (mkBuild old [] 0 []) (clear_tables old))
                  eq_refl eq_refl) as T.
    destruct (build_loop download_rir_data rir_names
                (commit (mkBuild old [] 0 []) (clear_tables old))) as [b0|e0 b0];
      [|discriminate].
    destruct T as (Hc & Hd). intros b E. clear E. split; [|exact Hfull].
    cbn [final commit commits db total_entries successful_rirs map app].
    rewrite !map_app, Hc. cbn [map app repeat]. rewrite !index_of_update_metadata.
    rewrite Hd, index_after_delivering, <- !app_assoc. reflexivity.
  - unfold readable, build_table.
    pose proof (build_loop_trace rir_names []
                  (commit (mkBuild old [] 0 []) (clear_tables old))
                  eq_refl eq_refl) as T.
    destruct (build_loop download_rir_data rir_names
                (commit (mkBuild old [] 0 []) (clear_tables old))) as [b0|e0 b0];
      [discriminate|].
    destruct T as (j & Hj & Hc & Hf & Hd & He). intros e b E. injection E as <- <-.
    split; [exact He|]. exists j. cbn [final map app].
    rewrite Hc. repeat split; assumption.
Qed.

End RebuildTrace.
